(** * Paper-trading backend: the automated trading engine and its ledger

    A shallow embedding of
      - [trading_app/auto_trading_engine.py]  (class [AutoTradingEngine]),
      - [trading_app/auto_trading_views.py]   (bot lifecycle endpoints),
      - [trading_app/views.py]                ([buy_stock], [sell_stock]),
      - [trading_app/ml_models/nextday_prediction.py] ([NextDayPredictor.predict]),
      - [trading_app/ml_models/pivot.py]      (class [PivotStrategy]),
      - [trading_app/ml_models/stock_screener.py] (class [StockScreener]),
      - [trading_app/ml_views.py]             (the strategy endpoints),
      - [trading_app/live_prices.py]          ([get_multiple_prices]),
    the properties of the specification that concern them, and further
    properties that the code itself shows.

    Money is Python's [decimal.Decimal] under the default context
    (28 significant digits, ROUND_HALF_EVEN); share quantities and counters
    are Python integers; signal scores are Python numbers that the engine
    only adds, halves and compares, kept here as rationals. *)

From Stdlib Require Import ZArith QArith Qround Qabs Qpower Qfield.
From Stdlib Require Import List String Ascii Bool Lia Lqa.
Import ListNotations.

Local Open Scope Z_scope.

(* ================================================================== *)
(** * Decimal arithmetic *)
(* ================================================================== *)

(** A finite [Decimal] is a signed coefficient and an exponent; its value is
    [coeff * 10 ^ expo].  Operations follow the General Decimal Arithmetic
    rules that [decimal] implements, with the default context's precision
    and rounding.  The exponent range of the context (|exponent| below
    10^6), the sign of zero, NaN and the infinities are not modelled. *)
Record Decimal : Type := mkDec { coeff : Z; expo : Z }.

Definition prec : Z := 28.

(** [len(str(n))] for [n >= 0]. *)
Fixpoint ndigits_aux (fuel : nat) (n : Z) : Z :=
  match fuel with
  | O => 1
  | S f => if n <? 10 then 1 else 1 + ndigits_aux f (n / 10)
  end.

Definition ndigits (n : Z) : Z := ndigits_aux (Z.to_nat (Z.log2 n)) n.

(** ROUND_HALF_EVEN: drop the last [k > 0] digits of [c >= 0]. *)
Definition round_half_even (c k : Z) : Z :=
  let p := 10 ^ k in
  let q := c / p in
  let r := c mod p in
  let half := 5 * 10 ^ (k - 1) in
  if (half <? r) || ((r =? half) && Z.odd q) then q + 1 else q.

(** [Decimal._fix] on a magnitude: at most [prec] digits are kept; a carry
    out of the rounding that makes a digit too many drops the last zero. *)
Definition fix_abs (c e : Z) : Z * Z :=
  let k := ndigits c - prec in
  if 0 <? k then
    let q := round_half_even c k in
    if prec <? ndigits q then (q / 10, e + k + 1) else (q, e + k)
  else (c, e).

Definition dec_fix (d : Decimal) : Decimal :=
  let '(c, e) := fix_abs (Z.abs (coeff d)) (expo d) in
  mkDec (Z.sgn (coeff d) * c) e.

(** [Decimal(n)] for a Python integer [n]: exact. *)
Definition dec_of_int (n : Z) : Decimal := mkDec n 0.

Definition dec_zero : Decimal := mkDec 0 0.

(** Two decimals brought to their smaller exponent. *)
Definition aligned (a b : Decimal) : Z * Z :=
  let e := Z.min (expo a) (expo b) in
  (coeff a * 10 ^ (expo a - e), coeff b * 10 ^ (expo b - e)).

Definition dec_add (a b : Decimal) : Decimal :=
  let '(x, y) := aligned a b in
  dec_fix (mkDec (x + y) (Z.min (expo a) (expo b))).

Definition dec_opp (a : Decimal) : Decimal := mkDec (- coeff a) (expo a).

(** [a - b] is [a + b.copy_negate()]. *)
Definition dec_sub (a b : Decimal) : Decimal := dec_add a (dec_opp b).

Definition dec_mul (a b : Decimal) : Decimal :=
  dec_fix (mkDec (coeff a * coeff b) (expo a + expo b)).

(** An exact quotient is brought as close to the ideal exponent as its
    trailing zeros allow. *)
Fixpoint strip_zeros (fuel : nat) (c e ideal : Z) : Z * Z :=
  match fuel with
  | O => (c, e)
  | S f =>
      if (e <? ideal) && (c mod 10 =? 0)
      then strip_zeros f (c / 10) (e + 1) ideal
      else (c, e)
  end.

(** [Decimal.__truediv__]; [None] is the DivisionByZero (or, for 0/0, the
    InvalidOperation) exception, both trapped by the default context. *)
Definition dec_div (a b : Decimal) : option Decimal :=
  if coeff b =? 0 then None
  else if coeff a =? 0 then Some (dec_fix (mkDec 0 (expo a - expo b)))
  else
    let x := Z.abs (coeff a) in
    let y := Z.abs (coeff b) in
    let sign := Z.sgn (coeff a) * Z.sgn (coeff b) in
    let shift := ndigits y - ndigits x + prec + 1 in
    let e := expo a - expo b - shift in
    let num := if 0 <=? shift then x * 10 ^ shift else x in
    let den := if 0 <=? shift then y else y * 10 ^ (- shift) in
    let q := num / den in
    let r := num mod den in
    let '(c, e') :=
      if r =? 0
      then strip_zeros (Z.to_nat shift) q e (expo a - expo b)
      else (if q mod 5 =? 0 then q + 1 else q, e) in
    Some (dec_fix (mkDec (sign * c) e')).

(** Comparisons are exact, whatever the number of digits. *)
Definition dec_compare (a b : Decimal) : comparison :=
  let '(x, y) := aligned a b in x ?= y.

Definition dec_ltb (a b : Decimal) : bool :=
  match dec_compare a b with Lt => true | _ => false end.
Definition dec_gtb (a b : Decimal) : bool := dec_ltb b a.
Definition dec_leb (a b : Decimal) : bool := negb (dec_ltb b a).
Definition dec_geb (a b : Decimal) : bool := negb (dec_ltb a b).
Definition dec_eqb (a b : Decimal) : bool :=
  match dec_compare a b with Eq => true | _ => false end.

(** [int(d)]: truncation towards zero. *)
Definition dec_to_int (d : Decimal) : Z :=
  if 0 <=? expo d then coeff d * 10 ^ expo d
  else Z.quot (coeff d) (10 ^ (- expo d)).

(** The rational a decimal denotes. *)
Definition dec_value (d : Decimal) : Q :=
  if 0 <=? expo d then inject_Z (coeff d * 10 ^ expo d)
  else Qmake (coeff d) (Z.to_pos (10 ^ (- expo d))).

(** Ten to a power of either sign. *)
Definition pow10 (e : Z) : Q := (inject_Z 10 ^ e)%Q.

(** Literals: [cents n] is [Decimal("x.yz")] for [n = xyz]. *)
Definition cents (n : Z) : Decimal := mkDec n (-2).


(* ================================================================== *)
(** * Numbers of the signal aggregation *)
(* ================================================================== *)

(** Scores, confidences and the thresholds of the risk table are Python
    [int]s and [float]s.  Every score the engine can see is a small decimal
    number with at most one fractional digit and at most two are averaged,
    so the float operations involved are exact; they are kept as rationals,
    a float literal standing for the decimal number it is written as. *)

(** Python's [round(x, n)]: to [n] decimals, ties to even. *)
Definition py_round (x : Q) (n : nat) : Q :=
  let scale := inject_Z (10 ^ Z.of_nat n) in
  let y := (x * scale)%Q in
  let f := Qfloor y in
  let r := (y - inject_Z f)%Q in
  let up :=
    match (r ?= 1 # 2)%Q with
    | Lt => false
    | Gt => true
    | Eq => Z.odd f
    end in
  (inject_Z (if up then f + 1 else f) / scale)%Q.

Definition Qltb (x y : Q) : bool :=
  match (x ?= y)%Q with Lt => true | _ => false end.
Definition Qgtb (x y : Q) : bool := Qltb y x.
Definition Qleb (x y : Q) : bool := negb (Qltb y x).
Definition Qgeb (x y : Q) : bool := negb (Qltb x y).

(* ================================================================== *)
(** * Data model *)
(* ================================================================== *)

Definition Ticker := string.

Inductive RiskLevel := LOW | MEDIUM | HIGH.
Inductive BotStatus := ACTIVE | PAUSED | STOPPED.
Inductive Action := BUY | SELL | HOLD.
Inductive TransactionType := buy | sell.

(** One entry of [AutoTradingEngine.RISK_CONFIG].  [max_position_size] is
    only ever read through [Decimal(str(...))] and is kept as that decimal. *)
Record RiskConfig : Type := {
  max_position_size : Decimal;
  max_portfolio_exposure : Q;
  stop_loss : Q;
  take_profit : Q;
  min_confidence : Z;
  stocks : list Ticker;
  expected_monthly_return : Q
}.

Definition RISK_CONFIG (r : RiskLevel) : RiskConfig :=
  match r with
  | LOW =>
      {| max_position_size := mkDec 1 (-1);
         max_portfolio_exposure := 40 # 100;
         stop_loss := 5 # 100;
         take_profit := 8 # 100;
         min_confidence := 70;
         stocks := ["AAPL"; "MSFT"; "JNJ"; "PG"; "KO"]%string;
         expected_monthly_return := 25 # 10 |}
  | MEDIUM =>
      {| max_position_size := mkDec 15 (-2);
         max_portfolio_exposure := 60 # 100;
         stop_loss := 8 # 100;
         take_profit := 12 # 100;
         min_confidence := 60;
         stocks := ["AAPL"; "GOOGL"; "NVDA"; "TSLA"; "AMD"; "META"; "NFLX"]%string;
         expected_monthly_return := 5 |}
  | HIGH =>
      {| max_position_size := mkDec 2 (-1);
         max_portfolio_exposure := 80 # 100;
         stop_loss := 12 # 100;
         take_profit := 20 # 100;
         min_confidence := 50;
         stocks := ["NVDA"; "TSLA"; "AMD"; "COIN"; "PLTR"; "SOFI"; "RIOT"]%string;
         expected_monthly_return := 10 |}
  end.

Inductive Duration := SHORT | MEDIUM_TERM | LONG.

Definition DURATION_MULTIPLIER (d : Duration) : Z :=
  match d with SHORT => 1 | MEDIUM_TERM => 2 | LONG => 3 end.

Record AutoTradingBot : Type := {
  risk_level : RiskLevel;
  duration : Duration;
  use_pivot : bool;
  use_prediction : bool;
  use_screener : bool;
  use_index_rebalancing : bool;
  initial_capital : Decimal;
  current_capital : Decimal;
  total_profit_loss : Decimal;
  total_trades : Z;
  winning_trades : Z;
  losing_trades : Z;
  status : BotStatus;
  last_trade_at : option nat
}.

(** A row of the Holding table; [pk] is its primary key. *)
Record Holding : Type := {
  pk : nat;
  stock : Ticker;
  quantity : Z;
  buying_price : Decimal;
  current_price : Decimal
}.

(** Why the engine sells: the [reason] argument of [execute_sell], whose
    text embeds the profit percentage that triggered the exit. *)
Inductive Reason :=
| StopLossTriggered (profit_pct : Decimal)
| TakeProfitTriggered (profit_pct : Decimal)
| ReasonText (text : string).

(** The [description] f-strings, by their parts. *)
Inductive Description :=
| Bought (by_bot : bool) (qty : Z) (t : Ticker) (price : Decimal)
| Sold (by_bot : bool) (qty : Z) (t : Ticker) (price : Decimal)
       (reason : option Reason).

Record Transaction : Type := {
  transaction_type : TransactionType;
  debit : Decimal;
  credit : Decimal;
  description : Description;
  balance_after : Decimal
}.

Inductive StrategyUsed :=
| Strategies (joined : string)
| Exit (reason : Reason).

Record BotTrade : Type := {
  bt_stock : Ticker;
  bt_action : Action;
  bt_quantity : Z;
  bt_price : Decimal;
  total_value : Decimal;
  strategy_used : StrategyUsed;
  confidence_score : option Q;
  bt_profit_loss : option Decimal
}.

(** The rows of one account: every query of the sources filters on the
    user, so the tables are kept per account. *)
Record Account : Type := {
  balance : Decimal;
  holdings : list Holding;
  next_pk : nat;
  transactions : list Transaction
}.

(** An account together with one of its bots and that bot's trade log:
    what an [AutoTradingEngine(bot)] reads and writes. *)
Record Ledger : Type := {
  account : Account;
  bot : AutoTradingBot;
  bot_trades : list BotTrade
}.

Definition set_balance (v : Decimal) (a : Account) : Account :=
  {| balance := v; holdings := holdings a; next_pk := next_pk a;
     transactions := transactions a |}.

Definition set_holdings (hs : list Holding) (a : Account) : Account :=
  {| balance := balance a; holdings := hs; next_pk := next_pk a;
     transactions := transactions a |}.

Definition on_account (f : Account -> Account) (s : Ledger) : Ledger :=
  {| account := f (account s); bot := bot s; bot_trades := bot_trades s |}.

Definition set_bot (b : AutoTradingBot) (s : Ledger) : Ledger :=
  {| account := account s; bot := b; bot_trades := bot_trades s |}.

Definition set_status (st : BotStatus) (b : AutoTradingBot) : AutoTradingBot :=
  {| risk_level := risk_level b; duration := duration b;
     use_pivot := use_pivot b; use_prediction := use_prediction b;
     use_screener := use_screener b;
     use_index_rebalancing := use_index_rebalancing b;
     initial_capital := initial_capital b;
     current_capital := current_capital b;
     total_profit_loss := total_profit_loss b;
     total_trades := total_trades b; winning_trades := winning_trades b;
     losing_trades := losing_trades b; status := st;
     last_trade_at := last_trade_at b |}.

(** The bot fields a trade rewrites. *)
Definition set_trading (cap pl : Decimal) (tot win lose : Z) (at_ : nat)
    (b : AutoTradingBot) : AutoTradingBot :=
  {| risk_level := risk_level b; duration := duration b;
     use_pivot := use_pivot b; use_prediction := use_prediction b;
     use_screener := use_screener b;
     use_index_rebalancing := use_index_rebalancing b;
     initial_capital := initial_capital b;
     current_capital := cap;
     total_profit_loss := pl;
     total_trades := tot; winning_trades := win;
     losing_trades := lose; status := status b;
     last_trade_at := Some at_ |}.

(* ================================================================== *)
(** * The ORM operations on the tables *)
(* ================================================================== *)

(** [Holding.objects.filter(user=..., stock=t)]. *)
Definition holdings_of (t : Ticker) (a : Account) : list Holding :=
  filter (fun h => String.eqb (stock h) t) (holdings a).

(** [Holding.objects.create(...)]: a fresh primary key, the row appended. *)
Definition insert_holding (t : Ticker) (q : Z) (p : Decimal) (a : Account)
  : Account :=
  {| balance := balance a;
     holdings := holdings a ++
       [{| pk := next_pk a; stock := t; quantity := q;
           buying_price := p; current_price := p |}];
     next_pk := S (next_pk a);
     transactions := transactions a |}.

(** [holding.save()]: the row of that primary key is overwritten. *)
Definition update_holding (h : Holding) (a : Account) : Account :=
  set_holdings
    (map (fun r => if Nat.eqb (pk r) (pk h) then h else r) (holdings a)) a.

(** [holding.delete()]. *)
Definition delete_holding (h : Holding) (a : Account) : Account :=
  set_holdings
    (filter (fun r => negb (Nat.eqb (pk r) (pk h))) (holdings a)) a.

(** [Transaction.objects.create(...)]. *)
Definition append_transaction (t : Transaction) (a : Account) : Account :=
  {| balance := balance a; holdings := holdings a; next_pk := next_pk a;
     transactions := transactions a ++ [t] |}.

(** [BotTrade.objects.create(...)]. *)
Definition append_bot_trade (t : BotTrade) (s : Ledger) : Ledger :=
  {| account := account s; bot := bot s; bot_trades := bot_trades s ++ [t] |}.

(* ================================================================== *)
(** * Executions that can raise *)
(* ================================================================== *)

(** The sources run under Django's autocommit: every [save()], [create()]
    and [delete()] is committed when it returns, and none of the functions
    opens a transaction.  An execution is therefore a sequence of store
    writes, any of which may raise; [Faults] says which ones do (the
    [n]-th write of the execution, counted from 0).  An outcome keeps the
    store as the writes so far left it, also when the execution raised. *)
Definition Faults := nat -> bool.

Definition no_faults : Faults := fun _ => false.

(** The store refuses its [k]-th write. *)
Definition fails_at (k : nat) : Faults := fun n => Nat.eqb n k.

Inductive outcome (St A : Type) : Type :=
| Returned (a : A) (writes : nat) (s : St)
| Raised (s : St).
Arguments Returned {St A} a writes s.
Arguments Raised {St A} s.

Definition Exec (St A : Type) : Type := Faults -> nat -> St -> outcome St A.

Definition ret {St A} (a : A) : Exec St A := fun _ n s => Returned a n s.

Definition bind {St A B} (c : Exec St A) (k : A -> Exec St B) : Exec St B :=
  fun fs n s =>
    match c fs n s with
    | Returned a n' s' => k a fs n' s'
    | Raised s' => Raised s'
    end.

Definition raise {St A} : Exec St A := fun _ _ s => Raised s.

Definition get_store {St} : Exec St St := fun _ n s => Returned s n s.

Definition orm_write {St} (f : St -> St) : Exec St unit :=
  fun fs n s => if fs n then Raised s else Returned tt (S n) (f s).

Declare Scope exec_scope.
Delimit Scope exec_scope with exec.
Notation "x <- c ;; k" := (bind c (fun x => k))
  (at level 61, c at next level, right associativity) : exec_scope.
Notation "c ;;; k" := (bind c (fun _ => k))
  (at level 61, right associativity) : exec_scope.

(** A decimal division inside an execution: the exception it may raise. *)
Definition decimal_div {St} (a b : Decimal) : Exec St Decimal :=
  match dec_div a b with
  | Some q => ret q
  | None => raise
  end.

(** [Holding.objects.get_or_create(user=..., stock=t, defaults=...)]:
    the one matching row, or a new one; several matching rows raise
    MultipleObjectsReturned. *)
Definition get_or_create (t : Ticker) (q : Z) (p : Decimal)
  : Exec Account (Holding * bool) :=
  bind get_store (fun a =>
    match holdings_of t a with
    | [] =>
        bind (orm_write (insert_holding t q p)) (fun _ =>
          ret ({| pk := next_pk a; stock := t; quantity := q;
                  buying_price := p; current_price := p |}, true))
    | [h] => ret (h, false)
    | _ :: _ :: _ => raise
    end).

(** An account operation run on the account of a ledger. *)
Definition lift_account {A} (c : Exec Account A) : Exec Ledger A :=
  fun fs n s =>
    match c fs n (account s) with
    | Returned a n' acc => Returned a n' (on_account (fun _ => acc) s)
    | Raised acc => Raised (on_account (fun _ => acc) s)
    end.

(* ================================================================== *)
(** * The outside world *)
(* ================================================================== *)

(** Today's bar as [NextDayPredictor.get_live_data] returns it. *)
Record OHLCV : Type := {
  open_price : Q;
  high : Q;
  low : Q;
  close : Q;
  volume : Z
}.

(** One snapshot of everything the engine asks the outside world for.
    - [live_price t]: the decimal [Decimal(str(round(price, 2)))] of the
      price that [get_live_price(t)] returned, [None] when that price is
      [None] or falsy (the callers test [if not price] before rounding);
    - [pivot_predict t]: the ['signal'] of [PivotStrategy().predict(ticker=t)],
      [None] when the result carries ['error'];
    - [live_data t]: what [NextDayPredictor.get_live_data(t)] returns;
    - [screener_score t], [index_score t]: the scores the screener and the
      index-rebalancing strategy report for [t] ([None]: an error result);
    - [now]: the clock read by [datetime.now()]. *)
Record Market : Type := {
  live_price : Ticker -> option Decimal;
  pivot_predict : Ticker -> option string;
  live_data : Ticker -> option OHLCV;
  screener_score : Ticker -> option Q;
  index_score : Ticker -> option Q;
  now : nat
}.

(* ================================================================== *)
(** * NextDayPredictor.predict *)
(* ================================================================== *)

Inductive Direction := UP | DOWN | NEUTRAL.

Record Prediction : Type := {
  prediction : Direction;
  pred_confidence : Q
}.

Definition Qzerob (x : Q) : bool := Qeq_bool x 0.

Definition py_min (x y : Q) : Q := if Qltb y x then y else x.

(** [predict(ticker=t)] where [d] is the live data fetched for [t];
    [None] is a result that carries ['error'].  The float arithmetic of
    [price_change] and [hl_range] is done in the rationals. *)
Definition predict (d : option OHLCV) : option Prediction :=
  match d with
  | None => None
  | Some d =>
      if Qzerob (open_price d) || Qzerob (high d) || Qzerob (low d)
         || Qzerob (close d) || (volume d =? 0)
      then None
      else
        let price_change :=
          (((close d - open_price d) / open_price d) * 100)%Q in
        let hl_range := (((high d - low d) / close d) * 100)%Q in
        let score := 0%Q in
        let score :=
          if Qgtb price_change 2 then (score + 3)%Q
          else if Qgtb price_change 0 then (score + 1)%Q
          else score in
        let score :=
          if Qltb price_change (-2) then (score - 3)%Q
          else if Qltb price_change 0 then (score - 1)%Q
          else score in
        let score := if Qgtb hl_range 5 then (score * (8 # 10))%Q else score in
        let '(p, confidence) :=
          if Qgeb score 2 then (UP, py_min (70 + score * 5)%Q 90)
          else if Qleb score (-2)
               then (DOWN, py_min (70 + Qabs score * 5)%Q 90)
               else (NEUTRAL, 50%Q) in
        Some {| prediction := p; pred_confidence := py_round confidence 1 |}
  end.

(* ================================================================== *)
(** * AutoTradingEngine: signal aggregation *)
(* ================================================================== *)

Inductive StrategyKey := pivot | prediction_key | screener | index.

Inductive Strategy :=
| PivotStrategy | NextDayPredictor | StockScreener | IndexRebalancingStrategy.

(** [self.strategies], built by [__init__] from the bot's switches. *)
Definition strategies (b : AutoTradingBot) (k : StrategyKey)
  : option Strategy :=
  match k with
  | pivot => if use_pivot b then Some PivotStrategy else None
  | prediction_key => if use_prediction b then Some NextDayPredictor else None
  | screener => if use_screener b then Some StockScreener else None
  | index =>
      if use_index_rebalancing b then Some IndexRebalancingStrategy else None
  end.

Definition config (b : AutoTradingBot) : RiskConfig :=
  RISK_CONFIG (risk_level b).

Local Open Scope string_scope.
Local Open Scope list_scope.
Local Open Scope Z_scope.

Definition _signal_to_score (signal : string) : Z :=
  if String.eqb signal "STRONG_BUY" then 90
  else if String.eqb signal "BUY" then 70
  else if String.eqb signal "HOLD_BULLISH" then 50
  else if String.eqb signal "HOLD_BEARISH" then -50
  else if String.eqb signal "SELL" then -70
  else if String.eqb signal "STRONG_SELL" then -90
  else 0.

(** The result of [analyze_stock]; a signal is kept as its name and score
    (the provider's full result, third component in the source, is only
    carried along). *)
Record Analysis : Type := {
  action : Action;
  confidence : Q;
  signals : list (string * Q);
  ticker : Ticker
}.

(** [sum(s[1] for s in signals)]. *)
Definition sum_scores (sigs : list (string * Q)) : Q :=
  fold_left (fun acc s => (acc + snd s)%Q) sigs 0%Q.

Definition pivot_signals (m : Market) (b : AutoTradingBot) (t : Ticker)
  : list (string * Q) :=
  match strategies b pivot with
  | Some _ =>
      match pivot_predict m t with
      | Some signal => [("Pivot", inject_Z (_signal_to_score signal))]
      | None => []
      end
  | None => []
  end.

Definition prediction_signals (m : Market) (b : AutoTradingBot) (t : Ticker)
  : list (string * Q) :=
  match strategies b prediction_key with
  | Some _ =>
      match predict (live_data m t) with
      | Some result =>
          let score :=
            match prediction result with
            | UP => pred_confidence result
            | _ => (- pred_confidence result)%Q
            end in
          [("Prediction", score)]
      | None => []
      end
  | None => []
  end.

(** The "Calculate combined signal" step of [analyze_stock]. *)
Definition combined_signal (cfg : RiskConfig) (t : Ticker)
    (sigs : list (string * Q)) : option Analysis :=
  match sigs with
  | [] => None
  | _ :: _ =>
      let avg_score :=
        (sum_scores sigs / inject_Z (Z.of_nat (List.length sigs)))%Q in
      let confidence := Qabs avg_score in
      let action :=
        if Qgtb avg_score (inject_Z (min_confidence cfg))
        then BUY else HOLD in
      Some {| action := action; confidence := confidence;
              signals := sigs; ticker := t |}
  end.

Definition analyze_stock (m : Market) (b : AutoTradingBot) (t : Ticker)
  : option Analysis :=
  let sigs := [] ++ pivot_signals m b t in
  let sigs := sigs ++ prediction_signals m b t in
  combined_signal (config b) t sigs.

(* ================================================================== *)
(** * AutoTradingEngine: orders *)
(* ================================================================== *)

Local Open Scope exec_scope.

(** What a buy does to the Holding table: [get_or_create], and the merge
    into the row it found when it created none.  The same statements in
    [execute_buy] and in [buy_stock]. *)
Definition merge_buy (holding : Holding) (qty : Z) (price : Decimal)
  : Exec Account unit :=
  let total_quantity := quantity holding + qty in
  let total_cost :=
    dec_add (dec_mul (buying_price holding) (dec_of_int (quantity holding)))
            (dec_mul price (dec_of_int qty)) in
  avg <- decimal_div total_cost (dec_of_int total_quantity) ;;
  orm_write (update_holding
    {| pk := pk holding; stock := stock holding; quantity := total_quantity;
       buying_price := avg; current_price := price |}).

Definition upsert_holding (t : Ticker) (qty : Z) (price : Decimal)
  : Exec Account unit :=
  hc <- get_or_create t qty price ;;
  if snd hc then ret tt else merge_buy (fst hc) qty price.

Definition execute_buy_body (m : Market) (t : Ticker) (analysis : Analysis)
  : Exec Ledger (option BotTrade) :=
  match live_price m t with
  | None => ret None
  | Some price =>
      s <- get_store ;;
      let b := bot s in
      let max_investment :=
        dec_mul (current_capital b) (max_position_size (config b)) in
      q <- decimal_div max_investment price ;;
      let qty := dec_to_int q in
      if (qty =? 0)%Z then ret None
      else
        let total_cost := dec_mul price (dec_of_int qty) in
        if dec_gtb total_cost (current_capital b) then ret None
        else
          lift_account (upsert_holding t qty price) ;;;
          let new_balance := dec_sub (balance (account s)) total_cost in
          orm_write (on_account (set_balance new_balance)) ;;;
          orm_write (set_bot
            (set_trading (dec_sub (current_capital b) total_cost)
               (total_profit_loss b) (total_trades b + 1)
               (winning_trades b) (losing_trades b) (now m) b)) ;;;
          orm_write (on_account (append_transaction
            {| transaction_type := buy;
               debit := total_cost;
               credit := cents 0;
               description := Bought true qty t price;
               balance_after := new_balance |})) ;;;
          let bot_trade :=
            {| bt_stock := t; bt_action := BUY; bt_quantity := qty;
               bt_price := price; total_value := total_cost;
               strategy_used :=
                 Strategies (String.concat ", " (map fst (signals analysis)));
               confidence_score := Some (py_round (confidence analysis) 2);
               bt_profit_loss := None |} in
          orm_write (append_bot_trade bot_trade) ;;;
          ret (Some bot_trade)
  end.

(** [try: ... except Exception: return None]: the handler returns, the
    store is as the writes before the exception left it. *)
Definition try_except {St A} (c : Exec St (option A)) (fs : Faults) (s : St)
  : option A * St :=
  match c fs O s with
  | Returned a _ s' => (a, s')
  | Raised s' => (None, s')
  end.

Definition execute_buy (m : Market) (fs : Faults) (s : Ledger) (t : Ticker)
    (analysis : Analysis) : option BotTrade * Ledger :=
  try_except (execute_buy_body m t analysis) fs s.

Definition execute_sell_body (m : Market) (holding : Holding) (reason : Reason)
  : Exec Ledger (option BotTrade) :=
  match live_price m (stock holding) with
  | None => ret None
  | Some price =>
      s <- get_store ;;
      let b := bot s in
      let revenue := dec_mul price (dec_of_int (quantity holding)) in
      let profit_loss :=
        dec_sub revenue
          (dec_mul (buying_price holding) (dec_of_int (quantity holding))) in
      let new_balance := dec_add (balance (account s)) revenue in
      orm_write (on_account (set_balance new_balance)) ;;;
      let won := dec_gtb profit_loss (dec_of_int 0) in
      orm_write (set_bot
        (set_trading (dec_add (current_capital b) revenue)
           (dec_add (total_profit_loss b) profit_loss) (total_trades b + 1)
           (if won then winning_trades b + 1 else winning_trades b)
           (if won then losing_trades b else losing_trades b + 1)
           (now m) b)) ;;;
      orm_write (on_account (append_transaction
        {| transaction_type := sell;
           debit := cents 0;
           credit := revenue;
           description :=
             Sold true (quantity holding) (stock holding) price (Some reason);
           balance_after := new_balance |})) ;;;
      let bot_trade :=
        {| bt_stock := stock holding; bt_action := SELL;
           bt_quantity := quantity holding; bt_price := price;
           total_value := revenue; strategy_used := Exit reason;
           confidence_score := None;
           bt_profit_loss := Some profit_loss |} in
      orm_write (append_bot_trade bot_trade) ;;;
      orm_write (on_account (delete_holding holding)) ;;;
      ret (Some bot_trade)
  end.

Definition execute_sell (m : Market) (fs : Faults) (s : Ledger)
    (holding : Holding) (reason : Reason) : option BotTrade * Ledger :=
  try_except (execute_sell_body m holding reason) fs s.

(* ================================================================== *)
(** * Holding: derived figures *)
(* ================================================================== *)

(** Modelled from the spec: [Holding.total_invested] of
    [trading_app/models.py], which is not among the sources: average price
    times quantity. *)
Definition total_invested (h : Holding) : Decimal :=
  dec_mul (buying_price h) (dec_of_int (quantity h)).

(** Modelled from the spec: [Holding.current_value] of
    [trading_app/models.py]: current price times quantity. *)
Definition current_value (h : Holding) : Decimal :=
  dec_mul (current_price h) (dec_of_int (quantity h)).

(** Modelled from the spec: [Holding.profit_loss] of
    [trading_app/models.py]: current value minus total invested. *)
Definition profit_loss (h : Holding) : Decimal :=
  dec_sub (current_value h) (total_invested h).

(** Modelled from the spec: [Holding.profit_loss_percentage] of
    [trading_app/models.py]: profit/loss divided by total invested, times
    100, and zero when total invested is zero. *)
Definition profit_loss_percentage (h : Holding) : Decimal :=
  match dec_div (profit_loss h) (total_invested h) with
  | Some r => dec_mul r (dec_of_int 100)
  | None => dec_zero
  end.

Definition set_current_price (p : Decimal) (h : Holding) : Holding :=
  {| pk := pk h; stock := stock h; quantity := quantity h;
     buying_price := buying_price h; current_price := p |}.

(* ================================================================== *)
(** * AutoTradingEngine: the trading cycle *)
(* ================================================================== *)

(** The cycle is modelled for a store that accepts every write, so that
    the objects the engine holds in memory and the rows agree throughout. *)

(** One iteration of the loop of [check_stop_loss_take_profit]. *)
Definition check_holding (m : Market) (s : Ledger) (holding : Holding)
  : Ledger :=
  match live_price m (stock holding) with
  | None => s
  | Some p =>
      let holding := set_current_price p holding in
      let s := on_account (update_holding holding) s in
      let profit_pct :=
        match dec_div (profit_loss_percentage holding) (dec_of_int 100) with
        | Some r => r
        | None => dec_zero
        end in
      let cfg := config (bot s) in
      if Qleb (dec_value profit_pct) (- stop_loss cfg)%Q
      then snd (execute_sell m no_faults s holding
                  (StopLossTriggered profit_pct))
      else if Qgeb (dec_value profit_pct) (take_profit cfg)
      then snd (execute_sell m no_faults s holding
                  (TakeProfitTriggered profit_pct))
      else s
  end.

(** The rows are those the query returned when the loop started. *)
Definition check_stop_loss_take_profit (m : Market) (s : Ledger) : Ledger :=
  fold_left (check_holding m) (holdings (account s)) s.

Record CycleStats : Type := {
  analyzed : Z;
  bought : Z;
  sold : Z;
  cycle_signals : list Analysis
}.

Inductive CycleResult :=
| BotNotActive
| Completed (results : CycleStats).

Definition is_buy (a : Action) : bool :=
  match a with BUY => true | _ => false end.

(** One iteration of the watchlist loop of [run_trading_cycle]. *)
Definition scan_ticker (m : Market) (acc : CycleStats * Ledger) (t : Ticker)
  : CycleStats * Ledger :=
  let '(results, s) := acc in
  match analyze_stock m (bot s) t with
  | None => (results, s)
  | Some analysis =>
      let results :=
        {| analyzed := analyzed results + 1; bought := bought results;
           sold := sold results;
           cycle_signals := cycle_signals results ++ [analysis] |} in
      if is_buy (action analysis)
         && Qgeb (confidence analysis)
                 (inject_Z (min_confidence (config (bot s))))
      then
        let '(trade, s') := execute_buy m no_faults s t analysis in
        match trade with
        | Some _ =>
            ({| analyzed := analyzed results; bought := bought results + 1;
                sold := sold results;
                cycle_signals := cycle_signals results |}, s')
        | None => (results, s')
        end
      else (results, s)
  end.

Definition scan_watchlist (m : Market) (s : Ledger) : CycleStats * Ledger :=
  fold_left (scan_ticker m) (stocks (config (bot s)))
    ({| analyzed := 0; bought := 0; sold := 0; cycle_signals := [] |}, s).

Definition bot_is_active (b : AutoTradingBot) : bool :=
  match status b with ACTIVE => true | _ => false end.

Definition run_trading_cycle (m : Market) (s : Ledger)
  : CycleResult * Ledger :=
  if negb (bot_is_active (bot s)) then (BotNotActive, s)
  else
    let s := check_stop_loss_take_profit m s in
    let '(results, s) := scan_watchlist m s in
    (Completed results, s).

(* ================================================================== *)
(** * Bot lifecycle endpoints (auto_trading_views.py) *)
(* ================================================================== *)

(** The body of a [create_bot] request, its defaults filled in and its
    risk level and duration among the keys of the two tables. *)
Record CreateBotRequest : Type := {
  req_risk_level : RiskLevel;
  req_duration : Duration;
  req_initial_capital : Decimal;
  req_use_pivot : bool;
  req_use_prediction : bool;
  req_use_screener : bool;
  req_use_index_rebalancing : bool
}.

Inductive CreateBotResponse :=
| InsufficientBalanceForBot (have need : Decimal)
| BotCreated (b : AutoTradingBot) (expected_return : Q).

(** [create_bot], for a store that accepts both of its writes.  The
    fields the call does not pass take the defaults of the model, which
    the specification gives: a new bot is ACTIVE, has made no trade and
    no profit or loss. *)
Definition create_bot (r : CreateBotRequest) (user : Account)
  : CreateBotResponse * Account :=
  let initial_capital := req_initial_capital r in
  if dec_gtb initial_capital (balance user)
  then (InsufficientBalanceForBot (balance user) initial_capital, user)
  else
    let cfg := RISK_CONFIG (req_risk_level r) in
    let duration_multiplier := DURATION_MULTIPLIER (req_duration r) in
    let expected_return :=
      (expected_monthly_return cfg * inject_Z duration_multiplier)%Q in
    let b :=
      {| risk_level := req_risk_level r; duration := req_duration r;
         use_pivot := req_use_pivot r;
         use_prediction := req_use_prediction r;
         use_screener := req_use_screener r;
         use_index_rebalancing := req_use_index_rebalancing r;
         initial_capital := initial_capital;
         current_capital := initial_capital;
         total_profit_loss := cents 0;
         total_trades := 0; winning_trades := 0; losing_trades := 0;
         status := ACTIVE; last_trade_at := None |} in
    (BotCreated b expected_return,
     set_balance (dec_sub (balance user) initial_capital) user).

(** The ledger an engine works on once the bot exists. *)
Definition open_ledger (user : Account) (b : AutoTradingBot) : Ledger :=
  {| account := user; bot := b; bot_trades := [] |}.

Definition start_bot (s : Ledger) : Ledger :=
  set_bot (set_status ACTIVE (bot s)) s.

Definition pause_bot (s : Ledger) : Ledger :=
  set_bot (set_status PAUSED (bot s)) s.

(** Modelled from the spec: [AutoTradingBot.roi_percentage] of
    [trading_app/models.py]: total profit/loss divided by initial capital,
    times 100; [None] where that division is not defined. *)
Definition roi_percentage (b : AutoTradingBot) : option Decimal :=
  match dec_div (total_profit_loss b) (initial_capital b) with
  | Some r => Some (dec_mul r (dec_of_int 100))
  | None => None
  end.

Record StopReport : Type := {
  capital_returned : Decimal;
  report_profit_loss : Decimal;
  roi : option Decimal
}.

Definition stop_bot (s : Ledger) : StopReport * Ledger :=
  let b := bot s in
  let s := on_account
             (set_balance (dec_add (balance (account s)) (current_capital b)))
             s in
  let b := set_status STOPPED b in
  let s := set_bot b s in
  ({| capital_returned := current_capital b;
      report_profit_loss := total_profit_loss b;
      roi := roi_percentage b |}, s).

(* ================================================================== *)
(** * Manual trading endpoints (views.py) *)
(* ================================================================== *)

Definition upper_ascii (c : ascii) : ascii :=
  let n := nat_of_ascii c in
  if (Nat.leb 97 n && Nat.leb n 122)%bool then ascii_of_nat (n - 32) else c.

(** [str.upper()], on ASCII text. *)
Fixpoint upper (s : string) : string :=
  match s with
  | EmptyString => EmptyString
  | String c r => String (upper_ascii c) (upper r)
  end.

(** The body of a buy or sell request, its quantity already an integer. *)
Record OrderRequest : Type := {
  req_stock : string;
  req_quantity : Z
}.

Inductive OrderError :=
| InvalidOrder
| NoLivePrice (t : Ticker)
| InsufficientBalance (need have : Decimal)
| NotOwned (t : Ticker)
| InsufficientShares (have want : Z).

Inductive OrderResponse :=
| Filled (t : Ticker) (qty : Z) (price total new_balance : Decimal)
| Declined (e : OrderError)
| ServerError.

Definition buy_stock_body (m : Market) (r : OrderRequest)
  : Exec Account OrderResponse :=
  let t := upper (req_stock r) in
  let qty := req_quantity r in
  if (String.eqb t "" || (qty <=? 0)%Z)%bool then ret (Declined InvalidOrder)
  else
    match live_price m t with
    | None => ret (Declined (NoLivePrice t))
    | Some price =>
        let cost := dec_mul price (dec_of_int qty) in
        user <- get_store ;;
        if dec_ltb (balance user) cost
        then ret (Declined (InsufficientBalance cost (balance user)))
        else
          upsert_holding t qty price ;;;
          let new_balance := dec_sub (balance user) cost in
          orm_write (set_balance new_balance) ;;;
          orm_write (append_transaction
            {| transaction_type := buy;
               debit := cost;
               credit := cents 0;
               description := Bought false qty t price;
               balance_after := new_balance |}) ;;;
          ret (Filled t qty price cost new_balance)
    end.

(** [try: ... except Exception: return Response(..., status=500)]. *)
Definition respond (c : Exec Account OrderResponse) (fs : Faults)
    (user : Account) : OrderResponse * Account :=
  match c fs O user with
  | Returned r _ user' => (r, user')
  | Raised user' => (ServerError, user')
  end.

Definition buy_stock (m : Market) (fs : Faults) (user : Account)
    (r : OrderRequest) : OrderResponse * Account :=
  respond (buy_stock_body m r) fs user.

Definition sell_stock_body (m : Market) (r : OrderRequest)
  : Exec Account OrderResponse :=
  let t := upper (req_stock r) in
  let qty := req_quantity r in
  if (String.eqb t "" || (qty <=? 0)%Z)%bool then ret (Declined InvalidOrder)
  else
    user <- get_store ;;
    match holdings_of t user with
    | [] => ret (Declined (NotOwned t))
    | _ :: _ :: _ => raise
    | [holding] =>
        if (quantity holding <? qty)%Z
        then ret (Declined (InsufficientShares (quantity holding) qty))
        else
          match live_price m t with
          | None => ret (Declined (NoLivePrice t))
          | Some price =>
              let revenue := dec_mul price (dec_of_int qty) in
              (if (quantity holding =? qty)%Z
               then orm_write (delete_holding holding)
               else orm_write (update_holding
                      {| pk := pk holding; stock := stock holding;
                         quantity := quantity holding - qty;
                         buying_price := buying_price holding;
                         current_price := price |})) ;;;
              let new_balance := dec_add (balance user) revenue in
              orm_write (set_balance new_balance) ;;;
              orm_write (append_transaction
                {| transaction_type := sell;
                   debit := cents 0;
                   credit := revenue;
                   description := Sold false qty t price None;
                   balance_after := new_balance |}) ;;;
              ret (Filled t qty price revenue new_balance)
          end
    end.

Definition sell_stock (m : Market) (fs : Faults) (user : Account)
    (r : OrderRequest) : OrderResponse * Account :=
  respond (sell_stock_body m r) fs user.

(* ================================================================== *)
(** * Python values in arguments and request bodies *)
(* ================================================================== *)

(** [if ticker], [ticker if ticker else ...]: a string is truthy when it
    is there and not empty. *)
Definition truthy_str (s : option string) : bool :=
  match s with
  | Some s => negb (String.eqb s "")
  | None => false
  end.

(** A number in [all([...])] and [not x]: there and not zero. *)
Definition truthy_num (x : option Q) : bool :=
  match x with
  | Some x => negb (Qzerob x)
  | None => false
  end.

Definition truthy_int (x : option Z) : bool :=
  match x with
  | Some x => negb (x =? 0)
  | None => false
  end.

Definition is_None {A : Type} (x : option A) : bool :=
  match x with None => true | Some _ => false end.

(** The number an argument holds once it has been tested to be there;
    also [float(data.get(key, 0))] for a key that may be absent. *)
Definition num (x : option Q) : Q :=
  match x with Some v => v | None => 0%Q end.

(** [int(data.get(key, 0))]. *)
Definition int_of (x : option Z) : Z :=
  match x with Some v => v | None => 0 end.

(** [ticker if ticker else default]. *)
Definition or_else (ticker : option string) (default : string) : string :=
  match ticker with
  | Some t => if truthy_str ticker then t else default
  | None => default
  end.

(** [a or b] on two optional strings. *)
Definition or_str (a b : option string) : option string :=
  if truthy_str a then a else b.

(** The ['data_source'] of a strategy result: 'Yahoo Finance LIVE' or
    'User Input'. *)
Inductive DataSource := YahooFinanceLive | UserInput.

(** What an endpoint answers: a result with status 200, or an error body
    with status 400. *)
Inductive Response (E R : Type) : Type :=
| Ok (result : R)
| BadRequest (error : E).
Arguments Ok {E R} result.
Arguments BadRequest {E R} error.

(** [if 'error' in result: return Response(result, status=400)], then
    [return Response(result)]. *)
Definition respond_with {E R : Type} (result : E + R) : Response E R :=
  match result with
  | inl e => BadRequest e
  | inr r => Ok r
  end.

(* ================================================================== *)
(** * PivotStrategy (ml_models/pivot.py) *)
(* ================================================================== *)

(** Prices are Python floats; their arithmetic is done in the rationals,
    so the rounding of the float operations themselves (a relative error
    of some 1e-16, against levels that are rounded to cents) is not
    modelled. *)
Module Pivot.

(** The previous day's bar as [get_live_data] returns it. *)
Record LiveData : Type := { high : Q; low : Q; close : Q }.

Record PivotPoints : Type := {
  pivot_point : Q;
  support_1 : Q;
  support_2 : Q;
  support_3 : Q;
  resistance_1 : Q;
  resistance_2 : Q;
  resistance_3 : Q
}.

Definition calculate_pivot_points (high low close : Q) : PivotPoints :=
  let pivot_point := ((high + low + close) / 3)%Q in
  let support_1 := (2 * pivot_point - high)%Q in
  let support_2 := (pivot_point - (high - low))%Q in
  let support_3 := (low - 2 * (high - pivot_point))%Q in
  let resistance_1 := (2 * pivot_point - low)%Q in
  let resistance_2 := (pivot_point + (high - low))%Q in
  let resistance_3 := (high + 2 * (pivot_point - low))%Q in
  {| pivot_point := py_round pivot_point 2;
     support_1 := py_round support_1 2;
     support_2 := py_round support_2 2;
     support_3 := py_round support_3 2;
     resistance_1 := py_round resistance_1 2;
     resistance_2 := py_round resistance_2 2;
     resistance_3 := py_round resistance_3 2 |}.

(** The description f-strings, by their parts: which level the price is
    set against, the price and the level. *)
Inductive Level := BrokeAboveR2 | AboveR1 | AbovePivot | BelowPivot
                 | BelowS1 | BrokeBelowS2.

Record Description : Type := {
  level : Level;
  described_price : Q;
  described_level : Q
}.

Definition generate_signal (pp : PivotPoints) (current_price : Q)
  : string * Description :=
  if Qgtb current_price (resistance_2 pp)
  then ("STRONG_BUY",
        {| level := BrokeAboveR2; described_price := current_price;
           described_level := resistance_2 pp |})
  else if Qgtb current_price (resistance_1 pp)
  then ("BUY",
        {| level := AboveR1; described_price := current_price;
           described_level := resistance_1 pp |})
  else if Qgeb current_price (support_1 pp)
  then
    if Qgtb current_price (pivot_point pp)
    then ("HOLD_BULLISH",
          {| level := AbovePivot; described_price := current_price;
             described_level := pivot_point pp |})
    else ("HOLD_BEARISH",
          {| level := BelowPivot; described_price := current_price;
             described_level := pivot_point pp |})
  else if Qgtb current_price (support_2 pp)
  then ("SELL",
        {| level := BelowS1; described_price := current_price;
           described_level := support_1 pp |})
  else ("STRONG_SELL",
        {| level := BrokeBelowS2; described_price := current_price;
           described_level := support_2 pp |}).

(** The two ['error'] results. *)
Inductive Error :=
| CouldNotFetch (ticker : string)
| PleaseProvide.

Record Result : Type := {
  signal : string;
  description : Description;
  current_price : Q;
  pivot_points : PivotPoints;
  strategy : string;
  data_source : DataSource
}.

(** [predict(ticker, high, low, close)], the arguments left out being
    [None]; [get_live_data] is the feed of previous-day bars. *)
Definition predict (get_live_data : Ticker -> option LiveData)
    (ticker : option string) (high low close : option Q)
  : Error + Result :=
  let fetched :=
    match ticker with
    | Some t =>
        if truthy_str ticker
           && (is_None high || is_None low || is_None close)
        then
          match get_live_data t with
          | Some live_data =>
              inr (Some (Pivot.high live_data), Some (Pivot.low live_data),
                   Some (Pivot.close live_data))
          | None => inl (CouldNotFetch t)
          end
        else inr (high, low, close)
    | None => inr (high, low, close)
    end in
  match fetched with
  | inl e => inl e
  | inr (high, low, close) =>
      if negb (truthy_num high && truthy_num low && truthy_num close)
      then inl PleaseProvide
      else
        let pivot_points :=
          calculate_pivot_points (num high) (num low) (num close) in
        let '(signal, description) :=
          generate_signal pivot_points (num close) in
        inr {| signal := signal; description := description;
               current_price := py_round (num close) 2;
               pivot_points := pivot_points;
               strategy := "Pivot Point Analysis";
               data_source :=
                 if truthy_str ticker then YahooFinanceLive else UserInput |}
  end.

End Pivot.

(* ================================================================== *)
(** * NextDayPredictor.predict with its arguments *)
(* ================================================================== *)

(** [predict] above is the call that the engine makes, [predict(ticker=t)],
    reduced to the two keys the engine reads.  This is the method with all
    its arguments and all the keys of its result. *)
Module NextDay.

Inductive Error :=
| CouldNotFetch (ticker : string)
| PleaseProvide.

(** ['recommendation'] is an f-string over the prediction and the
    confidence before its rounding, kept as the two. *)
Record Result : Type := {
  stock_symbol : string;
  prediction : Direction;
  confidence : Q;
  price_change_today : Q;
  volatility : Q;
  current_price : Q;
  recommendation : Direction * Q;
  data_source : DataSource
}.

Definition predict (get_live_data : Ticker -> option OHLCV)
    (ticker : option string) (open_price high low close : option Q)
    (volume : option Z) : Error + Result :=
  let fetched :=
    match ticker with
    | Some t =>
        if truthy_str ticker && is_None open_price
        then
          match get_live_data t with
          | Some (Build_OHLCV o h l c v) =>
              inr (Some o, Some h, Some l, Some c, Some v)
          | None => inl (CouldNotFetch t)
          end
        else inr (open_price, high, low, close, volume)
    | None => inr (open_price, high, low, close, volume)
    end in
  match fetched with
  | inl e => inl e
  | inr (open_price, high, low, close, volume) =>
      if negb (truthy_num open_price && truthy_num high && truthy_num low
               && truthy_num close && truthy_int volume)
      then inl PleaseProvide
      else
        let open_price := num open_price in
        let high := num high in
        let low := num low in
        let close := num close in
        let price_change := (((close - open_price) / open_price) * 100)%Q in
        let hl_range := (((high - low) / close) * 100)%Q in
        let score := 0%Q in
        let score :=
          if Qgtb price_change 2 then (score + 3)%Q
          else if Qgtb price_change 0 then (score + 1)%Q
          else score in
        let score :=
          if Qltb price_change (-2) then (score - 3)%Q
          else if Qltb price_change 0 then (score - 1)%Q
          else score in
        let score := if Qgtb hl_range 5 then (score * (8 # 10))%Q else score in
        let '(prediction, confidence) :=
          if Qgeb score 2 then (UP, py_min (70 + score * 5)%Q 90)
          else if Qleb score (-2)
               then (DOWN, py_min (70 + Qabs score * 5)%Q 90)
               else (NEUTRAL, 50%Q) in
        inr {| stock_symbol := or_else ticker "UNKNOWN";
               prediction := prediction;
               confidence := py_round confidence 1;
               price_change_today := py_round price_change 2;
               volatility := py_round hl_range 2;
               current_price := py_round close 2;
               recommendation := (prediction, confidence);
               data_source :=
                 if truthy_str ticker then YahooFinanceLive else UserInput |}
  end.

End NextDay.

(* ================================================================== *)
(** * StockScreener (ml_models/stock_screener.py) *)
(* ================================================================== *)

Module Screener.

(** What [get_live_data] returns; the market cap is the number that
    [info.get('marketCap', 0)] gave. *)
Record LiveData : Type := {
  market_cap : Q;
  volume : Z;
  sector : string;
  company_name : string
}.

(** The lines of ['reasons'], by their parts. *)
Inductive Reason :=
| MeetsThreshold (market_cap : Q)
| ApproachingThreshold (market_cap : Q)
| BelowThreshold (market_cap : Q)
| HighVolume (volume : Z)
| ModerateVolume (volume : Z)
| LowVolume (volume : Z)
| HighGrowthSector (sector : string).

Inductive Error :=
| CouldNotFetch (ticker : string)
| PleaseProvide.

(** The result; its keys ['ticker'], ['company_name'], ['market_cap'] and
    ['sector'] carry the prefix [res_]. *)
Record Result : Type := {
  res_ticker : string;
  res_company_name : string;
  recommendation : string;
  score : Z;
  reasons : list Reason;
  res_market_cap : Q;
  market_cap_billions : Q;
  daily_volume : Z;
  res_sector : string;
  data_source : DataSource
}.

Definition high_growth_sectors : list string :=
  ["Technology"; "Healthcare"; "Financial Services"; "Consumer Cyclical"].

(** [screen_for_index_addition(ticker, market_cap, volume, sector)]; the
    arguments left out are [None], and ['Technology'] for the sector. *)
Definition screen_for_index_addition
    (get_live_data : Ticker -> option LiveData)
    (ticker : option string) (market_cap : option Q) (volume : option Z)
    (sector : string) : Error + Result :=
  let fetched :=
    match ticker with
    | Some t =>
        if truthy_str ticker && is_None market_cap
        then
          match get_live_data t with
          | Some live_data =>
              inr (Some (Screener.market_cap live_data),
                   Some (Screener.volume live_data),
                   Screener.sector live_data,
                   Screener.company_name live_data)
          | None => inl (CouldNotFetch t)
          end
        else inr (market_cap, volume, sector, or_else ticker "Unknown")
    | None => inr (market_cap, volume, sector, or_else ticker "Unknown")
    end in
  match fetched with
  | inl e => inl e
  | inr (Some market_cap, Some volume, sector, company_name) =>
      if Qzerob market_cap || (volume =? 0) then inl PleaseProvide
      else
        let score := 0 in
        let reasons := [] in
        let '(score, reasons) :=
          if Qgeb market_cap 14500000000
          then (score + 40, reasons ++ [MeetsThreshold market_cap])
          else if Qgeb market_cap 8000000000
          then (score + 25, reasons ++ [ApproachingThreshold market_cap])
          else (score, reasons ++ [BelowThreshold market_cap]) in
        let '(score, reasons) :=
          if 1000000 <=? volume
          then (score + 30, reasons ++ [HighVolume volume])
          else if 500000 <=? volume
          then (score + 15, reasons ++ [ModerateVolume volume])
          else (score, reasons ++ [LowVolume volume]) in
        let '(score, reasons) :=
          if existsb (String.eqb sector) high_growth_sectors
          then (score + 10, reasons ++ [HighGrowthSector sector])
          else (score, reasons) in
        let recommendation :=
          if 70 <=? score then "STRONG_CANDIDATE"
          else if 50 <=? score then "POTENTIAL_CANDIDATE"
          else "UNLIKELY" in
        inr {| res_ticker := or_else ticker "N/A";
               res_company_name := company_name;
               recommendation := recommendation;
               score := score;
               reasons := reasons;
               res_market_cap := market_cap;
               market_cap_billions := py_round (market_cap / 1000000000) 2;
               daily_volume := volume;
               res_sector := sector;
               data_source :=
                 if truthy_str ticker then YahooFinanceLive else UserInput |}
  | inr _ => inl PleaseProvide
  end.

End Screener.

(* ================================================================== *)
(** * Strategy endpoints (ml_views.py) *)
(* ================================================================== *)

(** The body of a request: a key that is absent is [None], a key that is
    there holds a string (a ticker, a sector) or a number.  The handler
    for an exception (status 500) is reached only from the conversions of
    an ill-typed body, and is not modelled. *)
Record PivotRequest : Type := {
  pv_ticker : option string;
  pv_high : option Q;
  pv_low : option Q;
  pv_close : option Q
}.

Definition pivot_analysis (get_live_data : Ticker -> option Pivot.LiveData)
    (data : PivotRequest) : Response Pivot.Error Pivot.Result :=
  let ticker := pv_ticker data in
  if truthy_str ticker
     && negb (truthy_num (pv_high data) && truthy_num (pv_low data)
              && truthy_num (pv_close data))
  then respond_with (Pivot.predict get_live_data ticker None None None)
  else
    let high := num (pv_high data) in
    let low := num (pv_low data) in
    let close := num (pv_close data) in
    if negb (negb (Qzerob high) && negb (Qzerob low) && negb (Qzerob close))
    then BadRequest Pivot.PleaseProvide
    else respond_with
           (Pivot.predict get_live_data None (Some high) (Some low)
              (Some close)).

Record PredictionRequest : Type := {
  pr_stock_symbol : option string;
  pr_ticker : option string;
  pr_open_price : option Q;
  pr_high : option Q;
  pr_low : option Q;
  pr_close : option Q;
  pr_volume : option Z
}.

Definition next_day_prediction (get_live_data : Ticker -> option OHLCV)
    (data : PredictionRequest) : Response NextDay.Error NextDay.Result :=
  let ticker := or_str (pr_stock_symbol data) (pr_ticker data) in
  if truthy_str ticker && negb (truthy_num (pr_open_price data))
  then respond_with
         (NextDay.predict get_live_data ticker None None None None None)
  else
    let open_price := num (pr_open_price data) in
    let high := num (pr_high data) in
    let low := num (pr_low data) in
    let close := num (pr_close data) in
    let volume := int_of (pr_volume data) in
    if negb (negb (Qzerob open_price) && negb (Qzerob high)
             && negb (Qzerob low) && negb (Qzerob close)
             && negb (volume =? 0))
    then BadRequest NextDay.PleaseProvide
    else respond_with
           (NextDay.predict get_live_data ticker (Some open_price)
              (Some high) (Some low) (Some close) (Some volume)).

Record ScreenerRequest : Type := {
  sc_ticker : option string;
  sc_market_cap : option Q;
  sc_volume : option Z;
  sc_sector : option string
}.

Definition stock_screener (get_live_data : Ticker -> option Screener.LiveData)
    (data : ScreenerRequest) : Response Screener.Error Screener.Result :=
  let ticker := sc_ticker data in
  if truthy_str ticker && negb (truthy_num (sc_market_cap data))
  then respond_with
         (Screener.screen_for_index_addition get_live_data ticker None None
            "Technology")
  else
    let market_cap := num (sc_market_cap data) in
    let volume := int_of (sc_volume data) in
    let sector :=
      match sc_sector data with Some s => s | None => "Technology" end in
    if negb (negb (Qzerob market_cap) && negb (volume =? 0))
    then BadRequest Screener.PleaseProvide
    else respond_with
           (Screener.screen_for_index_addition get_live_data ticker
              (Some market_cap) (Some volume) sector).

(* ================================================================== *)
(** * Prices of several tickers (trading_app/live_prices.py) *)
(* ================================================================== *)

(** A Python [dict] with string keys, in insertion order. *)
Definition Dict (V : Type) : Type := list (string * V).

(** [d[k] = v]: the value of a key that is there is replaced where it
    is, a new key goes to the end. *)
Fixpoint dict_set {V : Type} (k : string) (v : V) (d : Dict V) : Dict V :=
  match d with
  | [] => [(k, v)]
  | (k', v') :: rest =>
      if String.eqb k' k then (k, v) :: rest
      else (k', v') :: dict_set k v rest
  end.

(** The answer of [get_multiple_prices]; [StockData] is the dict that
    [get_stock_data] builds for a ticker that has data. *)
Record MultiplePrices (StockData : Type) : Type := {
  count : nat;
  stocks_found : Dict StockData;
  timestamp : nat
}.
Arguments count {StockData} _.
Arguments stocks_found {StockData} _.
Arguments timestamp {StockData} _.

Inductive PricesError := NoTickersProvided.

(** One turn of the loop over the tickers. *)
Definition collect_price {StockData : Type}
    (get_stock_data : string -> option StockData)
    (results : Dict StockData) (ticker : string) : Dict StockData :=
  match get_stock_data ticker with
  | Some data => dict_set ticker data results
  | None => results
  end.

(** [get_multiple_prices], over one snapshot [get_stock_data] of the feed
    and with the clock at [now]. *)
Definition get_multiple_prices {StockData : Type}
    (get_stock_data : string -> option StockData)
    (now : nat) (tickers : list string)
  : Response PricesError (MultiplePrices StockData) :=
  match tickers with
  | [] => BadRequest NoTickersProvided
  | _ :: _ =>
      let results := fold_left (collect_price get_stock_data) tickers [] in
      Ok {| count := List.length results; stocks_found := results;
            timestamp := now |}
  end.

(* ================================================================== *)
(** * The price refresh of the summaries (views.py) *)
(* ================================================================== *)

(** [portfolio_summary] and [HoldingViewSet.summary] start with the same
    loop over the holdings of the user, before they add them up.  One
    turn of it: the row takes the live price of its ticker, when there is
    one, and is saved. *)
Definition refresh_holding (m : Market) (holding : Holding)
  : Exec Account unit :=
  match live_price m (stock holding) with
  | Some p => orm_write (update_holding (set_current_price p holding))
  | None => ret tt
  end.

(** The loop, over the rows that the query returned. *)
Fixpoint refresh_holdings (m : Market) (holdings : list Holding)
  : Exec Account unit :=
  match holdings with
  | [] => ret tt
  | holding :: rest => refresh_holding m holding ;;; refresh_holdings m rest
  end.

(** The store as an execution leaves it, whether it returned or raised. *)
Definition state_of {St A : Type} (o : outcome St A) : St :=
  match o with
  | Returned _ _ s => s
  | Raised s => s
  end.

(** The account after the loop, when it came to its end and when a
    [save()] raised. *)
Definition refreshed (m : Market) (fs : Faults) (user : Account) : Account :=
  state_of (refresh_holdings m (holdings user) fs O user).

(* ================================================================== *)
(** * Notions of the specification *)
(* ================================================================== *)

Fixpoint total (xs : list Q) : Q :=
  match xs with
  | [] => 0%Q
  | x :: r => (x + total r)%Q
  end.

(** The arithmetic mean as the specification words it: the total of the
    scores over their number. *)
Definition arithmetic_mean (xs : list Q) : Q :=
  (total xs / inject_Z (Z.of_nat (List.length xs)))%Q.

(** The valid signals of a ticker: what the providers that
    [analyze_stock] asks returned without error, in the order asked. *)
Definition valid_signals (m : Market) (b : AutoTradingBot) (t : Ticker)
  : list (string * Q) :=
  pivot_signals m b t ++ prediction_signals m b t.

(** The provider contract of the specification, for each of the four
    strategies a bot can switch on: the name a provider's signal carries
    and the score it reports for a ticker ([None]: the error sentinel). *)
Definition provider_label (k : StrategyKey) : string :=
  match k with
  | pivot => "Pivot"
  | prediction_key => "Prediction"
  | screener => "Screener"
  | index => "Index"
  end.

Definition provider_score (m : Market) (k : StrategyKey) (t : Ticker)
  : option Q :=
  match k with
  | pivot =>
      match pivot_predict m t with
      | Some signal => Some (inject_Z (_signal_to_score signal))
      | None => None
      end
  | prediction_key =>
      match predict (live_data m t) with
      | Some r =>
          Some match prediction r with
               | UP => pred_confidence r
               | _ => (- pred_confidence r)%Q
               end
      | None => None
      end
  | screener => screener_score m t
  | index => index_score m t
  end.

(** ** Orders as functions of the ledger

    What a buy and a sell compute and write when no write is refused, in
    one piece; the executions are compared with these below. *)

Definition merge_average (h : Holding) (q : Z) (p : Decimal)
  : option Decimal :=
  dec_div
    (dec_add (dec_mul (buying_price h) (dec_of_int (quantity h)))
             (dec_mul p (dec_of_int q)))
    (dec_of_int (quantity h + q)).

Definition merged_row (h : Holding) (q : Z) (p avg : Decimal) : Holding :=
  {| pk := pk h; stock := stock h; quantity := quantity h + q;
     buying_price := avg; current_price := p |}.

(** The account once a buy of [q] shares of [t] at [p] is in its Holding
    table; [None] when the buy raises instead. *)
Definition upserted (t : Ticker) (q : Z) (p : Decimal) (a : Account)
  : option Account :=
  match holdings_of t a with
  | [] => Some (insert_holding t q p a)
  | [h] =>
      match merge_average h q p with
      | Some avg => Some (update_holding (merged_row h q p avg) a)
      | None => None
      end
  | _ :: _ :: _ => None
  end.

Definition buy_transaction (by_bot : bool) (t : Ticker) (q : Z)
    (p cost new_balance : Decimal) : Transaction :=
  {| transaction_type := buy; debit := cost; credit := cents 0;
     description := Bought by_bot q t p; balance_after := new_balance |}.

Definition buy_trade (t : Ticker) (q : Z) (p cost : Decimal)
    (analysis : Analysis) : BotTrade :=
  {| bt_stock := t; bt_action := BUY; bt_quantity := q; bt_price := p;
     total_value := cost;
     strategy_used :=
       Strategies (String.concat ", " (map fst (signals analysis)));
     confidence_score := Some (py_round (confidence analysis) 2);
     bt_profit_loss := None |}.

(** The position size of an engine buy at price [p]: [None] when the
    division raises. *)
Definition position_size (b : AutoTradingBot) (p : Decimal) : option Z :=
  match dec_div (dec_mul (current_capital b) (max_position_size (config b))) p
  with
  | Some q => Some (dec_to_int q)
  | None => None
  end.

(** The trade and the ledger an engine buy ends with; [None] when it ends
    without a trade. *)
Definition buy_outcome (m : Market) (s : Ledger) (t : Ticker)
    (analysis : Analysis) : option (BotTrade * Ledger) :=
  match live_price m t with
  | None => None
  | Some p =>
      match position_size (bot s) p with
      | None => None
      | Some q =>
          let cost := dec_mul p (dec_of_int q) in
          if (q =? 0) || dec_gtb cost (current_capital (bot s)) then None
          else
            match upserted t q p (account s) with
            | None => None
            | Some acc =>
                let b := bot s in
                let new_balance := dec_sub (balance (account s)) cost in
                let trade := buy_trade t q p cost analysis in
                Some (trade,
                  {| account :=
                       append_transaction
                         (buy_transaction true t q p cost new_balance)
                         (set_balance new_balance acc);
                     bot :=
                       set_trading (dec_sub (current_capital b) cost)
                         (total_profit_loss b) (total_trades b + 1)
                         (winning_trades b) (losing_trades b) (now m) b;
                     bot_trades := bot_trades s ++ [trade] |})
            end
      end
  end.

Definition sell_revenue (h : Holding) (p : Decimal) : Decimal :=
  dec_mul p (dec_of_int (quantity h)).

Definition realized_pl (h : Holding) (p : Decimal) : Decimal :=
  dec_sub (sell_revenue h p)
          (dec_mul (buying_price h) (dec_of_int (quantity h))).

Definition sell_trade (h : Holding) (p : Decimal) (reason : Reason)
  : BotTrade :=
  {| bt_stock := stock h; bt_action := SELL; bt_quantity := quantity h;
     bt_price := p; total_value := sell_revenue h p;
     strategy_used := Exit reason; confidence_score := None;
     bt_profit_loss := Some (realized_pl h p) |}.

Definition sell_transaction (h : Holding) (p new_balance : Decimal)
    (reason : Reason) : Transaction :=
  {| transaction_type := sell; debit := cents 0;
     credit := sell_revenue h p;
     description := Sold true (quantity h) (stock h) p (Some reason);
     balance_after := new_balance |}.

(** The trade and the ledger an engine sell ends with. *)
Definition sell_outcome (m : Market) (s : Ledger) (h : Holding)
    (reason : Reason) : option (BotTrade * Ledger) :=
  match live_price m (stock h) with
  | None => None
  | Some p =>
      let b := bot s in
      let new_balance := dec_add (balance (account s)) (sell_revenue h p) in
      let won := dec_gtb (realized_pl h p) (dec_of_int 0) in
      Some (sell_trade h p reason,
        {| account :=
             delete_holding h
               (append_transaction (sell_transaction h p new_balance reason)
                  (set_balance new_balance (account s)));
           bot :=
             set_trading (dec_add (current_capital b) (sell_revenue h p))
               (dec_add (total_profit_loss b) (realized_pl h p))
               (total_trades b + 1)
               (if won then winning_trades b + 1 else winning_trades b)
               (if won then losing_trades b else losing_trades b + 1)
               (now m) b;
           bot_trades := bot_trades s ++ [sell_trade h p reason] |})
  end.

(** A ledger whose trade log is put back to that of [s]: what is left
    when the write of the BotTrade row is the one that fails. *)
Definition without_new_trades (s s' : Ledger) : Ledger :=
  {| account := account s'; bot := bot s'; bot_trades := bot_trades s |}.

(** A ledger whose Holding table is put back to that of [s]. *)
Definition without_holding_change (s s' : Ledger) : Ledger :=
  {| account := set_holdings (holdings (account s)) (account s');
     bot := bot s'; bot_trades := bot_trades s' |}.

(** ** Sequences of buys of one ticker *)

(** A buy is placed by hand, for a quantity, or by the engine, on an
    analysis. *)
Inductive BuyOrder :=
| ManualBuy (qty : Z)
| EngineBuy (analysis : Analysis).

(** A fill: the quantity bought and the price paid. *)
Definition Fill : Type := (Z * Decimal)%type.

(** One buy of [t] in the market [m]: the fill that the response (for a
    manual buy) or the BotTrade (for an engine buy) reports and the ledger
    after it, [None] when the order was not executed. *)
Definition place_buy (t : Ticker) (m : Market) (o : BuyOrder) (s : Ledger)
  : option (Fill * Ledger) :=
  match o with
  | ManualBuy q =>
      match buy_stock m no_faults (account s)
              {| req_stock := t; req_quantity := q |} with
      | (Filled _ qty price _ _, a) =>
          Some ((qty, price), on_account (fun _ => a) s)
      | _ => None
      end
  | EngineBuy analysis =>
      match execute_buy m no_faults s t analysis with
      | (Some trade, s') => Some ((bt_quantity trade, bt_price trade), s')
      | (None, _) => None
      end
  end.

(** Buys of [t] one after the other, each in the market of its moment. *)
Fixpoint place_buys (t : Ticker) (orders : list (Market * BuyOrder))
    (s : Ledger) : option (list Fill * Ledger) :=
  match orders with
  | [] => Some ([], s)
  | (m, o) :: rest =>
      match place_buy t m o s with
      | None => None
      | Some (f, s1) =>
          match place_buys t rest s1 with
          | None => None
          | Some (fs, s2) => Some (f :: fs, s2)
          end
      end
  end.

(** The rule of the specification for one more fill,
    [new_avg = (old_avg*old_qty + fill_price*fill_qty) / (old_qty+fill_qty)],
    in decimal arithmetic; a position is a quantity and an average
    price. *)
Definition merge_fill (pos f : Fill) : option Fill :=
  match dec_div
          (dec_add (dec_mul (snd pos) (dec_of_int (fst pos)))
                   (dec_mul (snd f) (dec_of_int (fst f))))
          (dec_of_int (fst pos + fst f)) with
  | Some avg => Some (fst pos + fst f, avg)
  | None => None
  end.

Fixpoint merge_fills (pos : Fill) (fs : list Fill) : option Fill :=
  match fs with
  | [] => Some pos
  | f :: rest =>
      match merge_fill pos f with
      | Some pos' => merge_fills pos' rest
      | None => None
      end
  end.

(** The position that the fills build, merged one by one from the
    first. *)
Definition position_of (fs : list Fill) : option Fill :=
  match fs with
  | [] => None
  | f :: rest => merge_fills f rest
  end.

Definition total_quantity (fs : list Fill) : Z :=
  fold_right (fun f acc => fst f + acc) 0 fs.

(** What the fills cost, and the quantity-weighted mean of their prices,
    in the rationals. *)
Definition fills_cost (fs : list Fill) : Q :=
  fold_right (fun f acc => (dec_value (snd f) * inject_Z (fst f) + acc)%Q)
    0%Q fs.

Definition weighted_mean (fs : list Fill) : Q :=
  (fills_cost fs / inject_Z (total_quantity fs))%Q.

(** A merge is exact when the new average times the new quantity is what
    the old position and the fill cost together: nothing was rounded. *)
Definition exact_merge (pos f pos' : Fill) : Prop :=
  (dec_value (snd pos') * inject_Z (fst pos')
   == dec_value (snd pos) * inject_Z (fst pos)
      + dec_value (snd f) * inject_Z (fst f))%Q.

Fixpoint merges_exact (pos : Fill) (fs : list Fill) : Prop :=
  match fs with
  | [] => True
  | f :: rest =>
      match merge_fill pos f with
      | Some pos' => exact_merge pos f pos' /\ merges_exact pos' rest
      | None => False
      end
  end.

Definition all_merges_exact (fs : list Fill) : Prop :=
  match fs with
  | [] => True
  | f :: rest => merges_exact f rest
  end.

(** Primary keys are what a table makes them: distinct, and below the
    next one to be given out. *)
Definition wf_account (a : Account) : Prop :=
  NoDup (map pk (holdings a)) /\
  Forall (fun h => (pk h < next_pk a)%nat) (holdings a).

(* ================================================================== *)
(** * Notions of the further properties *)
(* ================================================================== *)

(** The integer that [py_round] rounds to: the nearest one, the even one
    of two that are as near. *)
Definition nearest_even (y : Q) : Z :=
  let f := Qfloor y in
  match (y - inject_Z f ?= 1 # 2)%Q with
  | Lt => f
  | Gt => f + 1
  | Eq => if Z.odd f then f + 1 else f
  end.

(** Today's change and range, in percent, as [predict] computes them. *)
Definition price_change (d : OHLCV) : Q :=
  (((close d - open_price d) / open_price d) * 100)%Q.

Definition hl_range (d : OHLCV) : Q :=
  (((high d - low d) / close d) * 100)%Q.





(** The settings of a bot: what no trade rewrites. *)
Definition same_settings (b b' : AutoTradingBot) : Prop :=
  risk_level b' = risk_level b /\ duration b' = duration b /\
  use_pivot b' = use_pivot b /\ use_prediction b' = use_prediction b /\
  use_screener b' = use_screener b /\
  use_index_rebalancing b' = use_index_rebalancing b /\
  initial_capital b' = initial_capital b /\ status b' = status b.

Definition is_sell (a : Action) : bool :=
  match a with SELL => true | _ => false end.

(** The exits among the rows of a trade log. *)
Definition sells_logged (l : list BotTrade) : nat :=
  List.length (filter (fun tr => is_sell (bt_action tr)) l).

(** The counters of the bot say what its trade log says: as many trades
    as rows, as many won or lost as SELL rows. *)
Definition tally (s : Ledger) : Prop :=
  total_trades (bot s) = Z.of_nat (List.length (bot_trades s)) /\
  winning_trades (bot s) + losing_trades (bot s)
  = Z.of_nat (sells_logged (bot_trades s)).

(** What one more trade does to the books: the row it adds to each of the
    two logs, the Transaction stating the balance it leaves, and the
    counters it moves. *)
Definition one_more_trade (s s' : Ledger) (tr : BotTrade) : Prop :=
  bot_trades s' = bot_trades s ++ [tr] /\
  (exists x, transactions (account s') = transactions (account s) ++ [x] /\
             balance_after x = balance (account s')) /\
  total_trades (bot s') = total_trades (bot s) + 1 /\
  winning_trades (bot s') + losing_trades (bot s')
  = winning_trades (bot s) + losing_trades (bot s)
    + (if is_sell (bt_action tr) then 1 else 0).

Definition no_trade (s s' : Ledger) : Prop :=
  bot_trades s' = bot_trades s /\ bot s' = bot s /\
  transactions (account s') = transactions (account s) /\
  balance (account s') = balance (account s).

(** What a run of trades does to the books. *)
Definition trades_booked (s s' : Ledger) (trs : list BotTrade) : Prop :=
  bot_trades s' = bot_trades s ++ trs /\
  List.length (transactions (account s'))
  = (List.length (transactions (account s)) + List.length trs)%nat /\
  total_trades (bot s') = total_trades (bot s) + Z.of_nat (List.length trs) /\
  winning_trades (bot s') + losing_trades (bot s')
  = winning_trades (bot s) + losing_trades (bot s)
    + Z.of_nat (sells_logged trs).

(** The whole number of cents that a decimal with at most two decimals
    stands for. *)
Definition in_cents (d : Decimal) : option Z :=
  if -2 <=? expo d then Some (coeff d * 10 ^ (expo d + 2)) else None.

(** The Holding table of an account is sound when its keys are those of
    [wf_account] and no ticker has two rows. *)
Definition sound_table (a : Account) : Prop :=
  wf_account a /\ NoDup (map stock (holdings a)).

(** Every position is of at least one share. *)
Definition positions_positive (a : Account) : Prop :=
  Forall (fun h => 0 < quantity h) (holdings a).

(** The rows [hs] that a loop read when it started are not out of line
    with the table [a] of a later moment: a row of [a] that has the key
    of one of them has its ticker. *)
Definition in_line (hs : list Holding) (a : Account) : Prop :=
  forall h r, In h hs -> In r (holdings a) -> pk r = pk h ->
    stock r = stock h.

(** Every price that the market quotes is positive. *)
Definition positive_prices (m : Market) : Prop :=
  forall t p, live_price m t = Some p -> 0 < coeff p.

(** The bot has capital left, or none, but owes none. *)
Definition solvent (b : AutoTradingBot) : Prop :=
  0 <= coeff (current_capital b).

(** The row with the live price of its ticker as its current price. *)
Definition at_live_price (m : Market) (h : Holding) : Holding :=
  match live_price m (stock h) with
  | Some p => set_current_price p h
  | None => h
  end.

(* ================================================================== *)
(** * Scenarios *)
(* ================================================================== *)

(** A market in which only AAPL is quoted: its price is [p] cents, the
    pivot strategy reports [signal], today's bar is [d], and both the
    screener and the index-rebalancing strategy report a valid score. *)
Definition aapl_market (p : Z) (signal : string) (d : OHLCV) : Market :=
  {| live_price := fun t => if String.eqb t "AAPL" then Some (cents p) else None;
     pivot_predict := fun t => if String.eqb t "AAPL" then Some signal else None;
     live_data := fun t => if String.eqb t "AAPL" then Some d else None;
     screener_score := fun t => if String.eqb t "AAPL" then Some 80%Q else None;
     index_score := fun t => if String.eqb t "AAPL" then Some 75%Q else None;
     now := 0%nat |}.

(** A day that closes 3% up in a range under 5%: the predictor says UP. *)
Definition rising_bar : OHLCV :=
  {| open_price := 100; high := 104; low := 99; close := 103;
     volume := 1000000 |}.

(** A day that closes half a percent up: the predictor says NEUTRAL. *)
Definition flat_bar : OHLCV :=
  {| open_price := 100; high := 101; low := 995 # 10; close := 1005 # 10;
     volume := 1000000 |}.

(** An active bot with every strategy switched on. *)
Definition demo_bot (r : RiskLevel) (capital : Decimal) : AutoTradingBot :=
  {| risk_level := r; duration := MEDIUM_TERM;
     use_pivot := true; use_prediction := true;
     use_screener := true; use_index_rebalancing := true;
     initial_capital := capital; current_capital := capital;
     total_profit_loss := cents 0;
     total_trades := 0; winning_trades := 0; losing_trades := 0;
     status := ACTIVE; last_trade_at := None |}.

(** The request that creates such a bot. *)
Definition demo_request (r : RiskLevel) (capital : Decimal)
  : CreateBotRequest :=
  {| req_risk_level := r; req_duration := MEDIUM_TERM;
     req_initial_capital := capital;
     req_use_pivot := true; req_use_prediction := true;
     req_use_screener := true; req_use_index_rebalancing := true |}.

(** An account with [c] cents and no rows. *)
Definition fresh_account (c : Z) : Account :=
  {| balance := cents c; holdings := []; next_pk := 1%nat;
     transactions := [] |}.

(** An account with [c] cents and one holding: [q] shares of AAPL bought
    at [p] cents. *)
Definition aapl_account (c q p : Z) : Account :=
  {| balance := cents c;
     holdings := [{| pk := 1%nat; stock := "AAPL"; quantity := q;
                     buying_price := cents p; current_price := cents p |}];
     next_pk := 2%nat;
     transactions := [] |}.

Definition aapl_holding (q p : Z) : Holding :=
  {| pk := 1%nat; stock := "AAPL"; quantity := q;
     buying_price := cents p; current_price := cents p |}.

(** A day that opens at 116.50 and closes 3% up at 120.00. *)
Definition rally_bar : OHLCV :=
  {| open_price := 1165 # 10; high := 121; low := 116; close := 120;
     volume := 1000000 |}.



(** An order for [q] shares of AAPL, as a client may spell it. *)
Definition aapl_order (q : Z) : OrderRequest :=
  {| req_stock := "aapl"; req_quantity := q |}.

(** A feed of stock data, here a company name, for two spellings of one
    ticker. *)
Definition two_spellings (t : string) : option string :=
  if String.eqb t "AAPL" then Some "Apple Inc."
  else if String.eqb t "aapl" then Some "Apple Inc."
  else None.

(* ================================================================== *)
(** * Signal aggregation: properties *)
(* ================================================================== *)

Lemma Qltb_lt (x y : Q) : Qltb x y = true <-> (x < y)%Q.
Proof.
  unfold Qltb. rewrite Qlt_alt.
  destruct (x ?= y)%Q; split; congruence.
Qed.

Lemma Qgtb_lt (x y : Q) : Qgtb x y = true <-> (y < x)%Q.
Proof. unfold Qgtb. apply Qltb_lt. Qed.

Lemma fold_scores_total (sigs : list (string * Q)) (acc : Q) :
  (fold_left (fun a s => a + snd s) sigs acc == acc + total (map snd sigs))%Q.
Proof.
  revert acc. induction sigs as [|s r IH]; intros acc; simpl.
  - ring.
  - rewrite IH. ring.
Qed.

Lemma sum_scores_total (sigs : list (string * Q)) :
  (sum_scores sigs == total (map snd sigs))%Q.
Proof. unfold sum_scores. rewrite fold_scores_total. ring. Qed.

Lemma avg_score_mean (sigs : list (string * Q)) :
  (sum_scores sigs / inject_Z (Z.of_nat (List.length sigs))
   == arithmetic_mean (map snd sigs))%Q.
Proof.
  unfold arithmetic_mean. rewrite length_map, sum_scores_total. reflexivity.
Qed.

(** What the combining step returns on a non-empty list of signals. *)
Lemma combined_signal_decision (cfg : RiskConfig) (t : Ticker)
    (sigs : list (string * Q)) :
  sigs <> [] ->
  exists a,
    combined_signal cfg t sigs = Some a /\
    signals a = sigs /\ ticker a = t /\
    (action a = BUY <->
     (inject_Z (min_confidence cfg) < arithmetic_mean (map snd sigs))%Q) /\
    (action a = BUY \/ action a = HOLD) /\
    (confidence a == Qabs (arithmetic_mean (map snd sigs)))%Q.
Proof.
  intros Hne. destruct sigs as [|s r]; [congruence|].
  unfold combined_signal.
  set (sigs := s :: r).
  eexists. split; [reflexivity|]. cbn [signals ticker action confidence].
  repeat split.
  - intros H.
    destruct (Qgtb _ _) eqn:E; [|discriminate].
    apply Qgtb_lt in E. rewrite <- avg_score_mean. exact E.
  - intros H. rewrite <- avg_score_mean in H. apply Qgtb_lt in H.
    rewrite H. reflexivity.
  - destruct (Qgtb _ _); auto.
  - rewrite avg_score_mean. reflexivity.
Qed.


(** The scenario of the specification: scores 80 and 40 average to 60,
    which is not above MEDIUM's threshold of 60. *)
Example mean_at_threshold_holds :
  (arithmetic_mean [80; 40] == 60)%Q /\
  option_map action
    (combined_signal (RISK_CONFIG MEDIUM) "T" [("A", 80%Q); ("B", 40%Q)])
  = Some HOLD.
Proof. split; reflexivity. Qed.

(** The predictor's last branch: a NEUTRAL prediction has confidence 50. *)
Lemma predict_neutral_confidence (d : option OHLCV) (r : Prediction) :
  predict d = Some r -> prediction r = NEUTRAL ->
  (pred_confidence r == 50)%Q.
Proof.
  unfold predict. destruct d as [d|]; [|discriminate].
  destruct (_ || _)%bool; [discriminate|].
  match goal with
  | |- context [if Qgeb ?s 2 then _ else _] =>
      destruct (Qgeb s 2); [|destruct (Qleb s (-2))]
  end; intros H; inversion H; subst; cbn; intros Hp;
    try discriminate; reflexivity.
Qed.

Lemma total_app (xs ys : list Q) :
  (total (xs ++ ys) == total xs + total ys)%Q.
Proof. induction xs as [|x r IH]; simpl; [ring|rewrite IH; ring]. Qed.

(** C10, as the code has it.  The prediction provider's score is the
    confidence for UP and the negated confidence for every other
    prediction; a NEUTRAL prediction, whose confidence is 50, therefore
    enters the aggregation as a score of -50 and not of 0: the total of
    the scores is 50 less than the total of the other signals, and the
    decision is taken on that total divided by the number of signals. *)
Theorem neutral_prediction_scored_minus_50
    (m : Market) (b : AutoTradingBot) (t : Ticker) (r : Prediction) :
  use_prediction b = true ->
  predict (live_data m t) = Some r ->
  (prediction r <> UP ->
   prediction_signals m b t = [("Prediction", (- pred_confidence r)%Q)]) /\
  (prediction r = NEUTRAL ->
   (pred_confidence r == 50)%Q /\
   (- pred_confidence r == - (50))%Q /\
   exists a,
     let others := pivot_signals m b t in
     let lowered :=
       ((sum_scores others - 50)
        / inject_Z (Z.of_nat (List.length others + 1)))%Q in
     analyze_stock m b t = Some a /\
     signals a = others ++ [("Prediction", (- pred_confidence r)%Q)] /\
     (sum_scores (signals a) == sum_scores others - 50)%Q /\
     (action a = BUY <->
      (inject_Z (min_confidence (config b)) < lowered)%Q) /\
     (confidence a == Qabs lowered)%Q).
Proof.
  intros Hu Hp.
  assert (Hsig : prediction r <> UP ->
    prediction_signals m b t = [("Prediction", (- pred_confidence r)%Q)]).
  { intros Hn. unfold prediction_signals, strategies. rewrite Hu, Hp.
    destruct (prediction r); [congruence| |]; reflexivity. }
  split; [exact Hsig|].
  intros Hneutral.
  pose proof (predict_neutral_confidence _ _ Hp Hneutral) as H50.
  split; [exact H50|]. split; [rewrite H50; reflexivity|].
  assert (Hn : prediction r <> UP) by congruence.
  specialize (Hsig Hn).
  set (sigs := pivot_signals m b t ++ [("Prediction", (- pred_confidence r)%Q)]).
  assert (Hne : sigs <> []) by (unfold sigs; destruct (pivot_signals m b t); discriminate).
  destruct (combined_signal_decision (config b) t sigs Hne)
    as (a & Ha & Hs & _ & Hbuy & _ & Hconf).
  assert (Hmean : (arithmetic_mean (map snd sigs)
                   == (sum_scores (pivot_signals m b t) - 50)
                      / inject_Z (Z.of_nat (List.length (pivot_signals m b t) + 1)))%Q).
  { unfold arithmetic_mean, sigs.
    rewrite map_app, length_app, length_map, total_app, sum_scores_total.
    simpl total. simpl List.length. rewrite H50. 
    apply Qdiv_comp; [ring | reflexivity]. }
  exists a. cbv zeta. unfold analyze_stock. rewrite app_nil_l, Hsig.
  fold sigs. split; [exact Ha|]. split; [exact Hs|].
  split.
  - rewrite Hs. unfold sigs. rewrite !sum_scores_total, map_app, total_app.
    simpl. rewrite H50. ring.
  - split.
    + rewrite <- Hmean. exact Hbuy.
    + rewrite <- Hmean. exact Hconf.
Qed.

Lemma neutral_prediction_scored_minus_50_witness :
  let m := aapl_market 10000 "BUY" flat_bar in
  let b := demo_bot MEDIUM (cents 1000000) in
  let r := {| prediction := NEUTRAL; pred_confidence := 500 # 10 |} in
  use_prediction b = true /\
  predict (live_data m "AAPL") = Some r /\
  prediction_signals m b "AAPL" = [("Prediction", (- (500 # 10))%Q)] /\
  (pred_confidence r == 50)%Q.
Proof.
  cbv zeta.
  assert (Hp : predict (live_data (aapl_market 10000 "BUY" flat_bar) "AAPL")
               = Some {| prediction := NEUTRAL; pred_confidence := 500 # 10 |})
    by (vm_compute; reflexivity).
  split; [reflexivity|]. split; [exact Hp|].
  destruct (neutral_prediction_scored_minus_50
              (aapl_market 10000 "BUY" flat_bar)
              (demo_bot MEDIUM (cents 1000000)) "AAPL" _ eq_refl Hp)
    as [Hneg Hneutral].
  split.
  - apply Hneg. discriminate.
  - apply Hneutral. reflexivity.
Defined.

(** C10, as the claim has it, fails on the size of the effect when the
    pivot signal is valid too, as it is with the default switches: beside
    a STRONG_BUY (90) a NEUTRAL prediction gives a mean of 20.  That is 25
    below the mean of 45 that a score of 0 would give, and 70 below the
    pivot score alone; it is 50 below neither. *)
Lemma neutral_prediction_beside_pivot_signal :
  let m := aapl_market 10000 "STRONG_BUY" flat_bar in
  let b := demo_bot MEDIUM (cents 1000000) in
  exists a,
    analyze_stock m b "AAPL" = Some a /\
    map fst (signals a) = ["Pivot"; "Prediction"] /\
    Forall2 Qeq (map snd (signals a)) [90%Q; (- (50))%Q] /\
    (arithmetic_mean (map snd (signals a)) == 20)%Q /\
    (confidence a == 20)%Q /\ action a = HOLD /\
    (arithmetic_mean [90; 0] == 45)%Q /\
    (arithmetic_mean [90] == 90)%Q /\
    ~ (arithmetic_mean (map snd (signals a)) == 45 - 50)%Q /\
    ~ (arithmetic_mean (map snd (signals a)) == 90 - 50)%Q.
Proof.
  cbv zeta. eexists.
  split; [vm_compute; reflexivity|].
  split; [reflexivity|].
  split; [repeat constructor|].
  split; [reflexivity|]. split; [reflexivity|]. split; [reflexivity|].
  split; [reflexivity|]. split; [reflexivity|].
  split; vm_compute; discriminate.
Qed.

(** The engine's analysis only ever carries signals of the pivot and the
    prediction strategies. *)
Lemma analyze_stock_labels (m : Market) (b : AutoTradingBot) (t : Ticker)
    (a : Analysis) (l : string) :
  analyze_stock m b t = Some a -> In l (map fst (signals a)) ->
  l = "Pivot" \/ l = "Prediction".
Proof.
  intros Ha Hin.
  unfold analyze_stock in Ha. rewrite app_nil_l in Ha.
  fold (valid_signals m b t) in Ha.
  assert (Hne : valid_signals m b t <> []).
  { intros E. rewrite E in Ha. discriminate. }
  destruct (combined_signal_decision (config b) t _ Hne) as (a' & Ha' & Hs & _).
  assert (a' = a) by congruence. subst a'.
  rewrite Hs in Hin. unfold valid_signals in Hin.
  rewrite map_app in Hin. apply in_app_or in Hin.
  destruct Hin as [Hin|Hin]; [left|right].
  - unfold pivot_signals in Hin.
    destruct (strategies b pivot); [|contradiction].
    destruct (pivot_predict m t); simpl in Hin; intuition congruence.
  - unfold prediction_signals in Hin.
    destruct (strategies b prediction_key); [|contradiction].
    destruct (predict (live_data m t)); simpl in Hin; intuition congruence.
Qed.

(** C4.  A bot with all four strategies switched on, in a market where
    the screener and the index-rebalancing strategy both report a valid
    score for AAPL: the analysis of AAPL aggregates the pivot and the
    prediction signals only, the two other enabled providers are left
    out. *)
Theorem enabled_screener_and_index_left_out :
  let m := aapl_market 10000 "STRONG_BUY" rising_bar in
  let b := demo_bot MEDIUM (cents 1000000) in
  strategies b screener = Some StockScreener /\
  strategies b index = Some IndexRebalancingStrategy /\
  provider_score m screener "AAPL" = Some 80%Q /\
  provider_score m index "AAPL" = Some 75%Q /\
  exists a,
    analyze_stock m b "AAPL" = Some a /\
    map fst (signals a) = ["Pivot"; "Prediction"] /\
    ~ In (provider_label screener) (map fst (signals a)) /\
    ~ In (provider_label index) (map fst (signals a)).
Proof.
  cbv zeta. repeat split.
  eexists. split; [vm_compute; reflexivity|].
  cbn [signals map fst]. split; [reflexivity|].
  split; intros H; simpl in H; intuition discriminate.
Qed.

(* ================================================================== *)
(** * Decimal arithmetic: digits and signs *)
(* ================================================================== *)

Lemma ndigits_aux_pos (fuel : nat) (n : Z) : 1 <= ndigits_aux fuel n.
Proof.
  revert n. induction fuel as [|f IH]; intros n; cbn [ndigits_aux]; [lia|].
  destruct (n <? 10); [lia|]. specialize (IH (n / 10)). lia.
Qed.

(** The fuel of [ndigits] is enough: it counts the decimal digits. *)
Lemma ndigits_aux_spec (fuel : nat) :
  forall n, 0 < n -> Z.log2 n <= Z.of_nat fuel ->
  10 ^ (ndigits_aux fuel n - 1) <= n < 10 ^ ndigits_aux fuel n.
Proof.
  induction fuel as [|f IH]; intros n Hn Hlog.
  - simpl. pose proof (Z.log2_nonneg n) as H0.
    pose proof (Z.log2_spec n Hn) as Hs.
    assert (Z.log2 n = 0) as E by lia. rewrite E in Hs. simpl in Hs. lia.
  - cbn [ndigits_aux]. destruct (Z.ltb_spec n 10) as [Hlt|Hge].
    + simpl. lia.
    + assert (Hn10 : 0 < n / 10).
      { apply Z.div_str_pos. lia. }
      assert (Hlog10 : Z.log2 (n / 10) <= Z.of_nat f).
      { assert (Hhalf : Z.log2 (n / 10) <= Z.log2 (n / 2)).
        { apply Z.log2_le_mono. apply Z.div_le_compat_l; lia. }
        assert (Hdouble : Z.log2 (2 * (n / 2)) = Z.succ (Z.log2 (n / 2))).
        { apply Z.log2_double. apply Z.div_str_pos. lia. }
        assert (Hle : Z.log2 (2 * (n / 2)) <= Z.log2 n).
        { apply Z.log2_le_mono. apply Z.mul_div_le. lia. }
        lia. }
      destruct (IH _ Hn10 Hlog10) as [Hlo Hhi].
      pose proof (ndigits_aux_pos f (n / 10)) as Hpos.
      set (r := ndigits_aux f (n / 10)) in *.
      replace (1 + r - 1) with (Z.succ (r - 1)) by lia.
      replace (1 + r) with (Z.succ r) by lia.
      rewrite !Z.pow_succ_r by lia.
      pose proof (Z.div_mod n 10 ltac:(lia)) as Hdm.
      pose proof (Z.mod_pos_bound n 10 ltac:(lia)) as Hmod.
      lia.
Qed.

Lemma ndigits_spec (n : Z) :
  0 < n -> 10 ^ (ndigits n - 1) <= n < 10 ^ ndigits n.
Proof.
  intros Hn. apply ndigits_aux_spec; [exact Hn|].
  rewrite Z2Nat.id by apply Z.log2_nonneg. lia.
Qed.

Lemma ndigits_upper (n k : Z) : 0 <= n < 10 ^ k -> 1 <= k -> ndigits n <= k.
Proof.
  intros [H0 Hk] H1.
  destruct (Z.eq_dec n 0) as [->|Hnz]; [cbn; lia|].
  destruct (ndigits_spec n ltac:(lia)) as [Hlo _].
  destruct (Z.le_gt_cases (ndigits n) k) as [Hle|Hgt]; [exact Hle|].
  exfalso.
  assert (10 ^ k <= 10 ^ (ndigits n - 1)) by (apply Z.pow_le_mono_r; lia).
  lia.
Qed.

Lemma round_half_even_nonneg (c k : Z) : 0 <= c -> 0 <= round_half_even c k.
Proof.
  intros Hc. unfold round_half_even.
  assert (0 <= c / 10 ^ k) by (apply Z_div_nonneg_nonneg; [lia|apply Z.pow_nonneg; lia]).
  destruct (_ || _)%bool; lia.
Qed.

Lemma fix_abs_nonneg (c e : Z) : 0 <= c -> 0 <= fst (fix_abs c e).
Proof.
  intros Hc. unfold fix_abs.
  pose proof (round_half_even_nonneg c (ndigits c - prec) Hc) as Hq.
  destruct (0 <? ndigits c - prec)%Z; [|exact Hc].
  destruct (prec <? ndigits _)%Z; simpl; [|exact Hq].
  apply Z_div_nonneg_nonneg; lia.
Qed.

(** [_fix] leaves at most [prec] digits. *)
Lemma fix_abs_fits (c e : Z) : 0 <= c -> ndigits (fst (fix_abs c e)) <= prec.
Proof.
  intros Hc. unfold fix_abs.
  destruct (Z.ltb_spec 0 (ndigits c - prec)) as [Hk|Hk]; [|simpl; lia].
  set (k := ndigits c - prec) in *.
  destruct (Z.ltb_spec prec (ndigits (round_half_even c k))) as [Hcarry|Hfit];
    [|simpl; exact Hfit].
  simpl.
  assert (Hcpos : 0 < c).
  { destruct (Z.eq_dec c 0) as [->|]; [cbn in k; unfold prec in *; lia|lia]. }
  destruct (ndigits_spec c Hcpos) as [_ Hhi].
  assert (Hq : round_half_even c k <= 10 ^ prec).
  { unfold round_half_even.
    assert (Hdiv : c / 10 ^ k < 10 ^ prec).
    { apply Z.div_lt_upper_bound; [apply Z.pow_pos_nonneg; lia|].
      rewrite <- Z.pow_add_r by (unfold prec; lia).
      replace (k + prec) with (ndigits c) by (unfold k; lia). exact Hhi. }
    destruct (_ || _)%bool; lia. }
  apply ndigits_upper; [|unfold prec; lia].
  split; [apply Z_div_nonneg_nonneg; [apply round_half_even_nonneg|]; lia|].
  apply Z.div_lt_upper_bound; [lia|]. unfold prec in *.
  change (10 ^ 28) with (10 * 10 ^ 27) in Hq.
  assert (10 ^ 27 < 10 ^ 28) by reflexivity. lia.
Qed.

Lemma dec_fix_fits (d : Decimal) : ndigits (Z.abs (coeff (dec_fix d))) <= prec.
Proof.
  unfold dec_fix.
  pose proof (fix_abs_fits (Z.abs (coeff d)) (expo d) (Z.abs_nonneg _)) as Hf.
  pose proof (fix_abs_nonneg (Z.abs (coeff d)) (expo d) (Z.abs_nonneg _)) as Hn.
  destruct (fix_abs _ _) as [c e]. simpl in *.
  destruct (Z.sgn_spec (coeff d)) as [[_ ->]|[[_ ->]|[_ ->]]].
  - replace (1 * c) with c by lia. rewrite Z.abs_eq by exact Hn. exact Hf.
  - cbn. unfold prec. lia.
  - replace (-1 * c) with (- c) by lia. rewrite Z.abs_opp, Z.abs_eq by exact Hn.
    exact Hf.
Qed.

(** The loop that strips trailing zeros runs to its end within its fuel,
    and keeps the value. *)
Lemma strip_zeros_spec (fuel : nat) :
  forall c e ideal, ideal - e <= Z.of_nat fuel ->
  let '(c', e') := strip_zeros fuel c e ideal in
  e <= e' /\ c = c' * 10 ^ (e' - e) /\
  ((e' <? ideal) && (c' mod 10 =? 0) = false).
Proof.
  induction fuel as [|f IH]; intros c e ideal Hfuel; cbn [strip_zeros].
  - split; [lia|]. rewrite Z.sub_diag, Z.pow_0_r. split; [lia|].
    destruct (Z.ltb_spec e ideal); [lia|reflexivity].
  - destruct ((e <? ideal) && (c mod 10 =? 0)) eqn:Hc.
    + apply andb_prop in Hc. destruct Hc as [He Hm].
      apply Z.ltb_lt in He. apply Z.eqb_eq in Hm.
      specialize (IH (c / 10) (e + 1) ideal ltac:(lia)).
      destruct (strip_zeros f (c / 10) (e + 1) ideal) as [c' e'].
      destruct IH as (Hle & Hval & Hdone).
      split; [lia|]. split; [|exact Hdone].
      replace (e' - e) with (Z.succ (e' - (e + 1))) by lia.
      rewrite Z.pow_succ_r by lia.
      pose proof (Z.div_mod c 10 ltac:(lia)) as Hdm. lia.
    + split; [lia|]. rewrite Z.sub_diag, Z.pow_0_r. split; [lia|exact Hc].
Qed.

(** Rounding keeps the sign of the coefficient. *)
Lemma dec_fix_nonneg (d : Decimal) : 0 <= coeff d -> 0 <= coeff (dec_fix d).
Proof.
  intros H. unfold dec_fix.
  pose proof (fix_abs_nonneg (Z.abs (coeff d)) (expo d) (Z.abs_nonneg _)) as Hf.
  destruct (fix_abs _ _) as [c e]. simpl in *. 
  apply Z.mul_nonneg_nonneg; [|exact Hf].
  apply Z.sgn_nonneg. exact H.
Qed.

Lemma dec_mul_nonneg (a b : Decimal) :
  0 <= coeff a -> 0 <= coeff b -> 0 <= coeff (dec_mul a b).
Proof.
  intros Ha Hb. apply dec_fix_nonneg. simpl. apply Z.mul_nonneg_nonneg; assumption.
Qed.

Lemma dec_ltb_zero (d : Decimal) : dec_ltb d dec_zero = false <-> 0 <= coeff d.
Proof.
  unfold dec_ltb, dec_compare, aligned, dec_zero. simpl.
  assert (Hp : 0 < 10 ^ (expo d - Z.min (expo d) 0)) by (apply Z.pow_pos_nonneg; lia).
  destruct (coeff d * _ ?= 0) eqn:E.
  - apply Z.compare_eq in E. split; [nia|reflexivity].
  - rewrite Z.compare_lt_iff in E. split; [discriminate|nia].
  - rewrite Z.compare_gt_iff in E. split; [nia|reflexivity].
Qed.

(** A difference is not negative when the subtrahend is not the larger. *)
Lemma dec_sub_nonneg (a b : Decimal) :
  dec_ltb a b = false -> dec_ltb (dec_sub a b) dec_zero = false.
Proof.
  intros H. apply dec_ltb_zero.
  unfold dec_sub, dec_add, aligned. cbn [coeff expo dec_opp].
  apply dec_fix_nonneg. cbn [coeff].
  unfold dec_ltb, dec_compare, aligned in H.
  destruct (_ ?= _) eqn:E; try discriminate.
  - apply Z.compare_eq in E. lia.
  - rewrite Z.compare_gt_iff in E. lia.
Qed.

(* ================================================================== *)
(** * Decimal arithmetic: quotients and their integer part *)
(* ================================================================== *)

Lemma round_half_even_cases (c k : Z) :
  round_half_even c k = c / 10 ^ k \/ round_half_even c k = c / 10 ^ k + 1.
Proof. unfold round_half_even. destruct (_ || _)%bool; auto. Qed.

(** Rounding up at the last one or two digits does not reach the next
    integer when the fraction is far enough from it. *)
Lemma rounded_quotient_floor (q0 E g cr : Z) :
  3 <= E -> 1 <= g <= 2 -> 0 <= q0 ->
  q0 mod 10 ^ E <= 10 ^ E - 101 ->
  cr = q0 / 10 ^ g \/ cr = q0 / 10 ^ g + 1 ->
  cr / 10 ^ (E - g) = q0 / 10 ^ E.
Proof.
  intros HE Hg Hq HF Hcr.
  assert (Hpg : 0 < 10 ^ g) by (apply Z.pow_pos_nonneg; lia).
  assert (Hpe : 0 < 10 ^ (E - g)) by (apply Z.pow_pos_nonneg; lia).
  assert (Hsplit : 10 ^ E = 10 ^ g * 10 ^ (E - g)).
  { rewrite <- Z.pow_add_r by lia. f_equal. lia. }
  assert (Hg100 : 10 ^ g <= 100).
  { assert (g = 1 \/ g = 2) as [->| ->] by lia; simpl; lia. }
  assert (Hdd : q0 / 10 ^ E = q0 / 10 ^ g / 10 ^ (E - g)).
  { rewrite Hsplit. rewrite Z.div_div by lia. reflexivity. }
  destruct Hcr as [-> | ->]; [symmetry; exact Hdd|].
  rewrite Hdd.
  set (Q := q0 / 10 ^ g).
  set (P := 10 ^ (E - g)) in *.
  (* Q mod P <= P - 2 *)
  assert (HQ : 0 <= Q) by (apply Z_div_nonneg_nonneg; lia).
  assert (HFQ : Q mod P < P - 1).
  { assert (Hmm : q0 mod 10 ^ E = 10 ^ g * (Q mod P) + q0 mod 10 ^ g).
    { rewrite Hsplit. rewrite Z.rem_mul_r by lia. unfold Q, P. lia. }
    pose proof (Z.mod_pos_bound q0 (10 ^ g) Hpg) as Hm1.
    pose proof (Z.mod_pos_bound Q P Hpe) as Hm2.
    rewrite Hmm, Hsplit in HF. fold P in HF. nia. }
  pose proof (Z.div_mod Q P ltac:(lia)) as Hdm.
  pose proof (Z.mod_pos_bound Q P Hpe) as Hm2.
  symmetry. apply Z.div_unique with (r := Q mod P + 1); [lia|lia].
Qed.

Lemma ndigits_lower (n k : Z) : 0 <= k -> 10 ^ k <= n -> k + 1 <= ndigits n.
Proof.
  intros Hk Hn.
  assert (Hpos : 0 < 10 ^ k) by (apply Z.pow_pos_nonneg; lia).
  destruct (ndigits_spec n ltac:(lia)) as [_ Hhi].
  destruct (Z.le_gt_cases (k + 1) (ndigits n)) as [Hle|Hgt]; [exact Hle|].
  exfalso.
  assert (10 ^ ndigits n <= 10 ^ k) by (apply Z.pow_le_mono_r; lia).
  lia.
Qed.

(** The coefficient that the division hands to the rounding has one or
    two digits too many. *)
Lemma quotient_digits (x y : Z) :
  0 < x -> 0 < y ->
  let shift := ndigits y - ndigits x + prec + 1 in
  0 <= shift ->
  10 ^ 28 <= x * 10 ^ shift / y < 10 ^ 30.
Proof.
  intros Hx Hy shift Hs.
  destruct (ndigits_spec x Hx) as [Hxl Hxh].
  destruct (ndigits_spec y Hy) as [Hyl Hyh].
  pose proof (ndigits_lower x 0 ltac:(lia) ltac:(simpl; lia)) as Hdx.
  pose proof (ndigits_lower y 0 ltac:(lia) ltac:(simpl; lia)) as Hdy.
  assert (Hp : 0 < 10 ^ shift) by (apply Z.pow_pos_nonneg; lia).
  split.
  - apply Z.div_le_lower_bound; [exact Hy|].
    assert (H1 : 10 ^ (ndigits x - 1) * 10 ^ shift = 10 ^ 28 * 10 ^ ndigits y).
    { rewrite <- !Z.pow_add_r by (unfold prec in *; lia). f_equal.
      unfold shift, prec. lia. }
    assert (H2 : 10 ^ (ndigits x - 1) * 10 ^ shift <= x * 10 ^ shift)
      by (apply Z.mul_le_mono_nonneg_r; lia).
    nia.
  - apply Z.div_lt_upper_bound; [exact Hy|].
    assert (H1 : 10 ^ ndigits x * 10 ^ shift = 10 ^ (ndigits y - 1) * 10 ^ 30).
    { rewrite <- !Z.pow_add_r by (unfold prec in *; lia). f_equal.
      unfold shift, prec. lia. }
    assert (H2 : x * 10 ^ shift < 10 ^ ndigits x * 10 ^ shift)
      by (apply Z.mul_lt_mono_pos_r; lia).
    assert (H3 : 10 ^ (ndigits y - 1) * 10 ^ 30 <= y * 10 ^ 30)
      by (apply Z.mul_le_mono_nonneg_r; [apply Z.pow_nonneg; lia|exact Hyl]).
    lia.
Qed.

(** [int()] of a coefficient with one or two digits too many, once
    rounded: the rounded coefficient, cut at the decimal point. *)
Lemma int_of_fixed (c e k : Z) :
  0 < c -> ndigits c = prec + k -> 1 <= k <= 2 -> e + k < 0 ->
  dec_to_int (dec_fix (mkDec c e))
  = round_half_even c k / 10 ^ (- (e + k)).
Proof.
  intros Hc Hd Hk He.
  unfold dec_fix. cbn [coeff expo].
  rewrite Z.abs_eq by lia. rewrite Z.sgn_pos by exact Hc.
  unfold fix_abs. replace (ndigits c - prec) with k by lia.
  destruct (Z.ltb_spec 0 k) as [_|]; [|lia].
  pose proof (round_half_even_nonneg c k ltac:(lia)) as Hq0.
  assert (Hq : round_half_even c k <= 10 ^ prec).
  { destruct (ndigits_spec c Hc) as [_ Hhi].
    assert (Hdiv : c / 10 ^ k < 10 ^ prec).
    { apply Z.div_lt_upper_bound; [apply Z.pow_pos_nonneg; lia|].
      rewrite <- Z.pow_add_r by (unfold prec; lia).
      replace (k + prec) with (ndigits c) by lia. exact Hhi. }
    unfold round_half_even. destruct (_ || _)%bool; lia. }
  set (q := round_half_even c k) in *.
  assert (Hm : 0 < 10 ^ (- (e + k))) by (apply Z.pow_pos_nonneg; lia).
  destruct (Z.ltb_spec prec (ndigits q)) as [Hcarry|Hfit].
  - assert (Hq28 : q = 10 ^ prec).
    { destruct (Z.le_gt_cases (10 ^ prec) q) as [Hge|Hlt]; [lia|].
      pose proof (ndigits_upper q prec ltac:(lia) ltac:(unfold prec; lia)). lia. }
    rewrite Hq28. unfold dec_to_int. cbn [coeff expo].
    replace (1 * (10 ^ prec / 10)) with (10 ^ 27) by reflexivity.
    change (10 ^ prec) with (10 * 10 ^ 27).
    replace (- (e + k)) with (Z.succ (- (e + k + 1))) by lia.
    rewrite Z.pow_succ_r by lia.
    rewrite Z.div_mul_cancel_l by (try apply Z.pow_nonzero; lia).
    destruct (Z.leb_spec 0 (e + k + 1)) as [H0|H0].
    + replace (e + k + 1) with 0 by lia. reflexivity.
    + apply Z.quot_div_nonneg; [apply Z.pow_nonneg; lia|apply Z.pow_pos_nonneg; lia].
  - unfold dec_to_int. cbn [coeff expo].
    destruct (Z.leb_spec 0 (e + k)) as [H0|H0]; [lia|].
    replace (1 * q) with q by lia.
    apply Z.quot_div_nonneg; [exact Hq0|exact Hm].
Qed.

(** The quotient the division computes with [shift] more digits, against
    the quotient of the aligned coefficients: the same integer part, and a
    fraction that stays clear of the next integer. *)
Lemma division_core (x y da d : Z) :
  0 < x -> 0 < y -> 0 <= da -> 0 <= d -> ndigits x + da <= 27 ->
  let shift := ndigits y - ndigits x + prec + 1 in
  let E := shift - da + d in
  let q0 := x * 10 ^ shift / y in
  3 <= E /\ 3 <= shift /\
  q0 / 10 ^ E = (x * 10 ^ da) / (y * 10 ^ d) /\
  q0 mod 10 ^ E <= 10 ^ E - 101.
Proof.
  intros Hx Hy Hda Hd Hfit shift E q0.
  pose proof (ndigits_lower x 0 ltac:(lia) ltac:(simpl; lia)) as Hdx.
  pose proof (ndigits_lower y 0 ltac:(lia) ltac:(simpl; lia)) as Hdy.
  destruct (ndigits_spec y Hy) as [_ Hyh].
  assert (Hshift : ndigits y + 2 + da <= shift) by (unfold shift, prec; lia).
  assert (HE : ndigits y + 2 + d <= E) by (unfold E; lia).
  set (M := 10 ^ (E - d)).
  assert (HM : 0 < M) by (apply Z.pow_pos_nonneg; lia).
  assert (HpE : 0 < 10 ^ E) by (apply Z.pow_pos_nonneg; lia).
  assert (Hpd : 0 < 10 ^ d) by (apply Z.pow_pos_nonneg; lia).
  assert (Hpda : 0 < 10 ^ da) by (apply Z.pow_pos_nonneg; lia).
  set (A := x * 10 ^ da). set (B := y * 10 ^ d).
  assert (HB : 0 < B) by (unfold B; lia).
  assert (Hnum : x * 10 ^ shift = A * M).
  { unfold A, M. rewrite <- Z.mul_assoc, <- Z.pow_add_r by lia.
    f_equal. f_equal. unfold E. lia. }
  assert (Hden : y * 10 ^ E = B * M).
  { unfold B, M. rewrite <- Z.mul_assoc, <- Z.pow_add_r by lia.
    f_equal. f_equal. lia. }
  assert (K1 : q0 / 10 ^ E = A / B).
  { unfold q0. rewrite Z.div_div by lia. rewrite Hnum, Hden.
    apply Z.div_mul_cancel_r; lia. }
  split; [lia|]. split; [lia|]. split; [exact K1|].
  (* the fraction *)
  assert (HM100 : 100 * y < M).
  { unfold M.
    assert (10 ^ (ndigits y + 2) <= 10 ^ (E - d)) by (apply Z.pow_le_mono_r; lia).
    rewrite Z.pow_add_r in H by lia. change (10 ^ 2) with 100 in H. lia. }
  pose proof (Z.div_mod A B ltac:(lia)) as HdmA.
  pose proof (Z.mod_pos_bound A B HB) as HmA.
  set (N := A / B) in *.
  assert (Hq0y : q0 * y <= A * M).
  { unfold q0. rewrite Hnum. rewrite Z.mul_comm. apply Z.mul_div_le. exact Hy. }
  assert (HAM : A * M <= (N + 1) * (y * 10 ^ E) - M).
  { rewrite Hden. nia. }
  assert (Hq0 : q0 <= (N + 1) * 10 ^ E - 101).
  { assert (q0 * y < ((N + 1) * 10 ^ E - 100) * y) by nia.
    assert (q0 < (N + 1) * 10 ^ E - 100) by nia. lia. }
  pose proof (Z.div_mod q0 (10 ^ E) ltac:(lia)) as Hdmq.
  rewrite K1 in Hdmq. fold N in Hdmq. nia.
Qed.

Lemma dec_fix_small (c e : Z) :
  ndigits (Z.abs c) <= prec -> dec_fix (mkDec c e) = mkDec c e.
Proof.
  intros H. unfold dec_fix, fix_abs. cbn [coeff expo].
  destruct (Z.ltb_spec 0 (ndigits (Z.abs c) - prec)); [lia|].
  f_equal. rewrite Z.mul_comm. apply Z.abs_sgn.
Qed.

(** The sticky digit does not change what the cut digits leave. *)
Lemma sticky_same_quotient (q0 k : Z) :
  1 <= k <= 2 -> q0 mod 5 = 0 -> (q0 + 1) / 10 ^ k = q0 / 10 ^ k.
Proof.
  intros Hk H5.
  pose proof (Z.div_mod q0 5 ltac:(lia)) as Hd5.
  assert (Hcut : forall p, (p = 10 \/ p = 100) -> (q0 + 1) / p = q0 / p).
  { intros p Hp.
    pose proof (Z.div_mod q0 p ltac:(lia)) as Hdp.
    pose proof (Z.mod_pos_bound q0 p ltac:(lia)) as Hbp.
    assert (q0 mod p <> p - 1) by (destruct Hp; subst p; lia).
    symmetry. apply Z.div_unique with (r := q0 mod p + 1); lia. }
  assert (k = 1 \/ k = 2) as [->| ->] by lia; apply Hcut; [left|right];
    reflexivity.
Qed.

(** [int(a / b)] is the floor of the quotient of the two numbers, for a
    dividend that is not negative and, brought to the smaller of the two
    exponents, has at most 27 digits, and a positive divisor. *)
Lemma dec_div_floor (a b q : Decimal) :
  0 <= coeff a -> 0 < coeff b ->
  ndigits (coeff a) + (expo a - Z.min (expo a) (expo b)) <= 27 ->
  dec_div a b = Some q ->
  dec_to_int q = fst (aligned a b) / snd (aligned a b).
Proof.
  intros Ha Hb Hfit. unfold dec_div, aligned. cbn [fst snd].
  destruct (Z.eqb_spec (coeff b) 0) as [|_]; [lia|].
  set (da := expo a - Z.min (expo a) (expo b)) in *.
  set (d := expo b - Z.min (expo a) (expo b)).
  assert (Hda : 0 <= da) by (unfold da; lia).
  assert (Hd : 0 <= d) by (unfold d; lia).
  destruct (Z.eqb_spec (coeff a) 0) as [Hz|Hnz].
  - intros H. injection H as <-.
    rewrite Hz. rewrite dec_fix_small by (cbn; unfold prec; lia).
    unfold dec_to_int. cbn [coeff expo].
    rewrite !Z.mul_0_l, Zdiv_0_l.
    destruct (Z.leb_spec 0 (expo a - expo b)); [reflexivity|].
    apply Z.quot_0_l. apply Z.pow_nonzero; lia.
  - assert (Hx : 0 < coeff a) by lia.
    rewrite (Z.abs_eq (coeff a)) by lia. rewrite (Z.abs_eq (coeff b)) by lia.
    rewrite (Z.sgn_pos (coeff a)) by lia. rewrite (Z.sgn_pos (coeff b)) by lia.
    set (x := coeff a) in *. set (y := coeff b) in *.
    destruct (division_core x y da d Hx Hb Hda Hd Hfit)
      as (HE & Hshift & K1 & K2).
    destruct (quotient_digits x y Hx Hb ltac:(lia)) as [Hq28 Hq30].
    set (shift := ndigits y - ndigits x + prec + 1) in *.
    set (E := shift - da + d) in *.
    assert (He0 : expo a - expo b - shift = - E) by (unfold E, da, d; lia).
    rewrite He0.
    destruct (Z.leb_spec 0 shift) as [_|]; [|lia].
    set (q0 := x * 10 ^ shift / y) in *.
    assert (Hq0 : 0 <= q0) by lia.
    rewrite <- K1.
    destruct (Z.eqb_spec (x * 10 ^ shift mod y) 0) as [Hr|Hr].
    + (* an exact quotient *)
      pose proof (strip_zeros_spec (Z.to_nat shift) q0 (- E) (expo a - expo b)
                    ltac:(lia)) as Hstrip.
      destruct (strip_zeros _ _ _ _) as [c e].
      destruct Hstrip as (Hle & Hval & _).
      rewrite !Z.mul_1_l. intros H. injection H as <-.
      assert (Hpe : 0 < 10 ^ (e - - E)) by (apply Z.pow_pos_nonneg; lia).
      assert (Hc : 0 < c) by nia.
      destruct (Z.le_gt_cases (ndigits c) prec) as [Hsmall|Hbig].
      * rewrite dec_fix_small by (rewrite Z.abs_eq by lia; exact Hsmall).
        unfold dec_to_int. cbn [coeff expo]. rewrite Hval.
        destruct (Z.leb_spec 0 e) as [He|He].
        -- replace (e - - E) with (e + E) by lia.
           rewrite Z.pow_add_r by lia. rewrite Z.mul_assoc.
           rewrite Z.div_mul by (apply Z.pow_nonzero; lia). reflexivity.
        -- replace (10 ^ E) with (10 ^ (- e) * 10 ^ (e - - E)).
           ++ rewrite Z.div_mul_cancel_r by (try apply Z.pow_nonzero; lia).
              apply Z.quot_div_nonneg; [lia|apply Z.pow_pos_nonneg; lia].
           ++ rewrite <- Z.pow_add_r by lia. f_equal. lia.
      * set (k := ndigits c - prec).
        assert (Hk : 1 <= k /\ ndigits c = 28 + k) by (unfold k, prec in *; lia).
        destruct (ndigits_spec c Hc) as [Hcl _].
        assert (Hg : k + (e - - E) <= 2).
        { destruct (Z.le_gt_cases (k + (e - - E)) 2) as [|Hgt]; [assumption|].
          exfalso.
          assert (10 ^ 30 <= 10 ^ (ndigits c - 1) * 10 ^ (e - - E)).
          { rewrite <- Z.pow_add_r by lia. apply Z.pow_le_mono_r; lia. }
          assert (10 ^ (ndigits c - 1) * 10 ^ (e - - E) <= c * 10 ^ (e - - E))
            by (apply Z.mul_le_mono_nonneg_r; lia).
          lia. }
        rewrite (int_of_fixed c e k Hc ltac:(unfold prec; lia) ltac:(lia)
                   ltac:(lia)).
        replace (- (e + k)) with (E - (k + (e - - E))) by lia.
        apply rounded_quotient_floor; try lia.
        assert (Hsame : q0 / 10 ^ (k + (e - - E)) = c / 10 ^ k).
        { rewrite Hval. rewrite Z.pow_add_r by lia.
          rewrite (Z.mul_comm (10 ^ k)).
          rewrite <- Z.div_div by (try apply Z.pow_pos_nonneg; lia).
          rewrite Z.div_mul by lia. reflexivity. }
        rewrite Hsame. apply round_half_even_cases.
    + (* a quotient with a remainder *)
      rewrite !Z.mul_1_l. intros H. injection H as <-.
      set (c := if q0 mod 5 =? 0 then q0 + 1 else q0).
      assert (H5 : (10 ^ 30 - 1) mod 5 = 4) by reflexivity.
      assert (Hc28 : 10 ^ 28 <= c < 10 ^ 30).
      { unfold c. destruct (Z.eqb_spec (q0 mod 5) 0) as [Hm|Hm]; [|lia].
        split; [lia|].
        destruct (Z.eq_dec q0 (10 ^ 30 - 1)) as [Heq|Hne]; [|lia].
        rewrite Heq in Hm. lia. }
      assert (Hc : 0 < c) by lia.
      set (k := ndigits c - prec).
      pose proof (ndigits_lower c 28 ltac:(lia) ltac:(lia)) as Hk1.
      pose proof (ndigits_upper c 30 ltac:(lia) ltac:(lia)) as Hk2.
      rewrite (int_of_fixed c (- E) k Hc ltac:(unfold k; lia)
                 ltac:(unfold k, prec; lia) ltac:(unfold k, prec; lia)).
      replace (- (- E + k)) with (E - k) by lia.
      apply rounded_quotient_floor; try (unfold k, prec; lia).
      assert (Hsame : c / 10 ^ k = q0 / 10 ^ k).
      { unfold c. destruct (Z.eqb_spec (q0 mod 5) 0) as [Hm|Hm]; [|reflexivity].
        apply sticky_same_quotient; [unfold k, prec; lia|exact Hm]. }
      rewrite <- Hsame. apply round_half_even_cases.
Qed.

Lemma pow10_nonzero (e : Z) : ~ (pow10 e == 0)%Q.
Proof. apply Qpower_not_0. discriminate. Qed.

Lemma pow10_nonneg (e : Z) :
  0 <= e -> (pow10 e == inject_Z (10 ^ e))%Q.
Proof. intros He. unfold pow10. symmetry. apply Zpower_Qpower. exact He. Qed.

Lemma pow10_add (e1 e2 : Z) : (pow10 (e1 + e2) == pow10 e1 * pow10 e2)%Q.
Proof. apply Qpower_plus. discriminate. Qed.

(** The value of a decimal, with the power of ten written out. *)
Lemma dec_value_power (d : Decimal) :
  (dec_value d == inject_Z (coeff d) * pow10 (expo d))%Q.
Proof.
  unfold dec_value. destruct (Z.leb_spec 0 (expo d)) as [He|He].
  - rewrite inject_Z_mult. rewrite pow10_nonneg by exact He. reflexivity.
  - assert (Hp : 0 < 10 ^ (- expo d)) by (apply Z.pow_pos_nonneg; lia).
    rewrite Qmake_Qdiv. rewrite Z2Pos.id by exact Hp.
    rewrite <- pow10_nonneg by lia.
    assert (Hinv : (pow10 (expo d) == / pow10 (- expo d))%Q).
    { unfold pow10. rewrite Qpower_opp. rewrite Qinv_involutive. reflexivity. }
    rewrite Hinv. reflexivity.
Qed.

(** The quotient of two decimals is the quotient of their aligned
    coefficients. *)
Lemma dec_value_quotient (a b : Decimal) :
  coeff b <> 0 ->
  (dec_value a / dec_value b
   == inject_Z (fst (aligned a b)) / inject_Z (snd (aligned a b)))%Q.
Proof.
  intros Hb. unfold aligned. cbn [fst snd].
  set (m := Z.min (expo a) (expo b)).
  rewrite !dec_value_power. rewrite !inject_Z_mult.
  rewrite <- !pow10_nonneg by (unfold m; lia).
  replace (expo a) with ((expo a - m) + m) at 1 by lia.
  replace (expo b) with ((expo b - m) + m) at 1 by lia.
  rewrite !pow10_add.
  field. repeat split; try apply pow10_nonzero.
  intros H. apply Hb. unfold Qeq in H. cbn in H. lia.
Qed.

Lemma Qfloor_quotient (n m : Z) :
  0 < m -> Qfloor (inject_Z n / inject_Z m) = n / m.
Proof.
  intros Hm. destruct m as [|p|p]; try lia.
  unfold Qdiv, Qinv, Qmult, inject_Z, Qfloor. cbn.
  rewrite Z.mul_1_r. reflexivity.
Qed.

(** The floor of the quotient of two decimals, on the coefficients. *)
Lemma dec_quotient_floor (a b : Decimal) :
  0 < coeff b ->
  Qfloor (dec_value a / dec_value b)
  = fst (aligned a b) / snd (aligned a b).
Proof.
  intros Hb.
  rewrite (Qfloor_comp _ _ (dec_value_quotient a b ltac:(lia))).
  apply Qfloor_quotient. unfold aligned. cbn [snd].
  apply Z.mul_pos_pos; [exact Hb|apply Z.pow_pos_nonneg; lia].
Qed.

Lemma dec_mul_exact (a b : Decimal) :
  ndigits (Z.abs (coeff a * coeff b)) <= prec ->
  (dec_value (dec_mul a b) == dec_value a * dec_value b)%Q.
Proof.
  intros H. unfold dec_mul. rewrite dec_fix_small by exact H.
  rewrite !dec_value_power. cbn [coeff expo].
  rewrite inject_Z_mult, pow10_add. ring.
Qed.

Lemma strip_zeros_nonneg (fuel : nat) (c e ideal : Z) :
  0 <= c -> 0 <= fst (strip_zeros fuel c e ideal).
Proof.
  revert c e. induction fuel as [|f IH]; intros c e Hc; simpl; [exact Hc|].
  destruct (_ && _)%bool; [|exact Hc].
  apply IH. apply Z_div_nonneg_nonneg; lia.
Qed.

(** The quotient of a non-negative decimal by a positive one is not
    negative. *)
Lemma dec_div_nonneg (a b q : Decimal) :
  0 <= coeff a -> 0 < coeff b -> dec_div a b = Some q -> 0 <= coeff q.
Proof.
  intros Ha Hb. unfold dec_div.
  destruct (coeff b =? 0); [discriminate|].
  destruct (coeff a =? 0).
  - intros H. inversion H. apply dec_fix_nonneg. simpl. lia.
  - set (x := Z.abs (coeff a)). set (y := Z.abs (coeff b)).
    set (shift := ndigits y - ndigits x + prec + 1).
    set (num := if 0 <=? shift then x * 10 ^ shift else x).
    set (den := if 0 <=? shift then y else y * 10 ^ (- shift)).
    assert (Hx : 0 <= x) by apply Z.abs_nonneg.
    assert (Hy : 0 <= y) by apply Z.abs_nonneg.
    assert (Hnum : 0 <= num).
    { unfold num. destruct (0 <=? shift); [|exact Hx].
      apply Z.mul_nonneg_nonneg; [exact Hx|apply Z.pow_nonneg; lia]. }
    assert (Hden : 0 <= den).
    { unfold den. destruct (0 <=? shift); [exact Hy|].
      apply Z.mul_nonneg_nonneg; [exact Hy|apply Z.pow_nonneg; lia]. }
    assert (Hq : 0 <= num / den) by (apply Z_div_nonneg_nonneg; assumption).
    pose proof (strip_zeros_nonneg (Z.to_nat shift) (num / den)
                  (expo a - expo b - shift) (expo a - expo b) Hq) as Hs.
    destruct (num mod den =? 0).
    + destruct (strip_zeros _ _ _ _) as [c e']. simpl in Hs.
      intros H. inversion H. apply dec_fix_nonneg. simpl.
      apply Z.mul_nonneg_nonneg; [|exact Hs].
      apply Z.mul_nonneg_nonneg; apply Z.sgn_nonneg; lia.
    + intros H. inversion H. apply dec_fix_nonneg. simpl.
      apply Z.mul_nonneg_nonneg.
      * apply Z.mul_nonneg_nonneg; apply Z.sgn_nonneg; lia.
      * destruct (_ =? 0); lia.
Qed.


Lemma aligned_value (a b : Decimal) :
  (inject_Z (fst (aligned a b)) * pow10 (Z.min (expo a) (expo b))
   == dec_value a)%Q /\
  (inject_Z (snd (aligned a b)) * pow10 (Z.min (expo a) (expo b))
   == dec_value b)%Q.
Proof.
  unfold aligned. cbn [fst snd]. set (m := Z.min (expo a) (expo b)).
  rewrite !dec_value_power, !inject_Z_mult.
  rewrite <- !pow10_nonneg by (unfold m; lia).
  split.
  - rewrite <- Qmult_assoc, <- pow10_add.
    replace (expo a - m + m) with (expo a) by lia. reflexivity.
  - rewrite <- Qmult_assoc, <- pow10_add.
    replace (expo b - m + m) with (expo b) by lia. reflexivity.
Qed.

(** A sum that needs no rounding is the sum. *)
Lemma dec_add_exact (a b : Decimal) :
  ndigits (Z.abs (fst (aligned a b) + snd (aligned a b))) <= prec ->
  (dec_value (dec_add a b) == dec_value a + dec_value b)%Q.
Proof.
  intros H. destruct (aligned_value a b) as [Ha Hb].
  unfold dec_add. destruct (aligned a b) as [x y]. cbn [fst snd] in *.
  rewrite dec_fix_small by exact H.
  rewrite dec_value_power. cbn [coeff expo].
  rewrite inject_Z_plus, <- Ha, <- Hb. ring.
Qed.

Lemma dec_value_opp (a : Decimal) :
  (dec_value (dec_opp a) == - dec_value a)%Q.
Proof.
  rewrite !dec_value_power. unfold dec_opp. cbn [coeff expo].
  rewrite inject_Z_opp. ring.
Qed.

(** A difference that needs no rounding is the difference. *)
Lemma dec_sub_exact (a b : Decimal) :
  ndigits (Z.abs (fst (aligned a b) - snd (aligned a b))) <= prec ->
  (dec_value (dec_sub a b) == dec_value a - dec_value b)%Q.
Proof.
  intros H. unfold dec_sub. rewrite dec_add_exact.
  - rewrite dec_value_opp. reflexivity.
  - unfold aligned, dec_opp in *. cbn [fst snd coeff expo] in *.
    replace (coeff a * 10 ^ (expo a - Z.min (expo a) (expo b)) +
             - coeff b * 10 ^ (expo b - Z.min (expo a) (expo b)))
      with (coeff a * 10 ^ (expo a - Z.min (expo a) (expo b)) -
            coeff b * 10 ^ (expo b - Z.min (expo a) (expo b))) by lia.
    exact H.
Qed.

Lemma dec_value_of_int (n : Z) : (dec_value (dec_of_int n) == inject_Z n)%Q.
Proof.
  rewrite dec_value_power. unfold dec_of_int, pow10. cbn [coeff expo].
  cbn [Qpower]. ring.
Qed.

(** A price times a whole quantity that needs no rounding. *)
Lemma dec_mul_int_exact (p : Decimal) (n : Z) :
  ndigits (Z.abs (coeff p * n)) <= prec ->
  (dec_value (dec_mul p (dec_of_int n)) == dec_value p * inject_Z n)%Q.
Proof.
  intros H. rewrite dec_mul_exact by exact H.
  rewrite dec_value_of_int. reflexivity.
Qed.

(* ================================================================== *)
(** * Executions and their outcomes *)
(* ================================================================== *)

Lemma on_account_same (s : Ledger) : on_account (fun _ => account s) s = s.
Proof. destruct s; reflexivity. Qed.

Lemma upsert_holding_run (t : Ticker) (q : Z) (p : Decimal)
    (fs : Faults) (n : nat) (a : Account) :
  fs n = false ->
  upsert_holding t q p fs n a
  = match upserted t q p a with
    | Some a' => Returned tt (S n) a'
    | None => Raised a
    end.
Proof.
  intros Hn.
  unfold upsert_holding, upserted, get_or_create, merge_buy, merge_average,
    decimal_div, bind, get_store, orm_write, ret, raise.
  destruct (holdings_of t a) as [|h [|h' r]]; cbn.
  - rewrite Hn. reflexivity.
  - destruct (dec_div _ _); cbn; [rewrite Hn|]; reflexivity.
  - reflexivity.
Qed.

(** An engine buy makes at most five writes (the holding, the balance,
    the bot, the Transaction, the BotTrade); when the first four are
    accepted, it ends as [buy_outcome] says, up to the last write. *)
Lemma execute_buy_run (m : Market) (fs : Faults) (s : Ledger) (t : Ticker)
    (analysis : Analysis) :
  fs 0%nat = false -> fs 1%nat = false -> fs 2%nat = false ->
  fs 3%nat = false ->
  execute_buy m fs s t analysis
  = match buy_outcome m s t analysis with
    | None => (None, s)
    | Some (trade, s') =>
        if fs 4%nat then (None, without_new_trades s s')
        else (Some trade, s')
    end.
Proof.
  intros H0 H1 H2 H3.
  unfold execute_buy, try_except, execute_buy_body, buy_outcome,
    position_size, decimal_div.
  destruct (live_price m t) as [p|]; [|reflexivity].
  unfold bind at 1. unfold get_store at 1.
  destruct (dec_div _ p) as [q|]; [|reflexivity].
  unfold bind at 1. unfold ret at 1.
  destruct (dec_to_int q =? 0); [reflexivity|].
  destruct (dec_gtb _ _); [reflexivity|]. cbn [orb].
  unfold bind at 1. unfold lift_account.
  rewrite (upsert_holding_run _ _ _ _ _ _ H0).
  destruct (upserted t (dec_to_int q) p (account s)) as [acc|].
  - unfold bind, orm_write, ret. rewrite H1, H2, H3.
    destruct (fs 4%nat); reflexivity.
  - rewrite on_account_same. reflexivity.
Qed.

(** An engine sell makes five writes (the balance, the bot, the
    Transaction, the BotTrade, the deletion of the holding). *)
Lemma execute_sell_run (m : Market) (fs : Faults) (s : Ledger)
    (h : Holding) (reason : Reason) :
  fs 0%nat = false -> fs 1%nat = false -> fs 2%nat = false ->
  fs 3%nat = false ->
  execute_sell m fs s h reason
  = match sell_outcome m s h reason with
    | None => (None, s)
    | Some (trade, s') =>
        if fs 4%nat then (None, without_holding_change s s')
        else (Some trade, s')
    end.
Proof.
  intros H0 H1 H2 H3.
  unfold execute_sell, try_except, execute_sell_body, sell_outcome.
  destruct (live_price m (stock h)) as [p|]; [|reflexivity].
  unfold bind, get_store, orm_write, ret. rewrite H0, H1, H2, H3.
  destruct (fs 4%nat); reflexivity.
Qed.

Lemma execute_buy_no_faults (m : Market) (s : Ledger) (t : Ticker)
    (analysis : Analysis) :
  execute_buy m no_faults s t analysis
  = match buy_outcome m s t analysis with
    | None => (None, s)
    | Some (trade, s') => (Some trade, s')
    end.
Proof.
  rewrite execute_buy_run by reflexivity.
  destruct (buy_outcome m s t analysis) as [[tr s']|]; reflexivity.
Qed.

Lemma execute_sell_no_faults (m : Market) (s : Ledger) (h : Holding)
    (reason : Reason) :
  execute_sell m no_faults s h reason
  = match sell_outcome m s h reason with
    | None => (None, s)
    | Some (trade, s') => (Some trade, s')
    end.
Proof.
  rewrite execute_sell_run by reflexivity.
  destruct (sell_outcome m s h reason) as [[tr s']|]; reflexivity.
Qed.

(* ================================================================== *)
(** * Bot lifecycle: properties *)
(* ================================================================== *)

(** C3, as the code has it.  Start and pause set the status to ACTIVE and
    to PAUSED whatever it was, and touch neither the account nor the bot's
    capital; a stop call credits the account's balance with the bot's
    current capital, reports that amount, and sets the status to
    STOPPED, leaving the rest of the account and the bot's capital as
    they were. *)
Theorem lifecycle_operations (s : Ledger) :
  (status (bot (start_bot s)) = ACTIVE /\
   account (start_bot s) = account s /\
   current_capital (bot (start_bot s)) = current_capital (bot s)) /\
  (status (bot (pause_bot s)) = PAUSED /\
   account (pause_bot s) = account s /\
   current_capital (bot (pause_bot s)) = current_capital (bot s)) /\
  (status (bot (snd (stop_bot s))) = STOPPED /\
   balance (account (snd (stop_bot s)))
   = dec_add (balance (account s)) (current_capital (bot s)) /\
   capital_returned (fst (stop_bot s)) = current_capital (bot s) /\
   current_capital (bot (snd (stop_bot s))) = current_capital (bot s) /\
   holdings (account (snd (stop_bot s))) = holdings (account s) /\
   transactions (account (snd (stop_bot s))) = transactions (account s) /\
   bot_trades (snd (stop_bot s)) = bot_trades s).
Proof. repeat split. Qed.

(** C3, as the claim has it, fails: a stopped bot is started again by
    [start_bot] (and paused by [pause_bot]); nothing looks at the status
    the bot had. *)
Lemma stopped_bot_starts_again :
  let s := open_ledger (fresh_account 0) (demo_bot MEDIUM (cents 1000000)) in
  let stopped := snd (stop_bot s) in
  status (bot stopped) = STOPPED /\
  status (bot (start_bot stopped)) = ACTIVE /\
  status (bot (pause_bot stopped)) = PAUSED.
Proof. repeat split. Qed.

(** Nor does [stop_bot] look at it: the capital it returned stays in the
    bot, and a second stop returns it again. *)
Example second_stop_credits_again :
  let s := open_ledger (fresh_account 0) (demo_bot MEDIUM (cents 1000000)) in
  balance (account (snd (stop_bot s))) = cents 1000000 /\
  balance (account (snd (stop_bot (snd (stop_bot s))))) = cents 2000000.
Proof. split; reflexivity. Qed.

(* ================================================================== *)
(** * Buying: the balance *)
(* ================================================================== *)

(** X1.  The manual path checks the balance: an order that costs more
    than the account holds is declined and nothing is written, whatever
    the store would have accepted. *)
Lemma buy_stock_declines_overdraw (m : Market) (fs : Faults) (user : Account)
    (r : OrderRequest) (p : Decimal) :
  upper (req_stock r) <> "" -> 0 < req_quantity r ->
  live_price m (upper (req_stock r)) = Some p ->
  dec_ltb (balance user) (dec_mul p (dec_of_int (req_quantity r))) = true ->
  buy_stock m fs user r
  = (Declined (InsufficientBalance
                 (dec_mul p (dec_of_int (req_quantity r))) (balance user)),
     user).
Proof.
  intros Ht Hq Hp Hlt. unfold buy_stock, respond, buy_stock_body.
  destruct (String.eqb_spec (upper (req_stock r)) ""); [contradiction|].
  destruct (Z.leb_spec (req_quantity r) 0); [lia|]. cbn [orb].
  rewrite Hp. unfold bind, get_store. rewrite Hlt. reflexivity.
Qed.

(** X2.  And a manual buy that is filled leaves a balance that is not
    negative. *)
Lemma buy_stock_balance_nonneg (m : Market) (user user' : Account)
    (r : OrderRequest) (t : Ticker) (q : Z) (p cost nb : Decimal) :
  buy_stock m no_faults user r = (Filled t q p cost nb, user') ->
  dec_ltb (balance user') dec_zero = false.
Proof.
  unfold buy_stock, respond, buy_stock_body.
  destruct (_ || _)%bool; [cbn; congruence|].
  destruct (live_price m _) as [price|]; [|cbn; congruence].
  unfold bind at 1. unfold get_store at 1.
  destruct (dec_ltb (balance user) _) eqn:Hlt; [cbn; congruence|].
  unfold bind at 1. rewrite upsert_holding_run by reflexivity.
  destruct (upserted _ _ _ user) as [acc|]; [|congruence].
  cbn. intros H. inversion H; subst. cbn.
  apply dec_sub_nonneg. exact Hlt.
Qed.

Lemma buy_stock_declines_overdraw_witness :
  buy_stock (aapl_market 50000 "BUY" flat_bar) no_faults (fresh_account 10000)
    {| req_stock := "aapl"; req_quantity := 10 |}
  = (Declined (InsufficientBalance (cents 500000) (cents 10000)),
     fresh_account 10000).
Proof.
  apply (buy_stock_declines_overdraw
           (aapl_market 50000 "BUY" flat_bar) no_faults (fresh_account 10000)
           {| req_stock := "aapl"; req_quantity := 10 |} (cents 50000)).
  - discriminate.
  - reflexivity.
  - reflexivity.
  - reflexivity.
Defined.

Lemma buy_stock_balance_nonneg_witness :
  exists user',
    buy_stock (aapl_market 50000 "BUY" flat_bar) no_faults
      (fresh_account 500000) {| req_stock := "aapl"; req_quantity := 10 |}
    = (Filled "AAPL" 10 (cents 50000) (cents 500000) (cents 0), user') /\
    balance user' = cents 0 /\
    dec_ltb (balance user') dec_zero = false.
Proof.
  eexists.
  eassert (Hrun : buy_stock (aapl_market 50000 "BUY" flat_bar) no_faults
              (fresh_account 500000)
              {| req_stock := "aapl"; req_quantity := 10 |}
            = (Filled "AAPL" 10 (cents 50000) (cents 500000) (cents 0), _))
    by (vm_compute; reflexivity).
  split; [exact Hrun|]. split; [reflexivity|].
  exact (buy_stock_balance_nonneg _ _ _ _ _ _ _ _ _ Hrun).
Defined.

(** C1.  The engine's buy does not look at the account's balance.  A user
    with 10000.00 creates a MEDIUM bot with all of it, which leaves a
    balance of 0.00; the bot's first buy, 15 shares of a 100.00 stock, costs
    1500.00, more than the balance, and is executed all the same: the
    balance ends at -1500.00. *)
Theorem engine_buy_overdraws_account :
  let m := aapl_market 10000 "STRONG_BUY" rising_bar in
  exists b user analysis trade s',
    create_bot (demo_request MEDIUM (cents 1000000)) (fresh_account 1000000)
    = (BotCreated b (10 # 1), user) /\
    balance user = cents 0 /\
    analyze_stock m b "AAPL" = Some analysis /\
    execute_buy m no_faults (open_ledger user b) "AAPL" analysis
    = (Some trade, s') /\
    bt_quantity trade = 15 /\
    total_value trade = cents 150000 /\
    dec_gtb (total_value trade) (balance user) = true /\
    balance (account s') = cents (-150000) /\
    dec_ltb (balance (account s')) dec_zero = true.
Proof.
  cbv zeta. do 5 eexists.
  split; [vm_compute; reflexivity|].
  split; [reflexivity|].
  split; [vm_compute; reflexivity|].
  split; [vm_compute; reflexivity|].
  repeat split.
Qed.

(* ================================================================== *)
(** * One order, write by write *)
(* ================================================================== *)

(** A buy changes the Holding table and the key counter of the account,
    and nothing else of it. *)
Lemma upserted_frame (t : Ticker) (q : Z) (p : Decimal) (a acc : Account) :
  upserted t q p a = Some acc ->
  balance acc = balance a /\
  transactions acc = transactions a /\
  acc = set_holdings (holdings acc)
          {| balance := balance a; holdings := holdings a;
             next_pk := next_pk acc; transactions := transactions a |}.
Proof.
  unfold upserted.
  destruct (holdings_of t a) as [|h0 [|h1 r]]; try discriminate.
  - intros H. inversion H. destruct a; repeat split.
  - destruct (merge_average h0 q p); intros H; inversion H.
    destruct a; repeat split.
Qed.

(** C2, as the code has it.  When the store accepts every write, an
    engine buy or sell either ends without a trade and leaves the ledger
    as it was, or applies all of its mutations: the balance, the Holding
    row, the bot's fields, one Transaction and one BotTrade.  The writes
    are committed one by one and nothing undoes them: when the last write
    is refused the call reports no trade, and what the earlier writes did
    stays.  For a buy that is everything but the BotTrade row; for a sell,
    everything but the deletion of the Holding. *)
Theorem order_writes_are_not_rolled_back
    (m : Market) (s : Ledger) (t : Ticker) (analysis : Analysis)
    (h : Holding) (reason : Reason) :
  match execute_buy m no_faults s t analysis with
  | (None, s') => s' = s
  | (Some trade, s') =>
      balance (account s')
      = dec_sub (balance (account s)) (total_value trade) /\
      upserted t (bt_quantity trade) (bt_price trade) (account s)
      = Some (set_holdings (holdings (account s'))
                {| balance := balance (account s);
                   holdings := holdings (account s);
                   next_pk := next_pk (account s');
                   transactions := transactions (account s) |}) /\
      current_capital (bot s')
      = dec_sub (current_capital (bot s)) (total_value trade) /\
      total_trades (bot s') = total_trades (bot s) + 1 /\
      transactions (account s')
      = transactions (account s)
        ++ [buy_transaction true t (bt_quantity trade) (bt_price trade)
              (total_value trade) (balance (account s'))] /\
      bot_trades s' = bot_trades s ++ [trade] /\
      execute_buy m (fails_at 4) s t analysis
      = (None, without_new_trades s s')
  end /\
  match execute_sell m no_faults s h reason with
  | (None, s') => s' = s
  | (Some trade, s') =>
      balance (account s')
      = dec_add (balance (account s)) (total_value trade) /\
      holdings (account s')
      = filter (fun r => negb (Nat.eqb (pk r) (pk h))) (holdings (account s)) /\
      current_capital (bot s')
      = dec_add (current_capital (bot s)) (total_value trade) /\
      total_trades (bot s') = total_trades (bot s) + 1 /\
      transactions (account s')
      = transactions (account s)
        ++ [sell_transaction h (bt_price trade) (balance (account s')) reason] /\
      bot_trades s' = bot_trades s ++ [trade] /\
      execute_sell m (fails_at 4) s h reason
      = (None, without_holding_change s s')
  end.
Proof.
  split.
  - rewrite execute_buy_no_faults.
    rewrite (execute_buy_run m (fails_at 4)) by reflexivity.
    unfold buy_outcome.
    destruct (live_price m t) as [p|]; [|reflexivity].
    destruct (position_size (bot s) p) as [q|]; [|reflexivity].
    destruct (_ || _)%bool; [reflexivity|].
    destruct (upserted t q p (account s)) as [acc|] eqn:Hu; [|reflexivity].
    destruct (upserted_frame _ _ _ _ _ Hu) as (Hb & Htx & Hacc).
    cbn -[dec_sub dec_mul]. repeat split.
    + rewrite Hu. f_equal. exact Hacc.
    + rewrite Htx. reflexivity.
  - rewrite execute_sell_no_faults.
    rewrite (execute_sell_run m (fails_at 4)) by reflexivity.
    unfold sell_outcome.
    destruct (live_price m (stock h)) as [p|]; [|reflexivity].
    cbn -[dec_sub dec_mul dec_add]. repeat split.
Qed.

(** C2, as the claim has it, fails.  A MEDIUM bot with 10000.00 buys AAPL
    at 100.00 and the store refuses the BotTrade row: the call returns no
    trade, and yet the account has paid 1500.00, holds the shares, has a
    Transaction for them, and the bot's capital is down to 8500.00. *)
Lemma refused_bot_trade_leaves_the_rest :
  let m := aapl_market 10000 "STRONG_BUY" rising_bar in
  let s := open_ledger (fresh_account 5000000)
                       (demo_bot MEDIUM (cents 1000000)) in
  exists analysis s',
    analyze_stock m (bot s) "AAPL" = Some analysis /\
    execute_buy m (fails_at 4) s "AAPL" analysis = (None, s') /\
    s' <> s /\
    balance (account s') = cents 4850000 /\
    map (fun h => (stock h, quantity h)) (holdings (account s'))
    = [("AAPL", 15)] /\
    map debit (transactions (account s')) = [cents 150000] /\
    current_capital (bot s') = cents 850000 /\
    bot_trades s' = [].
Proof.
  cbv zeta. do 2 eexists.
  split; [vm_compute; reflexivity|].
  split; [vm_compute; reflexivity|].
  split; [discriminate|].
  repeat split.
Qed.

(* ================================================================== *)
(** * Engine sell: properties *)
(* ================================================================== *)

Lemma dec_compare_antisym (a b : Decimal) :
  dec_compare b a = CompOpp (dec_compare a b).
Proof.
  unfold dec_compare, aligned. rewrite (Z.min_comm (expo b) (expo a)).
  apply Z.compare_antisym.
Qed.

Lemma dec_eqb_not_gtb (a b : Decimal) :
  dec_eqb a b = true -> dec_gtb a b = false.
Proof.
  unfold dec_eqb, dec_gtb, dec_ltb. rewrite (dec_compare_antisym a b).
  destruct (dec_compare a b); simpl; congruence.
Qed.

(** C7.  An engine sell that gets a price sells the whole quantity of the
    holding and deletes its row.  The revenue is price times quantity
    (exactly so while the product has at most 28 digits), the realized
    profit/loss is the revenue minus buying price times quantity;
    the account's balance and the bot's current capital are credited with
    the revenue, the realized profit/loss is added to the bot's total, and
    the trade counts as won when the realized profit/loss is strictly
    positive and as lost otherwise, so also when it is zero. *)
Theorem execute_sell_liquidates_holding
    (m : Market) (s : Ledger) (h : Holding) (reason : Reason) (p : Decimal) :
  live_price m (stock h) = Some p ->
  let revenue := dec_mul p (dec_of_int (quantity h)) in
  let realized :=
    dec_sub revenue (dec_mul (buying_price h) (dec_of_int (quantity h))) in
  exists trade s',
    execute_sell m no_faults s h reason = (Some trade, s') /\
    bt_action trade = SELL /\
    bt_quantity trade = quantity h /\
    holdings (account s')
    = filter (fun r => negb (Nat.eqb (pk r) (pk h))) (holdings (account s)) /\
    (forall r, In r (holdings (account s')) -> pk r <> pk h) /\
    total_value trade = revenue /\
    (ndigits (Z.abs (coeff p * quantity h)) <= prec ->
     (dec_value revenue == dec_value p * inject_Z (quantity h))%Q) /\
    bt_profit_loss trade = Some realized /\
    balance (account s') = dec_add (balance (account s)) revenue /\
    current_capital (bot s') = dec_add (current_capital (bot s)) revenue /\
    total_profit_loss (bot s')
    = dec_add (total_profit_loss (bot s)) realized /\
    total_trades (bot s') = total_trades (bot s) + 1 /\
    (dec_gtb realized dec_zero = true ->
     winning_trades (bot s') = winning_trades (bot s) + 1 /\
     losing_trades (bot s') = losing_trades (bot s)) /\
    (dec_gtb realized dec_zero = false ->
     winning_trades (bot s') = winning_trades (bot s) /\
     losing_trades (bot s') = losing_trades (bot s) + 1) /\
    (dec_eqb realized dec_zero = true ->
     losing_trades (bot s') = losing_trades (bot s) + 1).
Proof.
  intros Hp revenue realized.
  rewrite execute_sell_no_faults. unfold sell_outcome. rewrite Hp.
  do 2 eexists. split; [reflexivity|].
  cbn -[dec_sub dec_mul dec_add dec_gtb dec_eqb dec_zero].
  fold (sell_revenue h p). fold (realized_pl h p).
  assert (Hwon : dec_gtb (realized_pl h p) dec_zero = true ->
    (if dec_gtb (realized_pl h p) (dec_of_int 0)
     then winning_trades (bot s) + 1 else winning_trades (bot s))
    = winning_trades (bot s) + 1 /\
    (if dec_gtb (realized_pl h p) (dec_of_int 0)
     then losing_trades (bot s) else losing_trades (bot s) + 1)
    = losing_trades (bot s)).
  { intros E. change (dec_of_int 0) with dec_zero. rewrite E. split; reflexivity. }
  assert (Hlost : dec_gtb (realized_pl h p) dec_zero = false ->
    (if dec_gtb (realized_pl h p) (dec_of_int 0)
     then winning_trades (bot s) + 1 else winning_trades (bot s))
    = winning_trades (bot s) /\
    (if dec_gtb (realized_pl h p) (dec_of_int 0)
     then losing_trades (bot s) else losing_trades (bot s) + 1)
    = losing_trades (bot s) + 1).
  { intros E. change (dec_of_int 0) with dec_zero. rewrite E. split; reflexivity. }
  repeat match goal with |- _ /\ _ => split end;
    try reflexivity; try exact Hwon; try exact Hlost;
    try (intros Hd; unfold revenue; apply dec_mul_int_exact; exact Hd).
  - intros r Hin. apply filter_In in Hin. destruct Hin as [_ Hne].
    apply negb_true_iff, Nat.eqb_neq in Hne. exact Hne.
  - intros E. apply dec_eqb_not_gtb in E. apply Hlost, E.
Qed.

Lemma execute_sell_liquidates_holding_witness :
  let m := aapl_market 9100 "SELL" flat_bar in
  let s := open_ledger (aapl_account 0 10 10000)
                       (demo_bot LOW (cents 0)) in
  live_price m "AAPL" = Some (cents 9100) /\
  exists trade s',
    execute_sell m no_faults s (aapl_holding 10 10000)
      (ReasonText "Stop Loss/Take Profit") = (Some trade, s') /\
    bt_quantity trade = 10 /\
    holdings (account s') = [] /\
    total_value trade = cents 91000 /\
    bt_profit_loss trade = Some (cents (-9000)) /\
    balance (account s') = cents 91000 /\
    losing_trades (bot s') = 1.
Proof.
  cbv zeta. split; [reflexivity|].
  destruct (execute_sell_liquidates_holding
              (aapl_market 9100 "SELL" flat_bar)
              (open_ledger (aapl_account 0 10 10000) (demo_bot LOW (cents 0)))
              (aapl_holding 10 10000) (ReasonText "Stop Loss/Take Profit")
              (cents 9100) eq_refl)
    as (trade & s' & Hrun & _ & Hq & Hh & _ & Hv & _ & Hpl & Hb & _ & _ & _ & _
        & Hlost & _).
  exists trade, s'. split; [exact Hrun|].
  split; [exact Hq|]. split; [exact Hh|]. split; [exact Hv|].
  split; [exact Hpl|]. split; [exact Hb|].
  apply Hlost. reflexivity.
Defined.

(* ================================================================== *)
(** * Engine buy: position sizing *)
(* ================================================================== *)



(** The scenario of the specification: a MEDIUM bot with 10000.00 buying a
    stock at 100.00 may invest 1500.00, which buys 15 shares. *)
Example medium_bot_buys_15_shares :
  let m := aapl_market 10000 "STRONG_BUY" rising_bar in
  let b := demo_bot MEDIUM (cents 1000000) in
  let s := open_ledger (fresh_account 1000000) b in
  dec_mul (current_capital b) (max_position_size (config b))
  = mkDec 15000000 (-4) /\
  position_size b (cents 10000) = Some 15 /\
  exists analysis trade s',
    analyze_stock m b "AAPL" = Some analysis /\
    execute_buy m no_faults s "AAPL" analysis = (Some trade, s') /\
    bt_quantity trade = 15 /\ bt_quantity trade <= 15 /\
    total_value trade = cents 150000.
Proof.
  cbv zeta. split; [reflexivity|]. split; [reflexivity|].
  do 3 eexists.
  split; [vm_compute; reflexivity|].
  split; [vm_compute; reflexivity|].
  repeat split. cbn. lia.
Qed.

(* ================================================================== *)
(** * The trading cycle: properties *)
(* ================================================================== *)

Section Cycle.

Variable m : Market.









End Cycle.




(* ================================================================== *)
(** * Buying into a holding *)
(* ================================================================== *)

Lemma filter_update (t : Ticker) (h' : Holding) (l : list Holding) :
  (forall r, In r l -> pk r = pk h' -> stock r = stock h') ->
  filter (fun r => String.eqb (stock r) t)
    (map (fun r => if Nat.eqb (pk r) (pk h') then h' else r) l)
  = map (fun r => if Nat.eqb (pk r) (pk h') then h' else r)
      (filter (fun r => String.eqb (stock r) t) l).
Proof.
  induction l as [|r l IH]; intros Hsame; [reflexivity|].
  simpl. rewrite IH by (intros r0 H0; apply Hsame; right; exact H0).
  destruct (Nat.eqb (pk r) (pk h')) eqn:E.
  - pose proof (proj1 (Nat.eqb_eq _ _) E) as Epk.
    rewrite <- (Hsame r (or_introl eq_refl) Epk).
    destruct (String.eqb (stock r) t); simpl; [rewrite E|]; reflexivity.
  - destruct (String.eqb (stock r) t); simpl; [rewrite E|]; reflexivity.
Qed.

Lemma map_update_pk (h' : Holding) (l : list Holding) :
  map pk (map (fun r => if Nat.eqb (pk r) (pk h') then h' else r) l)
  = map pk l.
Proof.
  rewrite map_map. apply map_ext. intros r.
  destruct (Nat.eqb_spec (pk r) (pk h')); congruence.
Qed.

Lemma pk_determines_row (l : list Holding) (h r : Holding) :
  NoDup (map pk l) -> In h l -> In r l -> pk r = pk h -> r = h.
Proof.
  induction l as [|x l IH]; intros Hnd Hh Hr Hpk; [contradiction|].
  cbn in Hnd. inversion Hnd as [|? ? Hnotin Hnd']; subst.
  destruct Hh as [Hh|Hh], Hr as [Hr|Hr]; subst.
  - reflexivity.
  - exfalso. apply Hnotin. rewrite <- Hpk. apply in_map. exact Hr.
  - exfalso. apply Hnotin. rewrite Hpk. apply in_map. exact Hh.
  - apply IH; assumption.
Qed.

Lemma NoDup_snoc (l : list nat) (x : nat) :
  NoDup l -> ~ In x l -> NoDup (l ++ [x]).
Proof.
  induction l as [|y l IH]; intros Hnd Hx; cbn.
  - constructor; [intros []|constructor].
  - inversion Hnd as [|? ? Hy Hnd']; subst. constructor.
    + intros Hin. apply in_app_or in Hin. destruct Hin as [Hin|[Hin|[]]].
      * contradiction.
      * apply Hx. left. symmetry. exact Hin.
    + apply IH; [exact Hnd'|]. intros Hin. apply Hx. right. exact Hin.
Qed.

(** A first buy of a ticker gives it its one row. *)
Lemma upserted_new (t : Ticker) (q : Z) (p : Decimal) (a acc : Account) :
  wf_account a -> holdings_of t a = [] ->
  upserted t q p a = Some acc ->
  wf_account acc /\
  exists h,
    holdings_of t acc = [h] /\ quantity h = q /\ buying_price h = p.
Proof.
  intros [Hnd Hlt] Hnone. unfold upserted. rewrite Hnone.
  intros H. inversion H; subst acc; clear H.
  split.
  - unfold wf_account, insert_holding. cbn [holdings next_pk].
    split.
    + rewrite map_app. cbn [map pk]. apply NoDup_snoc; [exact Hnd|].
      intros Hin. apply in_map_iff in Hin. destruct Hin as (r & Hr & Hin).
      rewrite Forall_forall in Hlt. specialize (Hlt r Hin). lia.
    + apply Forall_app. split.
      * eapply Forall_impl; [|exact Hlt]. cbn. intros r Hr. lia.
      * constructor; [cbn; lia|constructor].
  - eexists. unfold holdings_of, insert_holding in *. cbn [holdings].
    rewrite filter_app, Hnone. cbn. rewrite String.eqb_refl.
    split; [reflexivity|]. split; reflexivity.
Qed.

(** A further buy merges into that row by the rule of [merge_average]. *)
Lemma upserted_merge (t : Ticker) (q : Z) (p : Decimal) (a acc : Account)
    (h : Holding) :
  wf_account a -> holdings_of t a = [h] ->
  upserted t q p a = Some acc ->
  wf_account acc /\
  exists avg,
    merge_average h q p = Some avg /\
    holdings_of t acc = [merged_row h q p avg].
Proof.
  intros [Hnd Hlt] Hone. unfold upserted. rewrite Hone.
  destruct (merge_average h q p) as [avg|]; [|discriminate].
  intros H. inversion H; subst acc; clear H.
  assert (Hin : In h (holdings a)).
  { assert (Hf : In h (holdings_of t a)) by (rewrite Hone; left; reflexivity).
    unfold holdings_of in Hf. apply filter_In in Hf. apply Hf. }
  split.
  - unfold wf_account, update_holding, set_holdings. cbn [holdings next_pk].
    split.
    + rewrite map_update_pk. exact Hnd.
    + rewrite Forall_forall in *. intros r Hr. apply in_map_iff in Hr.
      destruct Hr as (r0 & Hr0 & Hin0).
      destruct (Nat.eqb_spec (pk r0) (pk (merged_row h q p avg))) as [E|E].
      * subst r. cbn in E |- *. rewrite <- E. apply Hlt. exact Hin0.
      * subst r. apply Hlt. exact Hin0.
  - exists avg. split; [reflexivity|].
    unfold holdings_of, update_holding, set_holdings in *. cbn [holdings].
    rewrite filter_update.
    + rewrite Hone. cbn. rewrite Nat.eqb_refl. reflexivity.
    + intros r Hr Hpk. cbn in Hpk |- *.
      rewrite (pk_determines_row _ _ _ Hnd Hin Hr Hpk). reflexivity.
Qed.

(** A manual buy that is filled put its quantity, at the live price, into
    the Holding table, and changed no other row of it. *)
Lemma buy_stock_filled (m : Market) (a a' : Account) (r : OrderRequest)
    (t : Ticker) (q : Z) (p cost nb : Decimal) :
  buy_stock m no_faults a r = (Filled t q p cost nb, a') ->
  t = upper (req_stock r) /\ q = req_quantity r /\
  live_price m t = Some p /\
  exists acc,
    upserted t q p a = Some acc /\
    holdings a' = holdings acc /\ next_pk a' = next_pk acc.
Proof.
  unfold buy_stock, respond, buy_stock_body.
  destruct (_ || _)%bool; [cbn; congruence|].
  destruct (live_price m _) as [price|] eqn:Hp; [|cbn; congruence].
  unfold bind at 1. unfold get_store at 1.
  destruct (dec_ltb (balance a) _); [cbn; congruence|].
  unfold bind at 1. rewrite upsert_holding_run by reflexivity.
  destruct (upserted _ _ _ a) as [acc|] eqn:Hu; [|congruence].
  cbn. intros H. inversion H; subst.
  repeat split; try assumption.
  exists acc. repeat split. exact Hu.
Qed.

(** So did an engine buy that made a trade. *)
Lemma execute_buy_filled (m : Market) (s s' : Ledger) (t : Ticker)
    (analysis : Analysis) (trade : BotTrade) :
  execute_buy m no_faults s t analysis = (Some trade, s') ->
  live_price m t = Some (bt_price trade) /\
  exists acc,
    upserted t (bt_quantity trade) (bt_price trade) (account s) = Some acc /\
    holdings (account s') = holdings acc /\
    next_pk (account s') = next_pk acc.
Proof.
  rewrite execute_buy_no_faults. unfold buy_outcome.
  destruct (live_price m t) as [p|]; [|congruence].
  destruct (position_size (bot s) p) as [q|]; [|congruence].
  destruct (_ || _)%bool; [congruence|].
  destruct (upserted t q p (account s)) as [acc|] eqn:Hu; [|congruence].
  intros H. inversion H; subst. cbn.
  split; [reflexivity|]. exists acc. repeat split. exact Hu.
Qed.

Lemma place_buy_upserted (t : Ticker) (m : Market) (o : BuyOrder)
    (s s' : Ledger) (f : Fill) :
  upper t = t ->
  place_buy t m o s = Some (f, s') ->
  live_price m t = Some (snd f) /\
  exists acc,
    upserted t (fst f) (snd f) (account s) = Some acc /\
    holdings (account s') = holdings acc /\
    next_pk (account s') = next_pk acc.
Proof.
  intros Hup. unfold place_buy. destruct o as [q|analysis].
  - destruct (buy_stock _ _ _ _) as [[t' q' p cost nb| |] a'] eqn:Hb;
      try discriminate.
    intros H. inversion H; subst. cbn.
    apply buy_stock_filled in Hb. cbn in Hb. rewrite Hup in Hb.
    destruct Hb as (-> & -> & Hp & acc & Hu & Hh & Hn).
    split; [exact Hp|]. exists acc. repeat split; assumption.
  - destruct (execute_buy _ _ _ _ _) as [[trade|] s1] eqn:He;
      try discriminate.
    intros H. inversion H; subst. cbn.
    apply execute_buy_filled in He. exact He.
Qed.

Lemma wf_account_rows (a a' : Account) :
  holdings a' = holdings a -> next_pk a' = next_pk a ->
  wf_account a -> wf_account a'.
Proof. unfold wf_account. intros -> ->. exact (fun H => H). Qed.

Lemma holdings_of_rows (t : Ticker) (a a' : Account) :
  holdings a' = holdings a -> holdings_of t a' = holdings_of t a.
Proof. unfold holdings_of. intros ->. reflexivity. Qed.

(** Further buys into an existing row: the row stays the only one of its
    ticker, its quantity grows by the fills, and its average price is
    merged fill by fill. *)
Lemma place_buys_merge (t : Ticker) (orders : list (Market * BuyOrder)) :
  upper t = t ->
  forall (s s' : Ledger) (fills : list Fill) (h : Holding),
    wf_account (account s) ->
    holdings_of t (account s) = [h] ->
    place_buys t orders s = Some (fills, s') ->
    wf_account (account s') /\
    List.length fills = List.length orders /\
    exists h',
      holdings_of t (account s') = [h'] /\
      quantity h' = quantity h + total_quantity fills /\
      merge_fills (quantity h, buying_price h) fills
      = Some (quantity h', buying_price h').
Proof.
  intros Hup. induction orders as [|[m o] rest IH];
    intros s s' fills h Hwf Hone Hrun; cbn in Hrun.
  - inversion Hrun; subst. split; [exact Hwf|]. split; [reflexivity|].
    exists h. cbn. split; [exact Hone|]. split; [lia|reflexivity].
  - destruct (place_buy t m o s) as [[f s1]|] eqn:Hstep; [|discriminate].
    destruct (place_buys t rest s1) as [[fs s2]|] eqn:Hrest; [|discriminate].
    inversion Hrun; subst; clear Hrun.
    destruct (place_buy_upserted _ _ _ _ _ _ Hup Hstep)
      as (_ & acc & Hu & Hh & Hn).
    destruct (upserted_merge _ _ _ _ _ _ Hwf Hone Hu)
      as (Hwf1 & avg & Havg & Hone1).
    apply (wf_account_rows _ _ Hh Hn) in Hwf1.
    rewrite <- (holdings_of_rows t _ _ Hh) in Hone1.
    destruct (IH _ _ _ _ Hwf1 Hone1 Hrest)
      as (Hwf2 & Hlen & h2 & Hone2 & Hq2 & Hm2).
    split; [exact Hwf2|]. split; [cbn; rewrite Hlen; reflexivity|].
    exists h2. split; [exact Hone2|]. split.
    + rewrite Hq2. unfold total_quantity. cbn [fold_right merged_row quantity].
      lia.
    + cbn [merge_fills]. unfold merge_fill. cbn [fst snd].
      unfold merge_average in Havg. rewrite Havg. exact Hm2.
Qed.

Lemma merge_fills_exact (fs : list Fill) :
  forall pos pos',
    merges_exact pos fs -> merge_fills pos fs = Some pos' ->
    (dec_value (snd pos') * inject_Z (fst pos')
     == dec_value (snd pos) * inject_Z (fst pos) + fills_cost fs)%Q.
Proof.
  induction fs as [|f rest IH]; intros pos pos' Hex Hm;
    cbn [merge_fills merges_exact] in Hex, Hm;
    unfold fills_cost; cbn [fold_right].
  - inversion Hm; subst. ring.
  - fold (fills_cost rest).
    destruct (merge_fill pos f) as [pos1|]; [|contradiction].
    destruct Hex as [Hstep Hrest].
    rewrite (IH _ _ Hrest Hm). unfold exact_merge in Hstep.
    rewrite Hstep. ring.
Qed.

Lemma Qeq_of_product (a c : Q) (n : Z) :
  n <> 0 -> (a * inject_Z n == c)%Q -> (a == c / inject_Z n)%Q.
Proof.
  intros Hn H. rewrite <- H. field.
  intros E. apply Hn. unfold Qeq in E. cbn in E. lia.
Qed.

(** C6, as the code has it.  Buys of one ticker for one account, by hand
    or by the engine in any order, starting without a holding of it: when
    all of them are executed the account has exactly one Holding row for
    the ticker, its quantity is the sum of the fill quantities, and its
    average price is the first fill price merged with each later fill by
    [(old_avg*old_qty + fill_price*fill_qty) / (old_qty+fill_qty)] in
    decimal arithmetic, whose results are rounded to 28 digits.  That
    average is the quantity-weighted mean of the fill prices when no merge
    had to round. *)
Theorem buys_merge_into_one_holding
    (t : Ticker) (orders : list (Market * BuyOrder)) (s s' : Ledger)
    (fills : list Fill) :
  upper t = t ->
  wf_account (account s) ->
  holdings_of t (account s) = [] ->
  orders <> [] ->
  place_buys t orders s = Some (fills, s') ->
  List.length fills = List.length orders /\
  exists h,
    holdings_of t (account s') = [h] /\
    quantity h = total_quantity fills /\
    position_of fills = Some (quantity h, buying_price h) /\
    (all_merges_exact fills -> total_quantity fills <> 0 ->
     (dec_value (buying_price h) == weighted_mean fills)%Q).
Proof.
  intros Hup Hwf Hnone Hne Hrun.
  destruct orders as [|[m o] rest]; [congruence|]. cbn in Hrun.
  destruct (place_buy t m o s) as [[f s1]|] eqn:Hstep; [|discriminate].
  destruct (place_buys t rest s1) as [[fs s2]|] eqn:Hrest; [|discriminate].
  inversion Hrun; subst; clear Hrun.
  destruct (place_buy_upserted _ _ _ _ _ _ Hup Hstep)
    as (_ & acc & Hu & Hh & Hn).
  destruct (upserted_new _ _ _ _ _ Hwf Hnone Hu)
    as (Hwf1 & h1 & Hone1 & Hq1 & Hp1).
  apply (wf_account_rows _ _ Hh Hn) in Hwf1.
  rewrite <- (holdings_of_rows t _ _ Hh) in Hone1.
  destruct (place_buys_merge t rest Hup _ _ _ _ Hwf1 Hone1 Hrest)
    as (_ & Hlen & h2 & Hone2 & Hq2 & Hm2).
  split; [cbn; rewrite Hlen; reflexivity|].
  rewrite Hq1, Hp1 in Hm2.
  assert (Hqty : quantity h2 = total_quantity (f :: fs)).
  { rewrite Hq2, Hq1. reflexivity. }
  exists h2. split; [exact Hone2|]. split; [exact Hqty|].
  destruct f as [q p]. split; [exact Hm2|].
  intros Hex Hnz. cbn [all_merges_exact] in Hex.
  pose proof (merge_fills_exact fs _ _ Hex Hm2) as Hval. cbn [fst snd] in Hval.
  unfold weighted_mean. apply Qeq_of_product; [exact Hnz|].
  rewrite <- Hqty. rewrite Hval. reflexivity.
Qed.

(** The scenario of the specification: with 100000.00, 10 shares at
    500.00 and then 10 more at 600.00 make one holding of 20 shares at an
    average of 550.00. *)
Lemma buys_merge_into_one_holding_witness :
  let orders := [(aapl_market 50000 "BUY" flat_bar, ManualBuy 10);
                 (aapl_market 60000 "BUY" flat_bar, ManualBuy 10)] in
  let s := open_ledger (fresh_account 10000000)
                       (demo_bot MEDIUM (cents 1000000)) in
  exists fills s',
    place_buys "AAPL" orders s = Some (fills, s') /\
    fills = [(10, cents 50000); (10, cents 60000)] /\
    balance (account s') = cents 8900000 /\
    exists h,
      holdings_of "AAPL" (account s') = [h] /\
      quantity h = 20 /\
      position_of fills = Some (20, cents 55000) /\
      buying_price h = cents 55000.
Proof.
  cbv zeta.
  eassert (Hrun : place_buys "AAPL"
              [(aapl_market 50000 "BUY" flat_bar, ManualBuy 10);
               (aapl_market 60000 "BUY" flat_bar, ManualBuy 10)]
              (open_ledger (fresh_account 10000000)
                           (demo_bot MEDIUM (cents 1000000)))
            = Some (_, _)) by (vm_compute; reflexivity).
  assert (Hwf : wf_account (account
            (open_ledger (fresh_account 10000000)
                         (demo_bot MEDIUM (cents 1000000))))).
  { split; cbn; constructor. }
  assert (Hne : [(aapl_market 50000 "BUY" flat_bar, ManualBuy 10);
                 (aapl_market 60000 "BUY" flat_bar, ManualBuy 10)] <> [])
    by discriminate.
  destruct (buys_merge_into_one_holding "AAPL" _ _ _ _
              eq_refl Hwf eq_refl Hne Hrun)
    as (_ & h & Hone & Hq & Hpos & _).
  do 2 eexists. split; [exact Hrun|].
  split; [reflexivity|]. split; [reflexivity|].
  exists h. split; [exact Hone|].
  vm_compute in Hpos. inversion Hpos as [[Hq' Hp']].
  split; [exact Hq|]. split; [vm_compute; reflexivity|].
  symmetry. exact Hp'.
Defined.

(** In that scenario no merge rounds, and 550.00 is the weighted mean. *)
Example exact_merges_give_the_weighted_mean :
  let fills := [(10, cents 50000); (10, cents 60000)] in
  all_merges_exact fills /\
  position_of fills = Some (20, cents 55000) /\
  (dec_value (cents 55000) == weighted_mean fills)%Q.
Proof.
  cbv zeta. split; [|split].
  - cbn [all_merges_exact merges_exact].
    change (merge_fill (10, cents 50000) (10, cents 60000))
      with (Some (20, cents 55000)).
    split; [reflexivity|exact I].
  - reflexivity.
  - reflexivity.
Qed.

(** C6, as the claim has it, fails on the average: one share at 10.00 and
    then two at 10.01 cost 30.02, a third of which no decimal number is;
    the holding's average is that quotient rounded to 28 digits, and it is
    not the weighted mean of the fill prices. *)
Lemma average_is_a_rounded_quotient :
  let orders := [(aapl_market 1000 "BUY" flat_bar, ManualBuy 1);
                 (aapl_market 1001 "BUY" flat_bar, ManualBuy 2)] in
  let s := open_ledger (fresh_account 10000000)
                       (demo_bot MEDIUM (cents 1000000)) in
  exists fills s' h,
    place_buys "AAPL" orders s = Some (fills, s') /\
    holdings_of "AAPL" (account s') = [h] /\
    quantity h = 3 /\
    buying_price h = mkDec 1000666666666666666666666667 (-26) /\
    (weighted_mean fills == 3002 # 300)%Q /\
    ~ (dec_value (buying_price h) == weighted_mean fills)%Q.
Proof.
  cbv zeta. do 3 eexists.
  split; [vm_compute; reflexivity|].
  split; [vm_compute; reflexivity|].
  split; [reflexivity|]. split; [reflexivity|].
  split; [vm_compute; reflexivity|].
  vm_compute. discriminate.
Qed.

(* ================================================================== *)
(** * Rounding to decimals *)
(* ================================================================== *)

Lemma Qltb_ge (x y : Q) : Qltb x y = false <-> (y <= x)%Q.
Proof.
  split; intros H.
  - apply Qnot_lt_le. intros L. apply Qltb_lt in L. congruence.
  - destruct (Qltb x y) eqn:E; [|reflexivity].
    apply Qltb_lt in E. lra.
Qed.

Lemma Qleb_le (x y : Q) : Qleb x y = true <-> (x <= y)%Q.
Proof. unfold Qleb. rewrite negb_true_iff. apply Qltb_ge. Qed.

Lemma Qgeb_le (x y : Q) : Qgeb x y = true <-> (y <= x)%Q.
Proof. unfold Qgeb. rewrite negb_true_iff. apply Qltb_ge. Qed.

Lemma py_round_nearest (x : Q) (n : nat) :
  py_round x n
  = (inject_Z (nearest_even (x * inject_Z (10 ^ Z.of_nat n)))
     / inject_Z (10 ^ Z.of_nat n))%Q.
Proof.
  unfold py_round, nearest_even. cbv zeta.
  destruct (_ ?= _)%Q; try reflexivity.
Qed.

Lemma nearest_even_mono (x y : Q) :
  (x <= y)%Q -> nearest_even x <= nearest_even y.
Proof.
  intros Hxy. unfold nearest_even.
  pose proof (Qfloor_le x) as Fx. pose proof (Qlt_floor x) as Gx.
  pose proof (Qfloor_le y) as Fy. pose proof (Qlt_floor y) as Gy.
  assert (Hf : Qfloor x <= Qfloor y) by (apply Qfloor_resp_le; exact Hxy).
  destruct (Z.eq_dec (Qfloor x) (Qfloor y)) as [E|NE].
  - rewrite E in *.
    destruct (x - inject_Z (Qfloor y) ?= 1 # 2)%Q eqn:Cx;
    destruct (y - inject_Z (Qfloor y) ?= 1 # 2)%Q eqn:Cy;
      try rewrite <- Qeq_alt in *; try rewrite <- Qlt_alt in *;
      try rewrite <- Qgt_alt in *; try lia;
      try (destruct (Z.odd (Qfloor y)); lia); exfalso; lra.
  - assert (Qfloor x + 1 <= Qfloor y) by lia.
    destruct (x - inject_Z (Qfloor x) ?= 1 # 2)%Q;
    destruct (y - inject_Z (Qfloor y) ?= 1 # 2)%Q;
      try (destruct (Z.odd (Qfloor x))); try (destruct (Z.odd (Qfloor y)));
      lia.
Qed.

Lemma scale_pos (n : nat) : (0 < inject_Z (10 ^ Z.of_nat n))%Q.
Proof.
  change 0%Q with (inject_Z 0). rewrite <- Zlt_Qlt.
  apply Z.pow_pos_nonneg; lia.
Qed.


Lemma nearest_even_int (k : Z) : nearest_even (inject_Z k) = k.
Proof.
  unfold nearest_even. rewrite Qfloor_Z.
  assert (E : (inject_Z k - inject_Z k ?= 1 # 2)%Q = Lt).
  { rewrite <- Qlt_alt. lra. }
  rewrite E. reflexivity.
Qed.

Lemma nearest_even_comp (x y : Q) : (x == y)%Q -> nearest_even x = nearest_even y.
Proof.
  intros E. apply Z.le_antisymm; apply nearest_even_mono; lra.
Qed.

(** A number of at most [n] decimals is its own rounding. *)
Lemma py_round_fixed (k : Z) (n : nat) :
  (py_round (inject_Z k / inject_Z (10 ^ Z.of_nat n)) n
   == inject_Z k / inject_Z (10 ^ Z.of_nat n))%Q.
Proof.
  rewrite py_round_nearest. pose proof (scale_pos n) as Hs.
  rewrite (nearest_even_comp _ (inject_Z k)).
  - rewrite nearest_even_int. reflexivity.
  - field. lra.
Qed.




Lemma Qzerob_false (x : Q) : ~ (x == 0)%Q -> Qzerob x = false.
Proof.
  intros H. unfold Qzerob. destruct (Qeq_bool x 0) eqn:E; [|reflexivity].
  apply Qeq_bool_eq in E. contradiction.
Qed.

Lemma String_eqb_empty (t : string) : t <> "" -> String.eqb t "" = false.
Proof. intros H. apply String.eqb_neq. exact H. Qed.

Lemma NoDup_snoc_gen {A : Type} (l : list A) (x : A) :
  NoDup l -> ~ In x l -> NoDup (l ++ [x]).
Proof.
  induction l as [|y l IH]; intros Hnd Hx; cbn.
  - constructor; [intros []|constructor].
  - inversion Hnd as [|? ? Hy Hnd']; subst. constructor.
    + intros Hin. apply in_app_or in Hin. destruct Hin as [Hin|[Hin|[]]].
      * contradiction.
      * apply Hx. left. symmetry. exact Hin.
    + apply IH; [exact Hnd'|]. intros Hin. apply Hx. right. exact Hin.
Qed.

(* ================================================================== *)
(** * PivotStrategy: levels and signals *)
(* ================================================================== *)










(** X5.  Whatever the levels and the price, [generate_signal] names one
    of the six signals of the engine's score table, so the table's
    default of 0 is never the pivot score; the score is positive exactly
    when the price is above R2, above R1, or above the pivot point and
    not below S1. *)
Theorem pivot_signal_always_scores (pp : Pivot.PivotPoints) (price : Q) :
  let sg := fst (Pivot.generate_signal pp price) in
  In sg ["STRONG_BUY"; "BUY"; "HOLD_BULLISH"; "HOLD_BEARISH"; "SELL";
         "STRONG_SELL"] /\
  In (_signal_to_score sg) [90; 70; 50; -50; -70; -90] /\
  _signal_to_score sg <> 0 /\
  (0 < _signal_to_score sg <->
   (Pivot.resistance_2 pp < price)%Q \/
   (Pivot.resistance_1 pp < price)%Q \/
   ((Pivot.support_1 pp <= price)%Q /\ (Pivot.pivot_point pp < price)%Q)).
Proof.
  cbv zeta. unfold Pivot.generate_signal.
  destruct (Qgtb price (Pivot.resistance_2 pp)) eqn:G2;
    [|destruct (Qgtb price (Pivot.resistance_1 pp)) eqn:G1;
      [|destruct (Qgeb price (Pivot.support_1 pp)) eqn:G0;
        [destruct (Qgtb price (Pivot.pivot_point pp)) eqn:Gp
        |destruct (Qgtb price (Pivot.support_2 pp)) eqn:Gs]]];
    cbn [fst _signal_to_score String.eqb Ascii.eqb Bool.eqb];
    try (apply Qgtb_lt in G2); try (apply Qltb_ge in G2);
    try (apply Qgtb_lt in G1); try (apply Qltb_ge in G1);
    try (apply Qgtb_lt in Gp); try (apply Qltb_ge in Gp);
    try (apply Qgeb_le in G0);
    try (unfold Qgeb in G0; apply negb_false_iff, Qltb_lt in G0);
    (split; [cbn; tauto|]); (split; [cbn; tauto|]);
    (split; [discriminate|]);
    (split; [intros H; try lia; tauto|
             intros [H|[H|[H H']]]; try lia; exfalso; lra]).
Qed.

(* ================================================================== *)
(** * NextDayPredictor: direction and confidence *)
(* ================================================================== *)






(** The prediction that the engine reads off the live call is the one of
    the full call. *)
Lemma predict_of_full_call (feed : Ticker -> option OHLCV) (t : Ticker) :
  t <> "" ->
  predict (feed t)
  = match NextDay.predict feed (Some t) None None None None None with
    | inr r => Some {| prediction := NextDay.prediction r;
                       pred_confidence := NextDay.confidence r |}
    | inl _ => None
    end.
Proof.
  intros Ht. unfold NextDay.predict, predict.
  cbn [truthy_str is_None]. rewrite (String_eqb_empty t Ht).
  cbn [negb andb].
  destruct (feed t) as [[o h l c v]|]; [|reflexivity].
  cbn [truthy_num truthy_int num open_price high low close volume].
  destruct (Qzerob o); [reflexivity|].
  destruct (Qzerob h); [reflexivity|].
  destruct (Qzerob l); [reflexivity|].
  destruct (Qzerob c); [reflexivity|].
  destruct (v =? 0); [reflexivity|].
  cbn [negb andb orb]. cbv zeta.
  set (pc := ((c - o) / o * 100)%Q).
  set (hl := ((h - l) / c * 100)%Q).
  destruct (Qgtb pc 2); destruct (Qgtb pc 0); destruct (Qltb pc (-2));
    destruct (Qltb pc 0); destruct (Qgtb hl 5); reflexivity.
Qed.

(* ================================================================== *)
(** * What makes the engine buy *)
(* ================================================================== *)






Lemma same_settings_refl (b : AutoTradingBot) : same_settings b b.
Proof. repeat split. Qed.

Lemma same_settings_trans (b1 b2 b3 : AutoTradingBot) :
  same_settings b1 b2 -> same_settings b2 b3 -> same_settings b1 b3.
Proof. unfold same_settings. intuition congruence. Qed.

Lemma check_holding_settings (m : Market) (s : Ledger) (h : Holding) :
  same_settings (bot s) (bot (check_holding m s h)).
Proof.
  unfold check_holding.
  destruct (live_price m (stock h)) as [p|] eqn:Hp; [|apply same_settings_refl].
  assert (Hsell : forall reason,
    same_settings (bot s) (bot (snd (execute_sell m no_faults
       (on_account (update_holding (set_current_price p h)) s)
       (set_current_price p h) reason)))).
  { intros reason. rewrite execute_sell_no_faults. unfold sell_outcome.
    cbn [stock set_current_price]. rewrite Hp. repeat split. }
  destruct (Qleb _ _); [apply Hsell|].
  destruct (Qgeb _ _); [apply Hsell|apply same_settings_refl].
Qed.

Lemma reconciliation_settings (m : Market) (s : Ledger) :
  same_settings (bot s) (bot (check_stop_loss_take_profit m s)).
Proof.
  unfold check_stop_loss_take_profit.
  generalize (holdings (account s)) as hs. intros hs. revert s.
  induction hs as [|h rest IH]; intros s; simpl; [apply same_settings_refl|].
  eapply same_settings_trans; [apply check_holding_settings|apply IH].
Qed.





(** An analysis that says BUY passes the confidence test of the scan. *)
Lemma buy_is_confident (m : Market) (b : AutoTradingBot) (t : Ticker)
    (a : Analysis) :
  analyze_stock m b t = Some a -> action a = BUY ->
  Qgeb (confidence a) (inject_Z (min_confidence (config b))) = true.
Proof.
  unfold analyze_stock, combined_signal.
  destruct (_ ++ _) as [|x l]; [discriminate|].
  intros H. inversion H. subst a. clear H. cbn [action confidence].
  destruct (Qgtb _ _) eqn:G; [|discriminate]. intros _.
  apply Qgtb_lt in G. apply Qgeb_le.
  eapply Qle_trans; [apply Qlt_le_weak; exact G|apply Qle_Qabs].
Qed.

(** X9.  The scan tests [action == 'BUY'] and then the confidence
    against [min_confidence]; the second test never fails when the first
    holds, the confidence being the magnitude of a mean that is above the
    threshold.  So the scan hands a ticker to [execute_buy] exactly when
    its analysis says BUY. *)
Theorem scan_buys_on_action_alone (m : Market) (res : CycleStats)
    (s : Ledger) (t : Ticker) (a : Analysis) :
  analyze_stock m (bot s) t = Some a ->
  is_buy (action a)
  && Qgeb (confidence a) (inject_Z (min_confidence (config (bot s))))
  = is_buy (action a) /\
  (action a = BUY ->
   snd (scan_ticker m (res, s) t) = snd (execute_buy m no_faults s t a)) /\
  (action a <> BUY -> snd (scan_ticker m (res, s) t) = s).
Proof.
  intros Ha.
  assert (E : is_buy (action a)
    && Qgeb (confidence a) (inject_Z (min_confidence (config (bot s))))
    = is_buy (action a)).
  { destruct (action a) eqn:Act; try reflexivity.
    cbn. apply (buy_is_confident m (bot s) t a Ha Act). }
  split; [exact E|]. unfold scan_ticker. rewrite Ha, E.
  split; intros Hb.
  - rewrite Hb. cbn [is_buy].
    destruct (execute_buy m no_faults s t a) as [[tr|] s']; reflexivity.
  - destruct (action a); try contradiction; reflexivity.
Qed.

Lemma scan_buys_on_action_alone_witness :
  let m := aapl_market 10000 "STRONG_BUY" rising_bar in
  let s := open_ledger (fresh_account 1000000)
                       (demo_bot MEDIUM (cents 1000000)) in
  exists a,
    analyze_stock m (bot s) "AAPL" = Some a /\ action a = BUY /\
    snd (scan_ticker m
           ({| analyzed := 0; bought := 0; sold := 0; cycle_signals := [] |},
            s) "AAPL")
    = snd (execute_buy m no_faults s "AAPL" a).
Proof.
  cbv zeta. eexists.
  eassert (Ha : analyze_stock (aapl_market 10000 "STRONG_BUY" rising_bar)
                  (bot (open_ledger (fresh_account 1000000)
                          (demo_bot MEDIUM (cents 1000000)))) "AAPL"
                = Some _) by (vm_compute; reflexivity).
  split; [exact Ha|].
  destruct (scan_buys_on_action_alone _
              {| analyzed := 0; bought := 0; sold := 0; cycle_signals := [] |}
              _ _ _ Ha) as (_ & Hbuy & _).
  split; [reflexivity|]. apply Hbuy. reflexivity.
Defined.

(* ================================================================== *)
(** * StockScreener: the recommendation *)
(* ================================================================== *)

Lemma screener_result (feed : Ticker -> option Screener.LiveData)
    (ticker : option string) (market_cap : option Q) (volume : option Z)
    (sector : string) (r : Screener.Result) :
  Screener.screen_for_index_addition feed ticker market_cap volume sector
  = inr r ->
  let cap := Screener.res_market_cap r in
  let vol := Screener.daily_volume r in
  let bonus :=
    if existsb (String.eqb (Screener.res_sector r))
         Screener.high_growth_sectors then 10 else 0 in
  ~ (cap == 0)%Q /\ vol <> 0 /\
  Screener.score r
  = (if Qgeb cap 14500000000 then 40
     else if Qgeb cap 8000000000 then 25 else 0)
    + (if 1000000 <=? vol then 30 else if 500000 <=? vol then 15 else 0)
    + bonus /\
  Screener.recommendation r
  = (if 70 <=? Screener.score r then "STRONG_CANDIDATE"
     else if 50 <=? Screener.score r then "POTENTIAL_CANDIDATE"
     else "UNLIKELY").
Proof.
  unfold Screener.screen_for_index_addition.
  set (fetched := match ticker with Some _ => _ | None => _ end).
  destruct fetched as [e|[[[[cap|] [vol|]] sec] name]]; try discriminate.
  destruct (Qzerob cap) eqn:Zc; [discriminate|].
  destruct (vol =? 0) eqn:Zv; [discriminate|]. cbn [orb].
  apply Z.eqb_neq in Zv.
  assert (Hc : ~ (cap == 0)%Q).
  { intros E. unfold Qzerob in Zc. apply Qeq_bool_neq in Zc. contradiction. }
  destruct (Qgeb cap 14500000000) eqn:C1;
  [|destruct (Qgeb cap 8000000000) eqn:C2];
  (destruct (1000000 <=? vol) eqn:V1;
   [|destruct (500000 <=? vol) eqn:V2]);
  destruct (existsb (String.eqb sec) Screener.high_growth_sectors) eqn:S;
  intros H; cbv beta iota zeta in H; inversion H; subst r; clear H;
  cbn [Screener.score Screener.recommendation Screener.res_market_cap
       Screener.daily_volume Screener.res_sector];
  rewrite ?C1, ?C2, ?V1, ?V2, ?S;
  (split; [exact Hc|]; split; [exact Zv|]; split; reflexivity).
Qed.

(** X10.  A screening that gives a result scores between 0 and 80.  The
    stock is a STRONG_CANDIDATE exactly when its market cap is at least
    14.5 billion and its volume at least a million, whatever its sector;
    under 8 billion of market cap it is UNLIKELY whatever else; and with
    a volume under half a million it is at best a POTENTIAL_CANDIDATE,
    which takes a market cap of 14.5 billion and a high-growth sector. *)
Theorem screener_strong_candidate
    (feed : Ticker -> option Screener.LiveData)
    (ticker : option string) (market_cap : option Q) (volume : option Z)
    (sector : string) (r : Screener.Result) :
  Screener.screen_for_index_addition feed ticker market_cap volume sector
  = inr r ->
  0 <= Screener.score r <= 80 /\
  (Screener.recommendation r = "STRONG_CANDIDATE" <->
   (14500000000 <= Screener.res_market_cap r)%Q /\
   1000000 <= Screener.daily_volume r) /\
  ((Screener.res_market_cap r < 8000000000)%Q ->
   Screener.recommendation r = "UNLIKELY") /\
  (Screener.daily_volume r < 500000 ->
   Screener.recommendation r <> "STRONG_CANDIDATE" /\
   (Screener.recommendation r = "POTENTIAL_CANDIDATE" <->
    (14500000000 <= Screener.res_market_cap r)%Q /\
    existsb (String.eqb (Screener.res_sector r))
      Screener.high_growth_sectors = true)).
Proof.
  intros H. destruct (screener_result _ _ _ _ _ _ H) as (_ & _ & Hs & Hr).
  cbv zeta in Hs. rewrite Hr, Hs. clear Hr Hs H.
  set (cap := Screener.res_market_cap r).
  set (vol := Screener.daily_volume r).
  assert (Hcap : (8000000000 <= 14500000000)%Q) by discriminate.
  destruct (Qgeb cap 14500000000) eqn:C1;
    [apply Qgeb_le in C1
    |unfold Qgeb in C1; apply negb_false_iff, Qltb_lt in C1;
     destruct (Qgeb cap 8000000000) eqn:C2;
     [apply Qgeb_le in C2
     |unfold Qgeb in C2; apply negb_false_iff, Qltb_lt in C2]];
    (destruct (Z.leb_spec 1000000 vol) as [V1|V1];
     [|destruct (Z.leb_spec 500000 vol) as [V2|V2]]);
    destruct (existsb _ _) eqn:S; cbn;
    (split; [lia|]);
    (split; [split; [intros E; try discriminate E; split; assumption
                    |intros [E1 E2]; first [reflexivity|lia|exfalso; lra]]|]);
    (split; [intros E; first [reflexivity|exfalso; lra]|]);
    intros E; try lia;
    (split; [discriminate|]);
    (split; [intros E'; try discriminate E'; (split; [assumption|reflexivity])
            |intros [E1 E2]; first [reflexivity|discriminate|exfalso; lra]]).
Qed.

Lemma screener_strong_candidate_witness :
  exists r,
    Screener.screen_for_index_addition (fun _ => None) None
      (Some 20000000000%Q) (Some 2000000) "Energy" = inr r /\
    Screener.score r = 70 /\
    Screener.recommendation r = "STRONG_CANDIDATE".
Proof.
  eexists. split; [reflexivity|]. split; [reflexivity|].
  eapply (screener_strong_candidate (fun _ => None) None
            (Some 20000000000%Q) (Some 2000000) "Energy" _ eq_refl).
  cbn. split; [discriminate|lia].
Defined.

(* ================================================================== *)
(** * Strategy endpoints: whose figures, and what they are called *)
(* ================================================================== *)

Ltac calm :=
  cbn -[Qzerob Qgtb Qltb Qgeb Qleb py_round py_min Qplus Qmult Qminus Qdiv
        Qabs Qopp Z.eqb Z.leb String.eqb existsb Z.add
        Pivot.calculate_pivot_points Pivot.generate_signal].

(** X11.  A request that carries its own figures, none of them zero, is
    answered from these figures, whatever the feed has.  The pivot
    endpoint then calls the data 'User Input', also when the request
    names a ticker; the prediction and the screener endpoints pass the
    ticker on, so that the answer to a request that names one is called
    'Yahoo Finance LIVE' although nothing was fetched. *)
Theorem own_figures_and_their_label :
  (forall feed data h l c,
      pv_high data = Some h -> pv_low data = Some l ->
      pv_close data = Some c ->
      ~ (h == 0)%Q -> ~ (l == 0)%Q -> ~ (c == 0)%Q ->
      exists r,
        pivot_analysis feed data = Ok r /\
        Pivot.pivot_points r = Pivot.calculate_pivot_points h l c /\
        Pivot.data_source r = UserInput) /\
  (forall feed data t o h l c v,
      or_str (pr_stock_symbol data) (pr_ticker data) = Some t -> t <> "" ->
      pr_open_price data = Some o -> pr_high data = Some h ->
      pr_low data = Some l -> pr_close data = Some c ->
      pr_volume data = Some v ->
      ~ (o == 0)%Q -> ~ (h == 0)%Q -> ~ (l == 0)%Q -> ~ (c == 0)%Q ->
      v <> 0 ->
      exists r,
        next_day_prediction feed data = Ok r /\
        NextDay.predict (fun _ => None) None (Some o) (Some h) (Some l)
          (Some c) (Some v)
        = inr {| NextDay.stock_symbol := "UNKNOWN";
                 NextDay.prediction := NextDay.prediction r;
                 NextDay.confidence := NextDay.confidence r;
                 NextDay.price_change_today := NextDay.price_change_today r;
                 NextDay.volatility := NextDay.volatility r;
                 NextDay.current_price := NextDay.current_price r;
                 NextDay.recommendation := NextDay.recommendation r;
                 NextDay.data_source := UserInput |} /\
        NextDay.stock_symbol r = t /\
        NextDay.data_source r = YahooFinanceLive) /\
  (forall feed data t cap v,
      sc_ticker data = Some t -> t <> "" ->
      sc_market_cap data = Some cap -> sc_volume data = Some v ->
      ~ (cap == 0)%Q -> v <> 0 ->
      exists r,
        stock_screener feed data = Ok r /\
        Screener.res_market_cap r = cap /\ Screener.daily_volume r = v /\
        Screener.res_company_name r = t /\
        Screener.data_source r = YahooFinanceLive).
Proof.
  split; [|split].
  - intros feed data h l c Hh Hl Hc Nh Nl Nc.
    unfold pivot_analysis, Pivot.predict. rewrite Hh, Hl, Hc.
    calm. rewrite ?(Qzerob_false _ Nh), ?(Qzerob_false _ Nl),
      ?(Qzerob_false _ Nc). calm. rewrite ?andb_false_r. calm.
    rewrite ?(Qzerob_false _ Nh), ?(Qzerob_false _ Nl),
      ?(Qzerob_false _ Nc). calm.
    destruct (Pivot.generate_signal _ c) as [sg ds].
    eexists. split; [reflexivity|]. split; reflexivity.
  - intros feed data t o h l c v Ht Hne Ho Hh Hl Hc Hv No Nh Nl Nc Nv.
    apply Z.eqb_neq in Nv.
    unfold next_day_prediction, NextDay.predict.
    rewrite Ht, Ho, Hh, Hl, Hc, Hv. calm.
    rewrite ?(String_eqb_empty t Hne), ?(Qzerob_false _ No),
      ?(Qzerob_false _ Nh), ?(Qzerob_false _ Nl), ?(Qzerob_false _ Nc), ?Nv.
    calm.
    rewrite ?(String_eqb_empty t Hne), ?(Qzerob_false _ No),
      ?(Qzerob_false _ Nh), ?(Qzerob_false _ Nl), ?(Qzerob_false _ Nc), ?Nv.
    calm.
    destruct (if Qgeb _ 2 then _ else _) as [pr cf].
    eexists. split; [reflexivity|]. calm.
    unfold or_else. calm. rewrite ?(String_eqb_empty t Hne). calm.
    split; [reflexivity|]. split; reflexivity.
  - intros feed data t cap v Ht Hne Hc Hv Nc Nv.
    apply Z.eqb_neq in Nv.
    unfold stock_screener, Screener.screen_for_index_addition.
    rewrite Ht, Hc, Hv. calm.
    rewrite ?(String_eqb_empty t Hne), ?(Qzerob_false _ Nc), ?Nv. calm.
    rewrite ?(String_eqb_empty t Hne), ?(Qzerob_false _ Nc), ?Nv. calm.
    destruct (Qgeb cap 14500000000); [|destruct (Qgeb cap 8000000000)];
      (destruct (1000000 <=? v); [|destruct (500000 <=? v)]);
      destruct (existsb _ _); calm;
      (eexists; split; [reflexivity|]); calm;
      unfold or_else; calm; rewrite ?(String_eqb_empty t Hne); calm;
      repeat split.
Qed.

(* ================================================================== *)
(** * Prices of several tickers *)
(* ================================================================== *)

Lemma dict_set_keys {V : Type} (k : string) (v : V) (d : Dict V) :
  map fst (dict_set k v d)
  = if existsb (String.eqb k) (map fst d) then map fst d
    else map fst d ++ [k].
Proof.
  induction d as [|[k' v'] rest IH]; [reflexivity|].
  cbn. rewrite (String.eqb_sym k k').
  destruct (String.eqb_spec k' k) as [E|E]; cbn.
  - subst. reflexivity.
  - rewrite IH. destruct (existsb _ _); reflexivity.
Qed.

Lemma existsb_eqb_in (k : string) (l : list string) :
  existsb (String.eqb k) l = true <-> In k l.
Proof.
  rewrite existsb_exists. split.
  - intros (x & Hin & E). apply String.eqb_eq in E. subst. exact Hin.
  - intros Hin. exists k. split; [exact Hin|apply String.eqb_refl].
Qed.

Lemma dict_set_nodup {V : Type} (k : string) (v : V) (d : Dict V) :
  NoDup (map fst d) -> NoDup (map fst (dict_set k v d)).
Proof.
  intros Hnd. rewrite dict_set_keys.
  destruct (existsb (String.eqb k) (map fst d)) eqn:E; [exact Hnd|].
  apply NoDup_snoc_gen; [exact Hnd|].
  intros Hin. apply existsb_eqb_in in Hin. congruence.
Qed.

Lemma dict_set_in {V : Type} (k : string) (v : V) (d : Dict V)
    (k0 : string) (v0 : V) :
  NoDup (map fst d) ->
  In (k0, v0) (dict_set k v d) <->
  (k0 = k /\ v0 = v) \/ (k0 <> k /\ In (k0, v0) d).
Proof.
  induction d as [|[k' v'] rest IH]; intros Hnd; cbn.
  - split.
    + intros [H|[]]. inversion H. auto.
    + intros [[-> ->]|[_ []]]. left. reflexivity.
  - cbn in Hnd. inversion Hnd as [|? ? Hk Hrest]; subst.
    destruct (String.eqb_spec k' k) as [E|E]; cbn.
    + subst k'. split.
      * intros [H|H]; [inversion H; auto|].
        right. split; [|right; exact H].
        intros ->. apply Hk. apply (in_map fst) in H. exact H.
      * intros [[-> ->]|[Hne [H|H]]]; [left; reflexivity| |right; exact H].
        inversion H. congruence.
    + rewrite (IH Hrest). split.
      * intros [H|[H|[Hne H]]]; auto.
        inversion H. subst. right. split; [exact E|left; reflexivity].
      * intros [H|[Hne [H|H]]]; auto.
Qed.

Lemma collected {StockData : Type}
    (get_stock_data : string -> option StockData) (tickers : list string) :
  forall (results : Dict StockData) (seen : list string),
    NoDup (map fst results) ->
    (forall k v, In (k, v) results <->
                 In k seen /\ get_stock_data k = Some v) ->
    NoDup (map fst (fold_left (collect_price get_stock_data) tickers results))
    /\
    (forall k v,
       In (k, v) (fold_left (collect_price get_stock_data) tickers results)
       <-> In k (seen ++ tickers) /\ get_stock_data k = Some v) /\
    (List.length (fold_left (collect_price get_stock_data) tickers results)
     <= List.length results + List.length tickers)%nat.
Proof.
  induction tickers as [|t rest IH]; intros results seen Hnd Hin.
  - cbn. rewrite app_nil_r. split; [exact Hnd|]. split; [exact Hin|lia].
  - cbn [fold_left].
    assert (Hstep :
      NoDup (map fst (collect_price get_stock_data results t)) /\
      (forall k v, In (k, v) (collect_price get_stock_data results t) <->
                   In k (seen ++ [t]) /\ get_stock_data k = Some v) /\
      (List.length (collect_price get_stock_data results t)
       <= S (List.length results))%nat).
    { unfold collect_price. destruct (get_stock_data t) as [data|] eqn:D.
      - split; [apply dict_set_nodup; exact Hnd|]. split.
        + intros k v. rewrite dict_set_in by exact Hnd. rewrite Hin.
          rewrite in_app_iff. cbn. split.
          * intros [[-> ->]|[Hne [Hs Hd]]]; auto.
          * intros [[Hs|[<-|[]]] Hd].
            -- destruct (String.eqb_spec k t) as [->|Hne].
               ++ left. split; [reflexivity|congruence].
               ++ right. auto.
            -- left. split; [reflexivity|congruence].
        + rewrite <- (length_map fst (dict_set t data results)),
            dict_set_keys, <- (length_map fst results).
          destruct (existsb _ _); [lia|]. rewrite length_app. cbn. lia.
      - split; [exact Hnd|]. split; [|lia].
        intros k v. rewrite Hin, in_app_iff. cbn. split.
        + intros [Hs Hd]. auto.
        + intros [[Hs|[<-|[]]] Hd]; [auto|congruence]. }
    destruct Hstep as (H1 & H2 & H3).
    destruct (IH (collect_price get_stock_data results t) (seen ++ [t]) H1 H2)
      as (A & B & C).
    split; [exact A|]. split.
    + intros k v. rewrite B, <- app_assoc. reflexivity.
    + cbn [List.length]. lia.
Qed.

(** X12.  A request for several tickers is turned down only when it
    names none.  Otherwise the answer lists, once each, the tickers of
    the request that have data, under the spelling of the request, with
    their data, and counts them; a ticker without data is left out
    without a word. *)
Theorem multiple_prices_lists_what_has_data {StockData : Type}
    (get_stock_data : string -> option StockData) (now : nat)
    (tickers : list string) :
  (tickers = [] ->
   get_multiple_prices get_stock_data now tickers
   = BadRequest NoTickersProvided) /\
  (tickers <> [] ->
   exists r,
     get_multiple_prices get_stock_data now tickers = Ok r /\
     count r = List.length (stocks_found r) /\
     (count r <= List.length tickers)%nat /\
     NoDup (map fst (stocks_found r)) /\
     forall k v, In (k, v) (stocks_found r) <->
                 In k tickers /\ get_stock_data k = Some v).
Proof.
  split; [intros ->; reflexivity|].
  intros Hne. destruct tickers as [|t rest]; [contradiction|].
  unfold get_multiple_prices. eexists. split; [reflexivity|].
  cbn [count stocks_found].
  destruct (collected get_stock_data (t :: rest) [] []) as (A & B & C).
  { constructor. }
  { intros k v. cbn. tauto. }
  split; [reflexivity|]. split; [exact C|]. split; [exact A|exact B].
Qed.

(** The keys are the spellings of the request: one stock asked for under
    two of them is listed, and counted, twice. *)
Example one_stock_counted_twice :
  get_multiple_prices two_spellings 0%nat ["aapl"; "AAPL"; "aapl"; "XYZ"]
  = Ok {| count := 2;
          stocks_found := [("aapl", "Apple Inc."); ("AAPL", "Apple Inc.")];
          timestamp := 0%nat |}.
Proof. reflexivity. Qed.

(* ================================================================== *)
(** * The books of a cycle *)
(* ================================================================== *)

Lemma execute_sell_books (m : Market) (s : Ledger) (h : Holding)
    (reason : Reason) :
  match execute_sell m no_faults s h reason with
  | (Some tr, s') => one_more_trade s s' tr /\ bt_action tr = SELL
  | (None, s') => s' = s
  end.
Proof.
  rewrite execute_sell_no_faults. unfold sell_outcome.
  destruct (live_price m (stock h)) as [p|]; [|reflexivity].
  split; [|reflexivity]. unfold one_more_trade. cbn.
  split; [reflexivity|]. split; [eexists; split; reflexivity|].
  split; [reflexivity|]. destruct (dec_gtb _ _); lia.
Qed.

Lemma execute_buy_books (m : Market) (s : Ledger) (t : Ticker)
    (analysis : Analysis) :
  match execute_buy m no_faults s t analysis with
  | (Some tr, s') => one_more_trade s s' tr /\ bt_action tr = BUY
  | (None, s') => s' = s
  end.
Proof.
  rewrite execute_buy_no_faults. unfold buy_outcome.
  destruct (live_price m t) as [p|]; [|reflexivity].
  destruct (position_size (bot s) p) as [q|]; [|reflexivity].
  destruct (_ || _)%bool; [reflexivity|].
  destruct (upserted t q p (account s)) as [acc|] eqn:U; [|reflexivity].
  destruct (upserted_frame _ _ _ _ _ U) as (Hb & Ht & _).
  split; [|reflexivity]. unfold one_more_trade. cbn.
  split; [reflexivity|]. split; [eexists; rewrite Ht; split; reflexivity|].
  split; [reflexivity|]. lia.
Qed.

Lemma check_holding_books (m : Market) (s : Ledger) (h : Holding) :
  no_trade s (check_holding m s h) \/
  exists tr, one_more_trade s (check_holding m s h) tr /\ bt_action tr = SELL.
Proof.
  unfold check_holding.
  destruct (live_price m (stock h)) as [p|] eqn:Hp;
    [|left; repeat split].
  set (s1 := on_account (update_holding (set_current_price p h)) s).
  assert (H1 : no_trade s s1) by (repeat split).
  assert (Hsell : forall reason,
    exists tr, one_more_trade s (snd (execute_sell m no_faults s1
                 (set_current_price p h) reason)) tr /\ bt_action tr = SELL).
  { intros reason.
    pose proof (execute_sell_books m s1 (set_current_price p h) reason) as B.
    rewrite execute_sell_no_faults in *. unfold sell_outcome in *.
    cbn [stock set_current_price] in *. rewrite Hp in *.
    eexists. exact B. }
  destruct (Qleb _ _); [right; apply Hsell|].
  destruct (Qgeb _ _); [right; apply Hsell|left; exact H1].
Qed.

Lemma trades_booked_none (s s' : Ledger) :
  no_trade s s' -> trades_booked s s' [].
Proof.
  intros (Ht & Hb & Hx & _). unfold trades_booked.
  rewrite Ht, Hb, Hx, app_nil_r. cbn. repeat split; lia.
Qed.

Lemma trades_booked_one (s s' : Ledger) (tr : BotTrade) :
  one_more_trade s s' tr -> trades_booked s s' [tr].
Proof.
  intros (Ht & (x & Hx & _) & Htot & Hwl). unfold trades_booked.
  rewrite Ht, Hx, Htot, Hwl, length_app. unfold sells_logged. cbn.
  destruct (is_sell (bt_action tr)); cbn; repeat split; lia.
Qed.

Lemma sells_logged_app (l1 l2 : list BotTrade) :
  sells_logged (l1 ++ l2) = (sells_logged l1 + sells_logged l2)%nat.
Proof. unfold sells_logged. rewrite filter_app, length_app. reflexivity. Qed.

Lemma trades_booked_trans (s1 s2 s3 : Ledger) (l1 l2 : list BotTrade) :
  trades_booked s1 s2 l1 -> trades_booked s2 s3 l2 ->
  trades_booked s1 s3 (l1 ++ l2).
Proof.
  intros (A1 & A2 & A3 & A4) (B1 & B2 & B3 & B4). unfold trades_booked.
  rewrite B1, A1, B2, A2, B3, A3, B4, A4, sells_logged_app, length_app,
    <- app_assoc.
  repeat split; lia.
Qed.

Lemma sells_logged_all (l : list BotTrade) :
  Forall (fun tr => bt_action tr = SELL) l -> sells_logged l = List.length l.
Proof.
  unfold sells_logged. induction 1 as [|tr l Hs _ IH]; [reflexivity|].
  cbn. rewrite Hs. cbn. congruence.
Qed.

Lemma sells_logged_none (l : list BotTrade) :
  Forall (fun tr => bt_action tr = BUY) l -> sells_logged l = 0%nat.
Proof.
  unfold sells_logged. induction 1 as [|tr l Hs _ IH]; [reflexivity|].
  cbn. rewrite Hs. cbn. exact IH.
Qed.

Lemma reconciliation_books (m : Market) (hs : list Holding) (s : Ledger) :
  exists sells,
    trades_booked s (fold_left (check_holding m) hs s) sells /\
    Forall (fun tr => bt_action tr = SELL) sells /\
    (List.length sells <= List.length hs)%nat.
Proof.
  revert s. induction hs as [|h rest IH]; intros s; cbn [fold_left].
  - exists []. split; [apply trades_booked_none; repeat split|].
    split; [constructor|reflexivity].
  - destruct (IH (check_holding m s h)) as (sells & Hb & Hall & Hlen).
    destruct (check_holding_books m s h) as [Hn|(tr & Ho & Ha)].
    + exists sells. split.
      * apply (trades_booked_trans s (check_holding m s h) _ [] sells);
          [|exact Hb].
        apply trades_booked_none. exact Hn.
      * split; [exact Hall|]. cbn. lia.
    + exists (tr :: sells). split.
      * apply (trades_booked_trans s (check_holding m s h) _ [tr] sells);
          [|exact Hb].
        apply trades_booked_one. exact Ho.
      * split; [constructor; assumption|]. cbn. lia.
Qed.

Lemma scan_ticker_books (m : Market) (res : CycleStats) (s : Ledger)
    (t : Ticker) :
  let r := scan_ticker m (res, s) t in
  exists n buys,
    (n <= 1)%nat /\ (List.length buys <= n)%nat /\
    trades_booked s (snd r) buys /\
    Forall (fun tr => bt_action tr = BUY) buys /\
    sold (fst r) = sold res /\
    analyzed (fst r) = analyzed res + Z.of_nat n /\
    List.length (cycle_signals (fst r))
    = (List.length (cycle_signals res) + n)%nat /\
    bought (fst r) = bought res + Z.of_nat (List.length buys).
Proof.
  cbv zeta. unfold scan_ticker.
  assert (Hnone : trades_booked s s []).
  { apply trades_booked_none. repeat split. }
  destruct (analyze_stock m (bot s) t) as [a|].
  2:{ exists 0%nat, []. cbn. repeat split; try lia; try assumption;
      try apply Hnone; constructor. }
  destruct (_ && _)%bool.
  2:{ exists 1%nat, []. cbn. rewrite length_app. cbn.
      repeat split; try lia; try apply Hnone; constructor. }
  pose proof (execute_buy_books m s t a) as B.
  destruct (execute_buy m no_faults s t a) as [[tr|] s'].
  - destruct B as [Ho Ha]. exists 1%nat, [tr]. cbn. rewrite length_app. cbn.
    repeat split; try lia; try (apply trades_booked_one; exact Ho).
    constructor; [exact Ha|constructor].
  - subst s'. exists 1%nat, []. cbn. rewrite length_app. cbn.
    repeat split; try lia; try apply Hnone; constructor.
Qed.

Lemma scan_books (m : Market) (ts : list Ticker) :
  forall (res : CycleStats) (s : Ledger),
    let r := fold_left (scan_ticker m) ts (res, s) in
    exists n buys,
      (n <= List.length ts)%nat /\ (List.length buys <= n)%nat /\
      trades_booked s (snd r) buys /\
      Forall (fun tr => bt_action tr = BUY) buys /\
      sold (fst r) = sold res /\
      analyzed (fst r) = analyzed res + Z.of_nat n /\
      List.length (cycle_signals (fst r))
      = (List.length (cycle_signals res) + n)%nat /\
      bought (fst r) = bought res + Z.of_nat (List.length buys).
Proof.
  induction ts as [|t rest IH]; intros res s; cbv zeta; cbn [fold_left].
  - exists 0%nat, []. cbn [fst snd List.length].
    split; [lia|]. split; [lia|].
    split; [apply trades_booked_none; repeat split|].
    split; [constructor|]. repeat split; try lia.
  - destruct (scan_ticker_books m res s t)
      as (n1 & b1 & Hn1 & Hl1 & Hb1 & Ha1 & Hs1 & Han1 & Hc1 & Hbo1).
    destruct (scan_ticker m (res, s) t) as [res1 s1]. cbn [fst snd] in *.
    destruct (IH res1 s1)
      as (n2 & b2 & Hn2 & Hl2 & Hb2 & Ha2 & Hs2 & Han2 & Hc2 & Hbo2).
    exists (n1 + n2)%nat, (b1 ++ b2). rewrite length_app.
    split; [cbn; lia|]. split; [lia|].
    split; [eapply trades_booked_trans; eassumption|].
    split; [apply Forall_app; split; assumption|].
    split; [congruence|]. split; [lia|]. split; [lia|]. lia.
Qed.

(** X13.  The report of a cycle against what the cycle did.  The trade
    log grows by SELL rows and then BUY rows, and the Transaction log by
    as many rows; ['bought'] counts the BUY rows and ['analyzed'] the
    analyses listed under ['signals'], at most one for each ticker of the
    watchlist; ['sold'] is 0 however many holdings the cycle sold. *)
Theorem cycle_report_counts (m : Market) (s : Ledger) :
  status (bot s) = ACTIVE ->
  exists results s' sells buys,
    run_trading_cycle m s = (Completed results, s') /\
    bot_trades s' = bot_trades s ++ sells ++ buys /\
    Forall (fun tr => bt_action tr = SELL) sells /\
    Forall (fun tr => bt_action tr = BUY) buys /\
    sold results = 0 /\
    bought results = Z.of_nat (List.length buys) /\
    analyzed results = Z.of_nat (List.length (cycle_signals results)) /\
    bought results <= analyzed results /\
    analyzed results <= Z.of_nat (List.length (stocks (config (bot s)))) /\
    (List.length sells <= List.length (holdings (account s)))%nat /\
    List.length (transactions (account s'))
    = (List.length (transactions (account s))
       + List.length sells + List.length buys)%nat.
Proof.
  intros Hact.
  unfold run_trading_cycle, bot_is_active. rewrite Hact. cbn [negb].
  destruct (reconciliation_books m (holdings (account s)) s)
    as (sells & Hbs & Hsells & Hlen).
  fold (check_stop_loss_take_profit m s) in Hbs.
  destruct (reconciliation_settings m s) as (Hr & _).
  set (s1 := check_stop_loss_take_profit m s) in *.
  unfold scan_watchlist.
  assert (Hcfg : config (bot s1) = config (bot s)).
  { unfold config. rewrite Hr. reflexivity. }
  rewrite Hcfg.
  destruct (scan_books m (stocks (config (bot s)))
              {| analyzed := 0; bought := 0; sold := 0; cycle_signals := [] |}
              s1)
    as (n & buys & Hn & Hl & Hbb & Hbuys & Hsold & Han & Hsig & Hbo).
  destruct (fold_left _ _ _) as [results s']. cbn [fst snd] in *.
  cbn [analyzed bought sold cycle_signals List.length] in *.
  exists results, s', sells, buys.
  destruct (trades_booked_trans _ _ _ _ _ Hbs Hbb) as (Ht & Hx & _).
  split; [reflexivity|]. split; [rewrite Ht, app_assoc; reflexivity|].
  split; [exact Hsells|]. split; [exact Hbuys|]. split; [exact Hsold|].
  split; [lia|]. split; [lia|]. split; [lia|]. split; [lia|].
  split; [exact Hlen|]. rewrite Hx, length_app. lia.
Qed.

Lemma cycle_report_counts_witness :
  let m := aapl_market 12000 "STRONG_BUY" rally_bar in
  let s := open_ledger (aapl_account 0 10 10000)
                       (demo_bot LOW (cents 1000000)) in
  exists results s' sells buys,
    run_trading_cycle m s = (Completed results, s') /\
    bot_trades s' = bot_trades s ++ sells ++ buys /\
    sold results = 0 /\
    bought results = Z.of_nat (List.length buys).
Proof.
  cbv zeta.
  destruct (cycle_report_counts
              (aapl_market 12000 "STRONG_BUY" rally_bar)
              (open_ledger (aapl_account 0 10 10000)
                           (demo_bot LOW (cents 1000000))) eq_refl)
    as (results & s' & sells & buys & Hrun & Hlog & _ & _ & Hsold & Hb & _).
  exists results, s', sells, buys. repeat split; assumption.
Defined.

(** In the cycle of that scenario the ten shares are sold and nine are
    bought: one SELL row, and a report that says 0 sold. *)
Example sold_is_not_counted :
  let m := aapl_market 12000 "STRONG_BUY" rally_bar in
  let s := open_ledger (aapl_account 0 10 10000)
                       (demo_bot LOW (cents 1000000)) in
  exists results s',
    run_trading_cycle m s = (Completed results, s') /\
    map bt_action (bot_trades s') = [SELL; BUY] /\
    sold results = 0 /\ bought results = 1 /\ analyzed results = 1.
Proof.
  cbv zeta. do 2 eexists.
  split; [vm_compute; reflexivity|].
  split; [vm_compute; reflexivity|].
  split; [vm_compute; reflexivity|].
  split; vm_compute; reflexivity.
Qed.

Lemma tally_booked (s s' : Ledger) (trs : list BotTrade) :
  tally s -> trades_booked s s' trs -> tally s'.
Proof.
  intros (T1 & T2) (B1 & _ & B3 & B4). unfold tally.
  rewrite B1, B3, B4, T1, T2, sells_logged_app, length_app. lia.
Qed.

(** X14.  The counters of a bot and its trade log agree from the
    creation of the bot on, through every cycle and every lifecycle call,
    as long as the store accepts the writes: [total_trades] is the number
    of BotTrade rows, and the winning and the losing trades together are
    the SELL rows. *)
Theorem counters_match_trade_log :
  (forall r user b ret user',
      create_bot r user = (BotCreated b ret, user') ->
      tally (open_ledger user' b)) /\
  (forall m s, tally s -> tally (snd (run_trading_cycle m s))) /\
  (forall s, tally s ->
      tally (start_bot s) /\ tally (pause_bot s) /\ tally (snd (stop_bot s))).
Proof.
  split; [|split].
  - intros r user b ret user'. unfold create_bot.
    destruct (dec_gtb _ _); [discriminate|].
    intros H. inversion H. subst. split; reflexivity.
  - intros m s T. unfold run_trading_cycle.
    destruct (negb _); [exact T|].
    destruct (reconciliation_books m (holdings (account s)) s)
      as (sells & Hbs & _).
    fold (check_stop_loss_take_profit m s) in Hbs.
    set (s1 := check_stop_loss_take_profit m s) in *.
    unfold scan_watchlist.
    destruct (scan_books m (stocks (config (bot s1)))
              {| analyzed := 0; bought := 0; sold := 0; cycle_signals := [] |}
              s1) as (n & buys & _ & _ & Hbb & _).
    destruct (fold_left _ _ _) as [results s']. cbn [fst snd] in *.
    eapply tally_booked; [|exact Hbb].
    eapply tally_booked; [exact T|exact Hbs].
  - intros s T. repeat split; apply T.
Qed.

(* ================================================================== *)
(** * Amounts in whole cents *)
(* ================================================================== *)

Lemma in_cents_spec (d : Decimal) (x : Z) :
  in_cents d = Some x <-> -2 <= expo d /\ x = coeff d * 10 ^ (expo d + 2).
Proof.
  unfold in_cents. destruct (Z.leb_spec (-2) (expo d)) as [L|L].
  - split; [intros H; inversion H; auto|intros [_ ->]; reflexivity].
  - split; [discriminate|intros [? _]; lia].
Qed.

Lemma small_digits (n : Z) : Z.abs n < 10 ^ 28 -> ndigits (Z.abs n) <= prec.
Proof.
  intros H. apply ndigits_upper; [|unfold prec; lia].
  split; [apply Z.abs_nonneg|exact H].
Qed.

Lemma scaled_bound (s k x : Z) :
  0 <= k -> x = s * 10 ^ k -> Z.abs s <= Z.abs x.
Proof.
  intros Hk ->. rewrite Z.abs_mul.
  assert (0 < 10 ^ k) by (apply Z.pow_pos_nonneg; lia).
  rewrite (Z.abs_eq (10 ^ k)) by lia.
  pose proof (Z.abs_nonneg s). nia.
Qed.

Lemma in_cents_add (a b : Decimal) (x y : Z) :
  in_cents a = Some x -> in_cents b = Some y ->
  Z.abs (x + y) < 10 ^ 28 ->
  in_cents (dec_add a b) = Some (x + y).
Proof.
  intros Ha Hb Hs. apply in_cents_spec in Ha, Hb.
  destruct Ha as [Ea Hx], Hb as [Eb Hy].
  unfold dec_add, aligned. set (e := Z.min (expo a) (expo b)).
  assert (He : -2 <= e) by (unfold e; lia).
  assert (Hsum : x + y
    = (coeff a * 10 ^ (expo a - e) + coeff b * 10 ^ (expo b - e))
      * 10 ^ (e + 2)).
  { rewrite Z.mul_add_distr_r, <- !Z.mul_assoc, <- !Z.pow_add_r
      by (unfold e; lia).
    replace (expo a - e + (e + 2)) with (expo a + 2) by lia.
    replace (expo b - e + (e + 2)) with (expo b + 2) by lia.
    congruence. }
  rewrite dec_fix_small.
  - apply in_cents_spec. cbn [coeff expo]. split; [exact He|exact Hsum].
  - apply small_digits.
    eapply Z.le_lt_trans; [|exact Hs].
    apply (scaled_bound _ (e + 2)); [lia|exact Hsum].
Qed.

Lemma in_cents_opp (a : Decimal) (x : Z) :
  in_cents a = Some x -> in_cents (dec_opp a) = Some (- x).
Proof.
  intros H. apply in_cents_spec in H. destruct H as [E ->].
  apply in_cents_spec. unfold dec_opp. cbn [coeff expo]. split; [exact E|lia].
Qed.

Lemma in_cents_sub (a b : Decimal) (x y : Z) :
  in_cents a = Some x -> in_cents b = Some y ->
  Z.abs (x - y) < 10 ^ 28 ->
  in_cents (dec_sub a b) = Some (x - y).
Proof.
  intros Ha Hb Hs. unfold dec_sub.
  replace (x - y) with (x + - y) in * by lia.
  apply in_cents_add; [exact Ha|apply in_cents_opp; exact Hb|exact Hs].
Qed.

Lemma in_cents_mul_int (p : Decimal) (x n : Z) :
  in_cents p = Some x -> Z.abs (x * n) < 10 ^ 28 ->
  in_cents (dec_mul p (dec_of_int n)) = Some (x * n).
Proof.
  intros Hp Hs. apply in_cents_spec in Hp. destruct Hp as [E Hx].
  unfold dec_mul, dec_of_int. cbn [coeff expo].
  assert (Hprod : x * n = coeff p * n * 10 ^ (expo p + 0 + 2)).
  { rewrite Hx. replace (expo p + 0 + 2) with (expo p + 2) by lia. ring. }
  rewrite dec_fix_small.
  - apply in_cents_spec. cbn [coeff expo]. split; [lia|exact Hprod].
  - apply small_digits.
    eapply Z.le_lt_trans; [|exact Hs].
    apply (scaled_bound _ (expo p + 0 + 2)); [lia|exact Hprod].
Qed.

Lemma in_cents_compare (a b : Decimal) (x y : Z) :
  in_cents a = Some x -> in_cents b = Some y ->
  dec_compare a b = (x ?= y).
Proof.
  intros Ha Hb. apply in_cents_spec in Ha, Hb.
  destruct Ha as [Ea ->], Hb as [Eb ->].
  unfold dec_compare, aligned. set (e := Z.min (expo a) (expo b)).
  assert (He : -2 <= e) by (unfold e; lia).
  assert (Pa : coeff a * 10 ^ (expo a + 2)
               = coeff a * 10 ^ (expo a - e) * 10 ^ (e + 2)).
  { rewrite <- Z.mul_assoc, <- Z.pow_add_r by (unfold e; lia).
    do 2 f_equal. lia. }
  assert (Pb : coeff b * 10 ^ (expo b + 2)
               = coeff b * 10 ^ (expo b - e) * 10 ^ (e + 2)).
  { rewrite <- Z.mul_assoc, <- Z.pow_add_r by (unfold e; lia).
    do 2 f_equal. lia. }
  rewrite Pa, Pb.
  apply Zmult_compare_compat_r.
  apply Z.lt_gt, Z.pow_pos_nonneg; lia.
Qed.

Lemma in_cents_ltb (a b : Decimal) (x y : Z) :
  in_cents a = Some x -> in_cents b = Some y ->
  dec_ltb a b = (x <? y).
Proof.
  intros Ha Hb. unfold dec_ltb, Z.ltb.
  rewrite (in_cents_compare a b x y Ha Hb). reflexivity.
Qed.

Lemma in_cents_cents (n : Z) : in_cents (cents n) = Some n.
Proof. unfold in_cents, cents. cbn. f_equal. lia. Qed.

(* ================================================================== *)
(** * The Holding table stays sound *)
(* ================================================================== *)

Lemma sound_rows (a a' : Account) :
  holdings a' = holdings a -> next_pk a' = next_pk a ->
  sound_table a -> sound_table a'.
Proof.
  unfold sound_table, wf_account. intros -> ->. exact (fun H => H).
Qed.

Lemma not_held (t : Ticker) (l : list Holding) :
  filter (fun h => String.eqb (stock h) t) l = [] -> ~ In t (map stock l).
Proof.
  intros Hf Hin. apply in_map_iff in Hin. destruct Hin as (h & Hs & Hin).
  assert (In h (filter (fun h => String.eqb (stock h) t) l)).
  { apply filter_In. split; [exact Hin|]. apply String.eqb_eq. exact Hs. }
  rewrite Hf in H. contradiction.
Qed.

Lemma sound_insert (t : Ticker) (q : Z) (p : Decimal) (a : Account) :
  sound_table a -> holdings_of t a = [] ->
  sound_table (insert_holding t q p a).
Proof.
  intros [[Hnd Hlt] Hst] Hnone. split; [split|].
  - unfold insert_holding. cbn [holdings]. rewrite map_app. cbn [map pk].
    apply NoDup_snoc_gen; [exact Hnd|].
    intros Hin. apply in_map_iff in Hin. destruct Hin as (r & Hr & Hin).
    rewrite Forall_forall in Hlt. specialize (Hlt r Hin). lia.
  - unfold insert_holding. cbn [holdings next_pk]. apply Forall_app. split.
    + eapply Forall_impl; [|exact Hlt]. cbn. intros r Hr. lia.
    + constructor; [cbn; lia|constructor].
  - unfold insert_holding. cbn [holdings]. rewrite map_app. cbn [map stock].
    apply NoDup_snoc_gen; [exact Hst|]. apply not_held. exact Hnone.
Qed.

Lemma map_update_stock (h' : Holding) (l : list Holding) :
  (forall r, In r l -> pk r = pk h' -> stock r = stock h') ->
  map stock (map (fun r => if Nat.eqb (pk r) (pk h') then h' else r) l)
  = map stock l.
Proof.
  intros Hsame. rewrite map_map. apply map_ext_in. intros r Hin.
  destruct (Nat.eqb_spec (pk r) (pk h')) as [E|E]; [|reflexivity].
  symmetry. apply Hsame; assumption.
Qed.

(** Saving a row under the key and the ticker it has in the table. *)
Lemma sound_update (h' : Holding) (a : Account) :
  sound_table a ->
  (forall r, In r (holdings a) -> pk r = pk h' -> stock r = stock h') ->
  sound_table (update_holding h' a).
Proof.
  intros [[Hnd Hlt] Hst] Hsame. split; [split|].
  - unfold update_holding, set_holdings. cbn [holdings].
    rewrite map_update_pk. exact Hnd.
  - unfold update_holding, set_holdings. cbn [holdings next_pk].
    rewrite Forall_forall in *. intros r Hr. apply in_map_iff in Hr.
    destruct Hr as (r0 & Hr0 & Hin0).
    destruct (Nat.eqb_spec (pk r0) (pk h')) as [E|E].
    + subst r. rewrite <- E. apply Hlt. exact Hin0.
    + subst r. apply Hlt. exact Hin0.
  - unfold update_holding, set_holdings. cbn [holdings].
    rewrite map_update_stock by exact Hsame. exact Hst.
Qed.

Lemma NoDup_map_filter {A B : Type} (f : A -> B) (g : A -> bool)
    (l : list A) :
  NoDup (map f l) -> NoDup (map f (filter g l)).
Proof.
  induction l as [|x l IH]; intros H; [constructor|].
  cbn in *. inversion H as [|? ? Hx Hl]; subst.
  destruct (g x); [|apply IH; exact Hl].
  cbn. constructor; [|apply IH; exact Hl].
  intros Hin. apply Hx. apply in_map_iff in Hin.
  destruct Hin as (y & Hy & Hin). apply in_map_iff. exists y.
  split; [exact Hy|]. apply filter_In in Hin. apply Hin.
Qed.

Lemma sound_delete (h : Holding) (a : Account) :
  sound_table a -> sound_table (delete_holding h a).
Proof.
  intros [[Hnd Hlt] Hst]. unfold delete_holding, set_holdings.
  split; [split|]; cbn [holdings next_pk].
  - apply NoDup_map_filter. exact Hnd.
  - rewrite Forall_forall in *. intros r Hr. apply filter_In in Hr.
    apply Hlt. apply Hr.
  - apply NoDup_map_filter. exact Hst.
Qed.

(** On a sound table a ticker has no row or one. *)
Lemma sound_lookup (t : Ticker) (a : Account) :
  sound_table a ->
  holdings_of t a = [] \/
  exists h, holdings_of t a = [h] /\ In h (holdings a) /\ stock h = t.
Proof.
  intros [_ Hst]. unfold holdings_of.
  induction (holdings a) as [|x l IH]; [left; reflexivity|].
  cbn in *. inversion Hst as [|? ? Hx Hl]; subst.
  destruct (String.eqb_spec (stock x) t) as [E|E].
  - right. exists x. split; [|split; [left; reflexivity|exact E]].
    f_equal. destruct (filter _ l) as [|y l'] eqn:F; [reflexivity|].
    exfalso. apply Hx. 
    assert (Hy : In y (filter (fun h => String.eqb (stock h) t) l))
      by (rewrite F; left; reflexivity).
    apply filter_In in Hy. destruct Hy as [Hin Hs].
    apply String.eqb_eq in Hs. rewrite E, <- Hs. apply in_map. exact Hin.
  - destruct (IH Hl) as [H|(h & H & Hin & Hs)]; [left; exact H|].
    right. exists h. split; [exact H|]. split; [right; exact Hin|exact Hs].
Qed.

Lemma same_key_same_row (a : Account) (h r : Holding) :
  sound_table a -> In h (holdings a) -> In r (holdings a) ->
  pk r = pk h -> r = h.
Proof. intros [[Hnd _] _]. apply pk_determines_row. exact Hnd. Qed.

(** The row a buy merges into keeps its key and its ticker. *)
Lemma sound_merge (t : Ticker) (h : Holding) (q : Z) (p avg : Decimal)
    (a : Account) :
  sound_table a -> holdings_of t a = [h] ->
  sound_table
    (update_holding
       {| pk := pk h; stock := stock h; quantity := q;
          buying_price := avg; current_price := p |} a).
Proof.
  intros Hs Hone. apply sound_update; [exact Hs|].
  intros r Hr Hpk. cbn in Hpk |- *.
  assert (Hin : In h (holdings a)).
  { assert (Hf : In h (holdings_of t a)) by (rewrite Hone; left; reflexivity).
    unfold holdings_of in Hf. apply filter_In in Hf. apply Hf. }
  rewrite (same_key_same_row a h r Hs Hin Hr Hpk). reflexivity.
Qed.

Ltac keep_rows :=
  repeat first
    [ assumption
    | apply sound_insert; [|assumption]
    | eapply sound_merge; [|eassumption]
    | apply sound_delete
    | match goal with
      | |- sound_table (set_balance _ ?a) =>
          apply (sound_rows a); [reflexivity|reflexivity|]
      | |- sound_table (append_transaction _ ?a) =>
          apply (sound_rows a); [reflexivity|reflexivity|]
      end ].

Lemma upsert_holding_sound (t : Ticker) (q : Z) (p : Decimal)
    (fs : Faults) (n : nat) (a : Account) :
  sound_table a ->
  match upsert_holding t q p fs n a with
  | Returned _ _ a' => sound_table a'
  | Raised a' => sound_table a'
  end.
Proof.
  intros Hs. unfold upsert_holding, get_or_create, bind, get_store, ret.
  destruct (holdings_of t a) as [|h [|h2 l]] eqn:Hof.
  - unfold orm_write. destruct (fs n); [exact Hs|]. cbn. keep_rows.
  - cbn. unfold merge_buy, decimal_div, bind.
    destruct (dec_div _ _); [|exact Hs]. cbn.
    unfold orm_write. destruct (fs n); [exact Hs|]. keep_rows.
  - exact Hs.
Qed.

Lemma buy_stock_sound (m : Market) (fs : Faults) (a : Account)
    (r : OrderRequest) :
  sound_table a -> sound_table (snd (buy_stock m fs a r)).
Proof.
  intros Hs. unfold buy_stock, respond, buy_stock_body.
  destruct (_ || _)%bool; [exact Hs|].
  destruct (live_price m _) as [p|]; [|exact Hs].
  unfold bind at 1. unfold get_store at 1.
  destruct (dec_ltb _ _); [exact Hs|].
  unfold bind at 1.
  pose proof (upsert_holding_sound (upper (req_stock r)) (req_quantity r) p
                fs 0%nat a Hs) as U.
  destruct (upsert_holding _ _ _ fs 0%nat a) as [[] n a1|a1]; [|exact U].
  unfold bind, orm_write, ret.
  destruct (fs n); [exact U|]. destruct (fs (S n)); cbn; keep_rows.
Qed.

Lemma sell_stock_sound (m : Market) (fs : Faults) (a : Account)
    (r : OrderRequest) :
  sound_table a -> sound_table (snd (sell_stock m fs a r)).
Proof.
  intros Hs. unfold sell_stock, respond, sell_stock_body.
  destruct (_ || _)%bool; [exact Hs|].
  unfold bind at 1. unfold get_store at 1.
  destruct (holdings_of _ a) as [|h [|h2 l]] eqn:Hof; try exact Hs.
  destruct (_ <? _); [exact Hs|].
  destruct (live_price m _) as [p|]; [|exact Hs].
  unfold bind, orm_write, ret.
  destruct (quantity h =? req_quantity r);
    destruct (fs 0%nat); try exact Hs;
    destruct (fs 1%nat); cbn; try (destruct (fs 2%nat)); cbn; keep_rows.
Qed.

Lemma execute_buy_sound (m : Market) (fs : Faults) (s : Ledger)
    (t : Ticker) (analysis : Analysis) :
  sound_table (account s) ->
  sound_table (account (snd (execute_buy m fs s t analysis))).
Proof.
  intros Hs. unfold execute_buy, try_except, execute_buy_body.
  destruct (live_price m t) as [p|]; [|exact Hs].
  unfold bind at 1. unfold get_store at 1.
  unfold bind at 1. unfold decimal_div.
  destruct (dec_div _ _) as [q|]; [|exact Hs]. unfold ret at 1.
  destruct (_ =? 0); [exact Hs|].
  destruct (dec_gtb _ _); [exact Hs|].
  unfold bind at 1. unfold lift_account.
  pose proof (upsert_holding_sound t (dec_to_int q) p fs 0%nat (account s) Hs) as U.
  destruct (upsert_holding _ _ _ fs 0%nat (account s)) as [[] n a1|a1];
    [|exact U].
  unfold bind, orm_write, ret.
  destruct (fs n); [exact U|]. destruct (fs (S n)); [cbn; keep_rows|].
  destruct (fs (S (S n))); [cbn; keep_rows|].
  destruct (fs (S (S (S n)))); cbn; keep_rows.
Qed.

Lemma execute_sell_sound (m : Market) (fs : Faults) (s : Ledger)
    (h : Holding) (reason : Reason) :
  sound_table (account s) ->
  sound_table (account (snd (execute_sell m fs s h reason))).
Proof.
  intros Hs. unfold execute_sell, try_except, execute_sell_body.
  destruct (live_price m _) as [p|]; [|exact Hs].
  unfold bind, get_store, orm_write, ret.
  destruct (fs 0%nat); [exact Hs|]. destruct (fs 1%nat); [cbn; keep_rows|].
  destruct (fs 2%nat); [cbn; keep_rows|].
  destruct (fs 3%nat); [cbn; keep_rows|].
  destruct (fs 4%nat); cbn; keep_rows.
Qed.

Lemma in_line_start (a : Account) :
  sound_table a -> in_line (holdings a) a.
Proof.
  intros Hs h r Hh Hr Hpk.
  rewrite (same_key_same_row a h r Hs Hh Hr Hpk). reflexivity.
Qed.

Lemma check_holding_sound (m : Market) (s : Ledger) (h : Holding)
    (rest : list Holding) :
  sound_table (account s) -> in_line (h :: rest) (account s) ->
  sound_table (account (check_holding m s h)) /\
  in_line rest (account (check_holding m s h)).
Proof.
  intros Hs Hl. unfold check_holding.
  assert (Hrest : in_line rest (account s)).
  { intros h0 r Hh. apply Hl. right. exact Hh. }
  destruct (live_price m (stock h)) as [p|] eqn:Hp; [|split; assumption].
  set (h1 := set_current_price p h).
  set (s1 := on_account (update_holding h1) s).
  assert (Hs1 : sound_table (account s1)).
  { cbn. apply sound_update; [exact Hs|].
    intros r Hr Hpk. apply (Hl h r); [left; reflexivity|exact Hr|exact Hpk]. }
  assert (Hl1 : in_line rest (account s1)).
  { intros h0 r Hh Hr Hpk. cbn in Hr. apply in_map_iff in Hr.
    destruct Hr as (r0 & Hr0 & Hin0).
    destruct (Nat.eqb_spec (pk r0) (pk h)) as [E|E]; subst r.
    - cbn in Hpk |- *.
      pose proof (Hl h r0 (or_introl eq_refl) Hin0 E) as A.
      pose proof (Hl h0 r0 (or_intror Hh) Hin0 (eq_trans E Hpk)) as B.
      congruence.
    - apply (Hl h0 r0); [right; exact Hh|exact Hin0|exact Hpk]. }
  assert (Hsell : forall reason,
    sound_table (account (snd (execute_sell m no_faults s1 h1 reason))) /\
    in_line rest (account (snd (execute_sell m no_faults s1 h1 reason)))).
  { intros reason. split; [apply execute_sell_sound; exact Hs1|].
    rewrite execute_sell_no_faults. unfold sell_outcome.
    destruct (live_price m (stock h1)); [|exact Hl1].
    intros h0 r Hh Hr Hpk. cbn in Hr. apply filter_In in Hr.
    apply (Hl1 h0 r Hh); [apply Hr|exact Hpk]. }
  destruct (Qleb _ _); [apply Hsell|].
  destruct (Qgeb _ _); [apply Hsell|split; assumption].
Qed.

Lemma reconciliation_sound (m : Market) (s : Ledger) :
  sound_table (account s) ->
  sound_table (account (check_stop_loss_take_profit m s)).
Proof.
  intros Hs. unfold check_stop_loss_take_profit.
  pose proof (in_line_start _ Hs) as Hl.
  revert Hs Hl. generalize (holdings (account s)) as hs. intros hs.
  revert s. induction hs as [|h rest IH]; intros s Hs Hl; [exact Hs|].
  cbn [fold_left].
  destruct (check_holding_sound m s h rest Hs Hl) as [Hs1 Hl1].
  apply IH; assumption.
Qed.

Lemma scan_sound (m : Market) (ts : list Ticker) :
  forall acc : CycleStats * Ledger,
    sound_table (account (snd acc)) ->
    sound_table (account (snd (fold_left (scan_ticker m) ts acc))).
Proof.
  induction ts as [|t rest IH]; intros acc Hs; [exact Hs|].
  cbn [fold_left]. apply IH.
  destruct acc as [res s]. unfold scan_ticker. cbn [snd] in Hs.
  destruct (analyze_stock m (bot s) t) as [a|]; [|exact Hs].
  destruct (_ && _)%bool; [|exact Hs].
  pose proof (execute_buy_sound m no_faults s t a Hs) as B.
  destruct (execute_buy m no_faults s t a) as [[tr|] s']; exact B.
Qed.

(** X15.  No call leaves a ticker with two rows, or two rows with one
    key: a manual order and an engine order keep the Holding table sound
    whichever of their writes the store refuses, and so does a whole
    trading cycle.  On a sound table [get_or_create] and
    [Holding.objects.get] never meet the several rows that would make
    them raise. *)
Theorem holdings_table_stays_sound :
  (forall m fs a r,
      sound_table a ->
      sound_table (snd (buy_stock m fs a r)) /\
      sound_table (snd (sell_stock m fs a r))) /\
  (forall m fs s t analysis h reason,
      sound_table (account s) ->
      sound_table (account (snd (execute_buy m fs s t analysis))) /\
      sound_table (account (snd (execute_sell m fs s h reason)))) /\
  (forall m s,
      sound_table (account s) ->
      sound_table (account (snd (run_trading_cycle m s)))).
Proof.
  split; [|split].
  - intros m fs a r Hs. split;
      [apply buy_stock_sound|apply sell_stock_sound]; exact Hs.
  - intros m fs s t analysis h reason Hs. split;
      [apply execute_buy_sound|apply execute_sell_sound]; exact Hs.
  - intros m s Hs. unfold run_trading_cycle.
    destruct (negb _); [exact Hs|].
    pose proof (reconciliation_sound m s Hs) as H1.
    unfold scan_watchlist.
    pose proof (scan_sound m
      (stocks (config (bot (check_stop_loss_take_profit m s))))
      ({| analyzed := 0; bought := 0; sold := 0; cycle_signals := [] |},
       check_stop_loss_take_profit m s) H1) as H2.
    destruct (fold_left _ _ _) as [res s']. exact H2.
Qed.

(* ================================================================== *)
(** * Manual orders *)
(* ================================================================== *)

(** X16.  A manual order that is declined, for whatever reason (an
    invalid symbol or quantity, no live price, too small a balance, a
    ticker not owned, too few shares), has written nothing, whatever the
    store would have refused. *)
Theorem declined_order_writes_nothing (m : Market) (fs : Faults)
    (a a' : Account) (r : OrderRequest) (e : OrderError) :
  buy_stock m fs a r = (Declined e, a') \/
  sell_stock m fs a r = (Declined e, a') ->
  a' = a.
Proof.
  intros [H|H]; revert H.
  - unfold buy_stock, respond, buy_stock_body.
    destruct (_ || _)%bool; [intros H; inversion H; reflexivity|].
    destruct (live_price m _) as [p|]; [|intros H; inversion H; reflexivity].
    unfold bind at 1. unfold get_store at 1.
    destruct (dec_ltb _ _); [intros H; inversion H; reflexivity|].
    unfold bind at 1.
    destruct (upsert_holding _ _ _ fs 0%nat a) as [[] n a1|a1];
      [|discriminate].
    unfold bind, orm_write, ret.
    destruct (fs n); [discriminate|]. destruct (fs (S n)); discriminate.
  - unfold sell_stock, respond, sell_stock_body.
    destruct (_ || _)%bool; [intros H; inversion H; reflexivity|].
    unfold bind at 1. unfold get_store at 1.
    destruct (holdings_of _ a) as [|h [|h2 l]];
      try (intros H; inversion H; reflexivity); try discriminate.
    destruct (_ <? _); [intros H; inversion H; reflexivity|].
    destruct (live_price m _) as [p|]; [|intros H; inversion H; reflexivity].
    unfold bind, orm_write, ret.
    destruct (quantity h =? req_quantity r);
      destruct (fs 0%nat); try discriminate;
      destruct (fs 1%nat); try discriminate;
      destruct (fs 2%nat); discriminate.
Qed.

Lemma declined_order_writes_nothing_witness :
  sell_stock (aapl_market 10000 "BUY" flat_bar) no_faults
    (aapl_account 0 10 10000) (aapl_order 11)
  = (Declined (InsufficientShares 10 11), aapl_account 0 10 10000).
Proof.
  eassert (Hrun : sell_stock (aapl_market 10000 "BUY" flat_bar) no_faults
                    (aapl_account 0 10 10000) (aapl_order 11)
                  = (Declined (InsufficientShares 10 11), _))
    by (vm_compute; reflexivity).
  rewrite Hrun. apply f_equal.
  exact (declined_order_writes_nothing _ _ _ _ _ _ (or_intror Hrun)).
Defined.

(** What [sell_stock] answers and writes when no write is refused. *)
Lemma sell_stock_run (m : Market) (a : Account) (r : OrderRequest) :
  sell_stock m no_faults a r
  = let t := upper (req_stock r) in
    let q := req_quantity r in
    if (String.eqb t "" || (q <=? 0))%bool then (Declined InvalidOrder, a)
    else
      match holdings_of t a with
      | [] => (Declined (NotOwned t), a)
      | _ :: _ :: _ => (ServerError, a)
      | [h] =>
          if quantity h <? q
          then (Declined (InsufficientShares (quantity h) q), a)
          else
            match live_price m t with
            | None => (Declined (NoLivePrice t), a)
            | Some p =>
                let revenue := dec_mul p (dec_of_int q) in
                let new_balance := dec_add (balance a) revenue in
                (Filled t q p revenue new_balance,
                 append_transaction
                   {| transaction_type := sell; debit := cents 0;
                      credit := revenue;
                      description := Sold false q t p None;
                      balance_after := new_balance |}
                   (set_balance new_balance
                      (if quantity h =? q then delete_holding h a
                       else update_holding
                              {| pk := pk h; stock := stock h;
                                 quantity := quantity h - q;
                                 buying_price := buying_price h;
                                 current_price := p |} a)))
            end
      end.
Proof.
  unfold sell_stock, respond, sell_stock_body. cbv zeta.
  destruct (_ || _)%bool; [reflexivity|].
  unfold bind at 1. unfold get_store at 1.
  destruct (holdings_of _ a) as [|h [|h2 l]]; try reflexivity.
  destruct (_ <? _); [reflexivity|].
  destruct (live_price m _) as [p|]; [|reflexivity].
  destruct (quantity h =? req_quantity r); reflexivity.
Qed.

Lemma filter_swap {A : Type} (f g : A -> bool) (l : list A) :
  filter f (filter g l) = filter g (filter f l).
Proof.
  induction l as [|x l IH]; cbn; [reflexivity|].
  destruct (f x) eqn:F, (g x) eqn:G; cbn; rewrite ?F, ?G, IH; reflexivity.
Qed.

Lemma others_after_delete (t t' : Ticker) (h : Holding) (a : Account) :
  sound_table a -> holdings_of t a = [h] ->
  (t' = t -> holdings_of t' (delete_holding h a) = []) /\
  (t' <> t -> holdings_of t' (delete_holding h a) = holdings_of t' a).
Proof.
  intros Hs Hone.
  assert (Hin : In h (holdings_of t a)) by (rewrite Hone; left; reflexivity).
  unfold holdings_of in Hin. apply filter_In in Hin.
  destruct Hin as [Hin Hst]. apply String.eqb_eq in Hst.
  assert (Hswap : forall u,
    holdings_of u (delete_holding h a)
    = filter (fun r => negb (Nat.eqb (pk r) (pk h))) (holdings_of u a)).
  { intros u. unfold holdings_of, delete_holding, set_holdings.
    cbn [holdings]. apply filter_swap. }
  split.
  - intros ->. rewrite Hswap, Hone. cbn. rewrite Nat.eqb_refl. reflexivity.
  - intros Hne. rewrite Hswap.
    apply forallb_filter_id. apply forallb_forall. intros r Hr.
    unfold holdings_of in Hr. apply filter_In in Hr. destruct Hr as [Hr Hsr].
    apply String.eqb_eq in Hsr. apply negb_true_iff, Nat.eqb_neq.
    intros Hpk. rewrite (same_key_same_row a h r Hs Hin Hr Hpk) in Hsr.
    congruence.
Qed.

Lemma others_after_update (t t' : Ticker) (h h' : Holding) (a : Account) :
  sound_table a -> holdings_of t a = [h] ->
  pk h' = pk h -> stock h' = stock h ->
  (t' = t -> holdings_of t' (update_holding h' a) = [h']) /\
  (t' <> t -> holdings_of t' (update_holding h' a) = holdings_of t' a).
Proof.
  intros Hs Hone Hpk Hst.
  assert (Hin : In h (holdings_of t a)) by (rewrite Hone; left; reflexivity).
  unfold holdings_of in Hin. apply filter_In in Hin.
  destruct Hin as [Hin Hsh]. apply String.eqb_eq in Hsh.
  assert (Hswap : forall u,
    holdings_of u (update_holding h' a)
    = map (fun r => if Nat.eqb (pk r) (pk h') then h' else r)
        (holdings_of u a)).
  { intros u. unfold holdings_of, update_holding, set_holdings.
    cbn [holdings]. apply filter_update.
    intros r Hr E. rewrite Hpk in E.
    rewrite (same_key_same_row a h r Hs Hin Hr E). congruence. }
  split.
  - intros ->. rewrite Hswap, Hone. cbn. rewrite Hpk, Nat.eqb_refl.
    reflexivity.
  - intros Hne. rewrite Hswap. rewrite <- (map_id (holdings_of t' a)) at 2.
    apply map_ext_in. intros r Hr.
    unfold holdings_of in Hr. apply filter_In in Hr. destruct Hr as [Hr Hsr].
    apply String.eqb_eq in Hsr.
    destruct (Nat.eqb_spec (pk r) (pk h')) as [E|E]; [|reflexivity].
    rewrite Hpk in E. rewrite (same_key_same_row a h r Hs Hin Hr E) in Hsr.
    congruence.
Qed.

(** X17.  A sale that is filled takes the shares out of the one row of
    the ticker: the row goes when none is left, and otherwise keeps its
    key and its average buying price and takes the sale price as its
    current price.  The balance gets price times quantity, one
    Transaction states the credit and the balance it leaves, and the rows
    of the other tickers are as they were. *)
Theorem sell_stock_filled (m : Market) (a a' : Account) (r : OrderRequest)
    (t : Ticker) (q : Z) (p revenue nb : Decimal) :
  sound_table a ->
  sell_stock m no_faults a r = (Filled t q p revenue nb, a') ->
  t = upper (req_stock r) /\ q = req_quantity r /\ 0 < q /\
  live_price m t = Some p /\
  revenue = dec_mul p (dec_of_int q) /\
  balance a' = dec_add (balance a) revenue /\ nb = balance a' /\
  transactions a'
  = transactions a
    ++ [{| transaction_type := sell; debit := cents 0; credit := revenue;
           description := Sold false q t p None; balance_after := nb |}] /\
  (exists h,
     holdings_of t a = [h] /\ q <= quantity h /\
     (q = quantity h -> holdings_of t a' = []) /\
     (q < quantity h ->
      holdings_of t a'
      = [{| pk := pk h; stock := stock h; quantity := quantity h - q;
            buying_price := buying_price h; current_price := p |}])) /\
  (forall t', t' <> t -> holdings_of t' a' = holdings_of t' a) /\
  sound_table a'.
Proof.
  intros Hs. rewrite sell_stock_run. cbv zeta.
  destruct (_ || _)%bool eqn:Hv; [discriminate|].
  apply orb_false_iff in Hv. destruct Hv as [_ Hq]. apply Z.leb_gt in Hq.
  destruct (holdings_of _ a) as [|h [|h2 l]] eqn:Hone; try discriminate.
  destruct (quantity h <? req_quantity r) eqn:Hle; [discriminate|].
  apply Z.ltb_ge in Hle.
  destruct (live_price m _) as [p0|] eqn:Hp; [|discriminate].
  intros H. inversion H. subst t q p0 revenue nb. clear H.
  set (t := upper (req_stock r)) in *. set (q := req_quantity r) in *.
  subst a'.
  split; [reflexivity|]. split; [reflexivity|]. split; [exact Hq|].
  split; [exact Hp|]. split; [reflexivity|].
  split; [reflexivity|]. split; [reflexivity|].
  split; [destruct (quantity h =? q); reflexivity|].
  destruct (others_after_delete t t h a Hs Hone) as [Hd _].
  destruct (others_after_update t t h
              {| pk := pk h; stock := stock h; quantity := quantity h - q;
                 buying_price := buying_price h; current_price := p |}
              a Hs Hone eq_refl eq_refl) as [Hu _].
  split; [|split].
  - exists h. split; [exact Hone|]. split; [exact Hle|]. split.
    + intros E. rewrite E, Z.eqb_refl. apply Hd. reflexivity.
    + intros L. destruct (Z.eqb_spec (quantity h) q); [lia|].
      apply Hu. reflexivity.
  - intros t' Hne. destruct (quantity h =? q).
    + apply (others_after_delete t t' h a Hs Hone). exact Hne.
    + apply (others_after_update t t' h
               {| pk := pk h; stock := stock h; quantity := quantity h - q;
                  buying_price := buying_price h; current_price := p |}
               a Hs Hone eq_refl eq_refl).
      exact Hne.
  - destruct (quantity h =? q).
    + apply (sound_rows (delete_holding h a)); [reflexivity|reflexivity|].
      apply sound_delete. exact Hs.
    + apply (sound_rows (update_holding
              {| pk := pk h; stock := stock h; quantity := quantity h - q;
                 buying_price := buying_price h; current_price := p |} a));
        [reflexivity|reflexivity|].
      eapply sound_merge; eassumption.
Qed.

Lemma aapl_account_sound (c q p : Z) : sound_table (aapl_account c q p).
Proof.
  split; [split|]; cbn.
  - constructor; [intros []|constructor].
  - constructor; [cbn; lia|constructor].
  - constructor; [intros []|constructor].
Qed.

Lemma sell_stock_filled_witness :
  exists a',
    sell_stock (aapl_market 12000 "BUY" flat_bar) no_faults
      (aapl_account 0 10 10000) (aapl_order 4)
    = (Filled "AAPL" 4 (cents 12000) (cents 48000) (cents 48000), a') /\
    balance a' = cents 48000 /\
    holdings_of "AAPL" a'
    = [{| pk := 1%nat; stock := "AAPL"; quantity := 6;
          buying_price := cents 10000; current_price := cents 12000 |}].
Proof.
  eexists.
  eassert (Hrun : sell_stock (aapl_market 12000 "BUY" flat_bar) no_faults
                    (aapl_account 0 10 10000) (aapl_order 4)
                  = (Filled "AAPL" 4 (cents 12000) (cents 48000)
                       (cents 48000), _))
    by (vm_compute; reflexivity).
  split; [exact Hrun|].
  destruct (sell_stock_filled _ _ _ _ _ _ _ _ _
              (aapl_account_sound 0 10 10000) Hrun)
    as (_ & _ & _ & _ & _ & _ & Hnb & _ & (h & Hone & _ & _ & Hpart) & _).
  split; [symmetry; exact Hnb|].
  inversion Hone as [Hh]. subst h. apply Hpart. reflexivity.
Defined.

Lemma positive_rows (a a' : Account) :
  holdings a' = holdings a -> positions_positive a -> positions_positive a'.
Proof. unfold positions_positive. intros ->. exact (fun H => H). Qed.

Lemma positive_insert (t : Ticker) (q : Z) (p : Decimal) (a : Account) :
  positions_positive a -> 0 < q -> positions_positive (insert_holding t q p a).
Proof.
  intros Hp Hq. unfold positions_positive, insert_holding. cbn [holdings].
  apply Forall_app. split; [exact Hp|]. constructor; [exact Hq|constructor].
Qed.

Lemma positive_update (h' : Holding) (a : Account) :
  positions_positive a -> 0 < quantity h' ->
  positions_positive (update_holding h' a).
Proof.
  intros Hp Hq. unfold positions_positive, update_holding, set_holdings in *.
  cbn [holdings]. rewrite Forall_forall in *. intros r Hr.
  apply in_map_iff in Hr. destruct Hr as (r0 & Hr0 & Hin0).
  destruct (Nat.eqb (pk r0) (pk h')); subst r; [exact Hq|apply Hp; exact Hin0].
Qed.

Lemma positive_delete (h : Holding) (a : Account) :
  positions_positive a -> positions_positive (delete_holding h a).
Proof.
  intros Hp. unfold positions_positive, delete_holding, set_holdings in *.
  cbn [holdings]. rewrite Forall_forall in *. intros r Hr.
  apply filter_In in Hr. apply Hp. apply Hr.
Qed.

Lemma held_positive (t : Ticker) (a : Account) (h : Holding)
    (l : list Holding) :
  positions_positive a -> holdings_of t a = h :: l -> 0 < quantity h.
Proof.
  intros Hp Hof.
  assert (Hin : In h (holdings_of t a)) by (rewrite Hof; left; reflexivity).
  unfold holdings_of in Hin. apply filter_In in Hin.
  unfold positions_positive in Hp. rewrite Forall_forall in Hp.
  apply Hp. apply Hin.
Qed.





Lemma dec_div_defined (a b : Decimal) :
  coeff b <> 0 -> exists q, dec_div a b = Some q.
Proof.
  intros Hb. unfold dec_div. apply Z.eqb_neq in Hb. rewrite Hb.
  destruct (coeff a =? 0); [eexists; reflexivity|].
  cbv zeta. destruct (if _ =? 0 then _ else _) as [c e]. eexists. reflexivity.
Qed.


(** What [buy_stock] answers and writes when no write is refused. *)
Lemma buy_stock_run (m : Market) (a : Account) (r : OrderRequest) :
  buy_stock m no_faults a r
  = let t := upper (req_stock r) in
    let q := req_quantity r in
    if (String.eqb t "" || (q <=? 0))%bool then (Declined InvalidOrder, a)
    else
      match live_price m t with
      | None => (Declined (NoLivePrice t), a)
      | Some p =>
          let cost := dec_mul p (dec_of_int q) in
          if dec_ltb (balance a) cost
          then (Declined (InsufficientBalance cost (balance a)), a)
          else
            match upserted t q p a with
            | None => (ServerError, a)
            | Some acc =>
                let new_balance := dec_sub (balance a) cost in
                (Filled t q p cost new_balance,
                 append_transaction
                   (buy_transaction false t q p cost new_balance)
                   (set_balance new_balance acc))
            end
      end.
Proof.
  unfold buy_stock, respond, buy_stock_body. cbv zeta.
  destruct (_ || _)%bool; [reflexivity|].
  destruct (live_price m _) as [p|]; [|reflexivity].
  unfold bind at 1. unfold get_store at 1.
  destruct (dec_ltb _ _); [reflexivity|].
  unfold bind at 1. rewrite upsert_holding_run by reflexivity.
  destruct (upserted _ _ _ a) as [acc|]; reflexivity.
Qed.

Lemma fresh_key_filter (a : Account) :
  wf_account a ->
  filter (fun r => negb (Nat.eqb (pk r) (next_pk a))) (holdings a)
  = holdings a.
Proof.
  intros [_ Hlt]. apply forallb_filter_id. apply forallb_forall.
  intros r Hr. rewrite Forall_forall in Hlt. specialize (Hlt r Hr).
  apply negb_true_iff, Nat.eqb_neq. lia.
Qed.

(** X19.  Buying a ticker the account does not hold and selling the same
    quantity at the same price leaves the Holding table and the balance
    as they were, and two more Transaction rows, the debit of the one
    being the credit of the other; amounts in whole cents, under 10^27
    of them. *)
Theorem buy_then_sell_round_trip (m : Market) (a a1 : Account)
    (r : OrderRequest) (t : Ticker) (q : Z) (p cost nb : Decimal)
    (x pc : Z) :
  sound_table a -> holdings_of (upper (req_stock r)) a = [] ->
  in_cents (balance a) = Some x -> in_cents p = Some pc ->
  Z.abs x < 10 ^ 27 -> Z.abs (pc * q) < 10 ^ 27 ->
  buy_stock m no_faults a r = (Filled t q p cost nb, a1) ->
  in_cents cost = Some (pc * q) /\ pc * q <= x /\
  in_cents (balance a1) = Some (x - pc * q) /\
  exists a2 nb2,
    sell_stock m no_faults a1 r = (Filled t q p cost nb2, a2) /\
    holdings a2 = holdings a /\
    in_cents (balance a2) = Some x /\
    map (fun tx => (transaction_type tx, debit tx, credit tx))
      (transactions a2)
    = map (fun tx => (transaction_type tx, debit tx, credit tx))
        (transactions a)
      ++ [(buy, cost, cents 0); (sell, cents 0, cost)].
Proof.
  intros Hs Hnone Hx Hpc Bx Bc.
  rewrite buy_stock_run. cbv zeta.
  destruct (_ || _)%bool eqn:Hv; [discriminate|].
  destruct (live_price m _) as [p0|] eqn:Hp; [|discriminate].
  destruct (dec_ltb _ _) eqn:Hlt; [discriminate|].
  unfold upserted. rewrite Hnone.
  intros H. inversion H. subst t q p0 cost nb a1. clear H.
  set (t := upper (req_stock r)) in *. set (q := req_quantity r) in *.
  set (cost := dec_mul p (dec_of_int q)) in *.
  assert (P : 10 ^ 28 = 10 * 10 ^ 27) by reflexivity.
  assert (Hcost : in_cents cost = Some (pc * q)).
  { apply in_cents_mul_int; [exact Hpc|lia]. }
  rewrite (in_cents_ltb _ _ _ _ Hx Hcost) in Hlt. apply Z.ltb_ge in Hlt.
  assert (Hnb : in_cents (dec_sub (balance a) cost) = Some (x - pc * q)).
  { apply in_cents_sub; [exact Hx|exact Hcost|lia]. }
  split; [exact Hcost|]. split; [exact Hlt|]. split; [exact Hnb|].
  rewrite sell_stock_run. cbv zeta. fold t. fold q. rewrite Hv.
  assert (Hrow : holdings_of t
      (append_transaction
         (buy_transaction false t q p cost (dec_sub (balance a) cost))
         (set_balance (dec_sub (balance a) cost) (insert_holding t q p a)))
    = [{| pk := next_pk a; stock := t; quantity := q;
          buying_price := p; current_price := p |}]).
  { unfold holdings_of in *. cbn [holdings append_transaction set_balance
      insert_holding]. rewrite filter_app, Hnone. cbn.
    rewrite String.eqb_refl. reflexivity. }
  rewrite Hrow. cbn [quantity]. rewrite Z.ltb_irrefl, Hp, Z.eqb_refl.
  do 2 eexists. split; [reflexivity|].
  split; [|split].
  - cbn [holdings append_transaction set_balance delete_holding
         set_holdings insert_holding pk].
    rewrite filter_app. cbn. rewrite Nat.eqb_refl. cbn.
    rewrite app_nil_r. apply fresh_key_filter. apply Hs.
  - cbn [balance append_transaction set_balance].
    replace x with (x - pc * q + pc * q) at 1 by lia.
    apply in_cents_add; [exact Hnb|exact Hcost|].
    replace (x - pc * q + pc * q) with x by lia. lia.
  - cbn [transactions append_transaction set_balance delete_holding
         set_holdings insert_holding].
    rewrite <- app_assoc, map_app. reflexivity.
Qed.

Lemma fresh_account_sound (c : Z) : sound_table (fresh_account c).
Proof. split; [split|]; cbn; constructor. Qed.

Lemma buy_then_sell_round_trip_witness :
  exists a1 a2 nb2,
    buy_stock (aapl_market 10000 "BUY" flat_bar) no_faults
      (fresh_account 500000) (aapl_order 10)
    = (Filled "AAPL" 10 (cents 10000) (cents 100000) (cents 400000), a1) /\
    sell_stock (aapl_market 10000 "BUY" flat_bar) no_faults a1 (aapl_order 10)
    = (Filled "AAPL" 10 (cents 10000) (cents 100000) nb2, a2) /\
    holdings a2 = [] /\ in_cents (balance a2) = Some 500000.
Proof.
  eassert (Hbuy : buy_stock (aapl_market 10000 "BUY" flat_bar) no_faults
                    (fresh_account 500000) (aapl_order 10)
                  = (Filled "AAPL" 10 (cents 10000) (cents 100000)
                       (cents 400000), _))
    by (vm_compute; reflexivity).
  destruct (buy_then_sell_round_trip
              (aapl_market 10000 "BUY" flat_bar) (fresh_account 500000) _
              (aapl_order 10) "AAPL" 10 (cents 10000) (cents 100000)
              (cents 400000) 500000 10000
              (fresh_account_sound 500000) eq_refl eq_refl eq_refl
              eq_refl eq_refl Hbuy)
    as (_ & _ & _ & a2 & nb2 & Hsell & Hh & Hb & _).
  eexists. exists a2, nb2. split; [exact Hbuy|].
  split; [exact Hsell|]. split; [exact Hh|exact Hb].
Defined.

(* ================================================================== *)
(** * The price refresh of the summaries *)
(* ================================================================== *)

Lemma update_own_row (pre rest : list Holding) (h h' : Holding) :
  NoDup (map pk (pre ++ h :: rest)) -> pk h' = pk h ->
  map (fun r => if Nat.eqb (pk r) (pk h') then h' else r) (pre ++ h :: rest)
  = pre ++ h' :: rest.
Proof.
  intros Hnd Hpk. rewrite Hpk. rewrite map_app. cbn [map].
  rewrite Nat.eqb_refl.
  rewrite map_app in Hnd. cbn [map] in Hnd.
  apply NoDup_remove_2 in Hnd.
  assert (Hid : forall l, ~ In (pk h) (map pk l) ->
                map (fun r => if Nat.eqb (pk r) (pk h) then h' else r) l = l).
  { induction l as [|r l IH]; intros Hn; [reflexivity|]. cbn [map] in *.
    destruct (Nat.eqb_spec (pk r) (pk h)) as [E|E].
    - exfalso. apply Hn. left. exact E.
    - rewrite IH; [reflexivity|]. intros Hin. apply Hn. right. exact Hin. }
  rewrite (Hid pre), (Hid rest); [reflexivity| |];
    intros Hin; apply Hnd; apply in_or_app; [right|left]; exact Hin.
Qed.

Lemma refresh_loop (m : Market) (fs : Faults) (todo : list Holding) :
  forall (pre : list Holding) (n : nat) (a : Account),
    holdings a = pre ++ todo -> NoDup (map pk (pre ++ todo)) ->
    let a' := state_of (refresh_holdings m todo fs n a) in
    balance a' = balance a /\ transactions a' = transactions a /\
    next_pk a' = next_pk a /\
    exists todo',
      holdings a' = pre ++ todo' /\
      Forall2 (fun r r' => r' = r \/ r' = at_live_price m r) todo todo' /\
      ((forall k, fs k = false) -> todo' = map (at_live_price m) todo).
Proof.
  induction todo as [|h rest IH]; intros pre n a Hh Hnd; cbv zeta.
  - cbn. repeat split. exists []. repeat split; [exact Hh|constructor].
  - cbn [refresh_holdings]. unfold bind, refresh_holding.
    destruct (live_price m (stock h)) as [p|] eqn:Lp.
    + unfold orm_write. destruct (fs n) eqn:Fn.
      * cbn. repeat split. exists (h :: rest).
        split; [exact Hh|]. split.
        -- clear. induction (h :: rest); constructor; [left; reflexivity|assumption].
        -- intros Hno. rewrite Hno in Fn. discriminate.
      * set (h' := set_current_price p h).
        assert (Hup : holdings (update_holding h' a) = (pre ++ [h']) ++ rest).
        { unfold update_holding, set_holdings. cbn [holdings]. rewrite Hh.
          rewrite update_own_row; [|exact Hnd|reflexivity].
          rewrite <- app_assoc. reflexivity. }
        assert (Hnd' : NoDup (map pk ((pre ++ [h']) ++ rest))).
        { rewrite <- app_assoc. cbn [app].
          rewrite map_app in *. cbn [map] in *. exact Hnd. }
        destruct (IH (pre ++ [h']) (S n) (update_holding h' a) Hup Hnd')
          as (Hb & Ht & Hn & todo' & Hh' & Hrel & Hall).
        split; [exact Hb|]. split; [exact Ht|]. split; [exact Hn|].
        exists (h' :: todo'). split.
        { rewrite Hh'. rewrite <- app_assoc. reflexivity. }
        split.
        { constructor; [|exact Hrel]. right. unfold at_live_price.
          rewrite Lp. reflexivity. }
        intros Hno. cbn [map]. unfold at_live_price at 1. rewrite Lp.
        rewrite (Hall Hno). reflexivity.
    + unfold ret.
      assert (Hh0 : holdings a = (pre ++ [h]) ++ rest).
      { rewrite <- app_assoc. exact Hh. }
      assert (Hnd' : NoDup (map pk ((pre ++ [h]) ++ rest))).
      { rewrite <- app_assoc. exact Hnd. }
      destruct (IH (pre ++ [h]) n a Hh0 Hnd')
        as (Hb & Ht & Hn & todo' & Hh' & Hrel & Hall).
      split; [exact Hb|]. split; [exact Ht|]. split; [exact Hn|].
      exists (h :: todo'). split.
      { rewrite Hh'. rewrite <- app_assoc. reflexivity. }
      split.
      { constructor; [|exact Hrel]. left. reflexivity. }
      intros Hno. cbn [map]. unfold at_live_price at 1. rewrite Lp.
      rewrite (Hall Hno). reflexivity.
Qed.

Lemma at_live_price_twice (m : Market) (h : Holding) :
  at_live_price m (at_live_price m h) = at_live_price m h.
Proof.
  unfold at_live_price. destruct (live_price m (stock h)) as [p|] eqn:E.
  - cbn [stock set_current_price]. rewrite E. reflexivity.
  - rewrite E. reflexivity.
Qed.

Lemma refreshed_rows (m : Market) (a : Account) :
  NoDup (map pk (holdings a)) ->
  holdings (refreshed m no_faults a) = map (at_live_price m) (holdings a).
Proof.
  intros Hnd.
  destruct (refresh_loop m no_faults (holdings a) [] O a eq_refl Hnd)
    as (_ & _ & _ & todo' & Hh & _ & Hall).
  unfold refreshed. rewrite Hh.
  rewrite (Hall (fun _ => eq_refl)). reflexivity.
Qed.

Lemma refreshed_frame (m : Market) (fs : Faults) (a : Account) :
  NoDup (map pk (holdings a)) ->
  balance (refreshed m fs a) = balance a /\
  transactions (refreshed m fs a) = transactions a /\
  next_pk (refreshed m fs a) = next_pk a.
Proof.
  intros Hnd.
  destruct (refresh_loop m fs (holdings a) [] O a eq_refl Hnd)
    as (Hb & Ht & Hn & _).
  repeat split; assumption.
Qed.

(** X24.  The loop with which [portfolio_summary] and
    [HoldingViewSet.summary] start writes current prices and nothing
    else: whichever [save()] fails, the balance, the transactions and the
    keys, tickers, quantities and buying prices of the rows are as they
    were, and a current price that changed is the live price of the
    ticker.  When every write is accepted each row has the live price of
    its ticker, if there is one, and a second refresh in the same market
    changes nothing. *)
Theorem price_refresh_touches_prices_only :
  (forall m fs a,
      NoDup (map pk (holdings a)) ->
      let a' := refreshed m fs a in
      balance a' = balance a /\ transactions a' = transactions a /\
      next_pk a' = next_pk a /\
      Forall2 (fun r r' =>
                 pk r' = pk r /\ stock r' = stock r /\
                 quantity r' = quantity r /\
                 buying_price r' = buying_price r /\
                 (current_price r' = current_price r \/
                  live_price m (stock r) = Some (current_price r')))
        (holdings a) (holdings a')) /\
  (forall m a,
      NoDup (map pk (holdings a)) ->
      holdings (refreshed m no_faults a)
      = map (at_live_price m) (holdings a) /\
      refreshed m no_faults (refreshed m no_faults a)
      = refreshed m no_faults a).
Proof.
  split.
  - intros m fs a Hnd. cbv zeta.
    destruct (refresh_loop m fs (holdings a) [] O a eq_refl Hnd)
      as (Hb & Ht & Hn & todo' & Hh & Hrel & _).
    unfold refreshed.
    split; [exact Hb|]. split; [exact Ht|]. split; [exact Hn|].
    rewrite Hh. cbn [app].
    eapply Forall2_impl; [|exact Hrel].
    intros r r' [E|E]; subst r'.
    + repeat split. left. reflexivity.
    + unfold at_live_price. destruct (live_price m (stock r)) as [p|] eqn:Lp.
      * repeat split. right. reflexivity.
      * repeat split. left. reflexivity.
  - intros m a Hnd. split; [apply refreshed_rows; exact Hnd|].
    assert (Hnd' : NoDup (map pk (holdings (refreshed m no_faults a)))).
    { rewrite refreshed_rows by exact Hnd. rewrite map_map.
      replace (map (fun x => pk (at_live_price m x)) (holdings a))
        with (map pk (holdings a)); [exact Hnd|].
      apply map_ext. intros h. unfold at_live_price.
      destruct (live_price m (stock h)); reflexivity. }
    destruct (refreshed_frame m no_faults a Hnd) as (Hb & Ht & Hn).
    destruct (refreshed_frame m no_faults (refreshed m no_faults a) Hnd')
      as (Hb2 & Ht2 & Hn2).
    pose proof (refreshed_rows m (refreshed m no_faults a) Hnd') as H2.
    rewrite (refreshed_rows m a Hnd) in H2.
    rewrite map_map in H2.
    rewrite (map_ext _ _ (at_live_price_twice m)) in H2.
    rewrite <- (refreshed_rows m a Hnd) in H2.
    destruct (refreshed m no_faults (refreshed m no_faults a)) as [b2 h2 n2 t2].
    destruct (refreshed m no_faults a) as [b1 h1 n1 t1].
    cbn in *. congruence.
Qed.

(* ================================================================== *)
(** * The bot's capital *)
(* ================================================================== *)

(** X20.  [create_bot] takes the capital out of the balance only when
    the balance covers it: a capital above the balance is turned down and
    nothing is written; any other is taken, the bot is ACTIVE with that
    capital, the balance that is left is not negative, and neither a
    Holding nor a Transaction row is written. *)
Theorem create_bot_never_overdraws (r : CreateBotRequest) (user : Account) :
  let capital := req_initial_capital r in
  (dec_gtb capital (balance user) = true ->
   create_bot r user
   = (InsufficientBalanceForBot (balance user) capital, user)) /\
  (dec_gtb capital (balance user) = false ->
   exists b expected user',
     create_bot r user = (BotCreated b expected, user') /\
     status b = ACTIVE /\
     initial_capital b = capital /\ current_capital b = capital /\
     balance user' = dec_sub (balance user) capital /\
     dec_ltb (balance user') dec_zero = false /\
     holdings user' = holdings user /\
     transactions user' = transactions user).
Proof.
  cbv zeta. unfold create_bot. split; intros H; rewrite H; [reflexivity|].
  do 3 eexists. split; [reflexivity|]. cbn.
  repeat split. apply dec_sub_nonneg. exact H.
Qed.

(** X21.  Stopping a bot that has not traded gives the account back what
    creating it took: the balance is the one before the bot; amounts in
    whole cents, under 10^27 of them. *)
Theorem create_then_stop_restores_balance
    (r : CreateBotRequest) (user user' : Account) (b : AutoTradingBot)
    (expected : Q) (x c : Z) :
  in_cents (balance user) = Some x ->
  in_cents (req_initial_capital r) = Some c ->
  Z.abs x < 10 ^ 27 -> Z.abs c < 10 ^ 27 ->
  create_bot r user = (BotCreated b expected, user') ->
  c <= x /\
  in_cents (balance user') = Some (x - c) /\
  in_cents (balance (account (snd (stop_bot (open_ledger user' b)))))
  = Some x.
Proof.
  intros Hx Hc Bx Bc. unfold create_bot.
  destruct (dec_gtb _ _) eqn:G; [discriminate|].
  intros H. inversion H. subst b user'. clear H.
  unfold dec_gtb in G. rewrite (in_cents_ltb _ _ _ _ Hx Hc) in G.
  apply Z.ltb_ge in G.
  assert (P : 10 ^ 28 = 10 * 10 ^ 27) by reflexivity.
  assert (Hsub : in_cents (dec_sub (balance user) (req_initial_capital r))
                 = Some (x - c)).
  { apply in_cents_sub; [exact Hx|exact Hc|lia]. }
  split; [exact G|]. split; [exact Hsub|].
  change (in_cents
            (dec_add (dec_sub (balance user) (req_initial_capital r))
                     (req_initial_capital r)) = Some x).
  replace x with (x - c + c) at 1 by lia.
  apply in_cents_add; [exact Hsub|exact Hc|].
  replace (x - c + c) with x by lia. lia.
Qed.

Lemma create_then_stop_restores_balance_witness :
  exists b user',
    create_bot (demo_request MEDIUM (cents 1000000)) (fresh_account 2500000)
    = (BotCreated b (10 # 1), user') /\
    in_cents (balance user') = Some 1500000 /\
    in_cents (balance (account (snd (stop_bot (open_ledger user' b)))))
    = Some 2500000.
Proof.
  do 2 eexists.
  eassert (Hrun : create_bot (demo_request MEDIUM (cents 1000000))
                    (fresh_account 2500000)
                  = (BotCreated _ (10 # 1), _)) by reflexivity.
  split; [exact Hrun|].
  destruct (create_then_stop_restores_balance
              (demo_request MEDIUM (cents 1000000)) (fresh_account 2500000)
              _ _ _ 2500000 1000000
              eq_refl eq_refl eq_refl eq_refl Hrun)
    as (_ & Hleft & Hback).
  split; [exact Hleft|exact Hback].
Defined.

Lemma dec_add_nonneg (a b : Decimal) :
  0 <= coeff a -> 0 <= coeff b -> 0 <= coeff (dec_add a b).
Proof.
  intros Ha Hb. unfold dec_add, aligned. apply dec_fix_nonneg. cbn [coeff].
  assert (0 <= 10 ^ (expo a - Z.min (expo a) (expo b)))
    by (apply Z.pow_nonneg; lia).
  assert (0 <= 10 ^ (expo b - Z.min (expo a) (expo b)))
    by (apply Z.pow_nonneg; lia).
  nia.
Qed.

Lemma dec_to_int_nonneg (d : Decimal) : 0 <= coeff d -> 0 <= dec_to_int d.
Proof.
  intros H. unfold dec_to_int. destruct (0 <=? expo d) eqn:E.
  - apply Z.leb_le in E. apply Z.mul_nonneg_nonneg; [exact H|].
    apply Z.pow_nonneg. lia.
  - apply Z.quot_pos; [exact H|]. apply Z.pow_pos_nonneg; lia.
Qed.

Lemma position_fraction_nonneg (r : RiskLevel) :
  0 <= coeff (max_position_size (RISK_CONFIG r)).
Proof. destruct r; cbn; lia. Qed.

Lemma upserted_positive (t : Ticker) (q : Z) (p : Decimal)
    (a acc : Account) :
  positions_positive a -> 0 < q -> upserted t q p a = Some acc ->
  positions_positive acc.
Proof.
  intros Hp Hq. unfold upserted.
  destruct (holdings_of t a) as [|h [|h2 l]] eqn:Hof; try discriminate.
  - intros H. inversion H. apply positive_insert; assumption.
  - pose proof (held_positive t a h [] Hp Hof) as Hh.
    destruct (merge_average h q p) as [avg|]; [|discriminate].
    intros H. inversion H. apply positive_update; [exact Hp|]. cbn. lia.
Qed.

(** An engine buy in a market of positive prices, for a bot that owes
    nothing: the bot still owes nothing, and the position is positive. *)
Lemma execute_buy_standing (m : Market) (s : Ledger) (t : Ticker)
    (analysis : Analysis) :
  positive_prices m -> solvent (bot s) -> positions_positive (account s) ->
  solvent (bot (snd (execute_buy m no_faults s t analysis))) /\
  positions_positive (account (snd (execute_buy m no_faults s t analysis))) /\
  forall tr, fst (execute_buy m no_faults s t analysis) = Some tr ->
    0 < bt_quantity tr.
Proof.
  intros Hm Hb Hp. rewrite execute_buy_no_faults. unfold buy_outcome.
  assert (Hnone : solvent (bot s) /\ positions_positive (account s) /\
    forall tr : BotTrade, @None BotTrade = Some tr -> 0 < bt_quantity tr).
  { split; [exact Hb|]. split; [exact Hp|]. discriminate. }
  destruct (live_price m t) as [p|] eqn:Hpr; [|exact Hnone].
  pose proof (Hm t p Hpr) as Hpos.
  unfold position_size.
  destruct (dec_div _ p) as [q|] eqn:Hq; [|exact Hnone].
  assert (Hq0 : 0 <= dec_to_int q).
  { apply dec_to_int_nonneg. eapply dec_div_nonneg; [|exact Hpos|exact Hq].
    apply dec_mul_nonneg; [exact Hb|]. apply position_fraction_nonneg. }
  destruct (dec_to_int q =? 0) eqn:Hz; [exact Hnone|].
  apply Z.eqb_neq in Hz. cbn [orb].
  destruct (dec_gtb _ _) eqn:Hg; [exact Hnone|].
  destruct (upserted t (dec_to_int q) p (account s)) as [acc|] eqn:U;
    [|exact Hnone].
  cbn [fst snd bot account]. split; [|split].
  - unfold solvent. cbn [current_capital set_trading].
    apply dec_ltb_zero. apply dec_sub_nonneg. exact Hg.
  - apply (positive_rows (set_balance
             (dec_sub (balance (account s))
                (dec_mul p (dec_of_int (dec_to_int q)))) acc));
      [reflexivity|].
    apply (positive_rows acc); [reflexivity|].
    eapply upserted_positive; [exact Hp| |exact U]. lia.
  - intros tr H. inversion H. cbn. lia.
Qed.

Lemma check_holding_standing (m : Market) (s : Ledger) (h : Holding) :
  positive_prices m -> 0 < quantity h ->
  solvent (bot s) -> positions_positive (account s) ->
  solvent (bot (check_holding m s h)) /\
  positions_positive (account (check_holding m s h)).
Proof.
  intros Hm Hh Hb Hp. unfold check_holding.
  destruct (live_price m (stock h)) as [p|] eqn:Hpr; [|split; assumption].
  pose proof (Hm _ p Hpr) as Hpos.
  set (h1 := set_current_price p h).
  set (s1 := on_account (update_holding h1) s).
  assert (Hp1 : positions_positive (account s1)).
  { cbn. apply positive_update; [exact Hp|exact Hh]. }
  assert (Hsell : forall reason,
    solvent (bot (snd (execute_sell m no_faults s1 h1 reason))) /\
    positions_positive
      (account (snd (execute_sell m no_faults s1 h1 reason)))).
  { intros reason. rewrite execute_sell_no_faults. unfold sell_outcome.
    cbn [stock h1 set_current_price]. rewrite Hpr.
    cbn [snd bot account]. split.
    - unfold solvent. cbn [current_capital set_trading].
      apply dec_add_nonneg; [exact Hb|].
      unfold sell_revenue. apply dec_mul_nonneg; [lia|].
      cbn. lia.
    - apply positive_delete.
      apply (positive_rows (set_balance
               (dec_add (balance (account s1)) (sell_revenue h1 p))
               (account s1))); [reflexivity|].
      apply (positive_rows (account s1)); [reflexivity|exact Hp1]. }
  destruct (Qleb _ _); [apply Hsell|].
  destruct (Qgeb _ _); [apply Hsell|split; assumption].
Qed.

(** X22.  In a market of positive prices a trading cycle leaves a bot
    that owed nothing owing nothing, and every position positive: the
    engine spends no more than the bot's capital, whatever it does to the
    account's balance. *)
Theorem cycle_keeps_bot_solvent (m : Market) (s : Ledger) :
  positive_prices m -> solvent (bot s) -> positions_positive (account s) ->
  solvent (bot (snd (run_trading_cycle m s))) /\
  positions_positive (account (snd (run_trading_cycle m s))).
Proof.
  intros Hm Hb Hp. unfold run_trading_cycle.
  destruct (negb _); [split; assumption|].
  assert (H1 : solvent (bot (check_stop_loss_take_profit m s)) /\
               positions_positive (account (check_stop_loss_take_profit m s))).
  { unfold check_stop_loss_take_profit.
    assert (Hhs : Forall (fun h => 0 < quantity h) (holdings (account s)))
      by exact Hp.
    revert Hhs Hb Hp. generalize (holdings (account s)) as hs. intros hs.
    revert s. induction hs as [|h rest IH]; intros s Hhs Hb Hp;
      [split; assumption|].
    cbn [fold_left]. inversion Hhs as [|? ? Hh Hrest]; subst.
    destruct (check_holding_standing m s h Hm Hh Hb Hp) as [Hb1 Hp1].
    apply IH; assumption. }
  destruct H1 as [Hb1 Hp1]. unfold scan_watchlist.
  set (s1 := check_stop_loss_take_profit m s) in *.
  assert (H2 : forall ts (acc : CycleStats * Ledger),
    solvent (bot (snd acc)) -> positions_positive (account (snd acc)) ->
    solvent (bot (snd (fold_left (scan_ticker m) ts acc))) /\
    positions_positive (account (snd (fold_left (scan_ticker m) ts acc)))).
  { induction ts as [|t rest IH]; intros acc Hba Hpa; [split; assumption|].
    cbn [fold_left].
    assert (solvent (bot (snd (scan_ticker m acc t))) /\
            positions_positive (account (snd (scan_ticker m acc t))))
      as [Hb2 Hp2].
    { destruct acc as [res s0]. unfold scan_ticker. cbn [snd] in *.
      destruct (analyze_stock m (bot s0) t) as [a|]; [|split; assumption].
      destruct (_ && _)%bool; [|split; assumption].
      destruct (execute_buy_standing m s0 t a Hm Hba Hpa) as (X & Y & _).
      destruct (execute_buy m no_faults s0 t a) as [[tr|] s']; split;
        assumption. }
    apply IH; assumption. }
  specialize (H2 (stocks (config (bot s1)))
    ({| analyzed := 0; bought := 0; sold := 0; cycle_signals := [] |}, s1)
    Hb1 Hp1).
  destruct (fold_left _ _ _) as [res s']. exact H2.
Qed.

Lemma aapl_market_positive (p : Z) (signal : string) (d : OHLCV) :
  0 < p -> positive_prices (aapl_market p signal d).
Proof.
  intros Hp t q. cbn. destruct (String.eqb t "AAPL"); [|discriminate].
  intros H. inversion H. cbn. exact Hp.
Qed.

Lemma cycle_keeps_bot_solvent_witness :
  let m := aapl_market 10000 "STRONG_BUY" rising_bar in
  let s := open_ledger (fresh_account 0) (demo_bot MEDIUM (cents 1000000)) in
  solvent (bot (snd (run_trading_cycle m s))) /\
  positions_positive (account (snd (run_trading_cycle m s))).
Proof.
  cbv zeta.
  apply (cycle_keeps_bot_solvent
           (aapl_market 10000 "STRONG_BUY" rising_bar)
           (open_ledger (fresh_account 0) (demo_bot MEDIUM (cents 1000000)))).
  - apply aapl_market_positive. lia.
  - unfold solvent. cbn. lia.
  - constructor.
Defined.

Lemma pow10_pos (e : Z) : (0 < pow10 e)%Q.
Proof. unfold pow10. apply Qpower_0_lt. reflexivity. Qed.

(** The order of two decimals is the order of their values. *)
Lemma dec_ltb_value (a b : Decimal) :
  dec_ltb a b = true <-> (dec_value a < dec_value b)%Q.
Proof.
  destruct (aligned_value a b) as [Ha Hb].
  unfold dec_ltb, dec_compare. destruct (aligned a b) as [x y].
  cbn [fst snd] in *. rewrite <- Ha, <- Hb.
  pose proof (pow10_pos (Z.min (expo a) (expo b))) as P.
  rewrite Qmult_lt_r by exact P. rewrite <- Zlt_Qlt.
  destruct (x ?= y) eqn:E.
  - apply Z.compare_eq in E. split; [discriminate|lia].
  - rewrite Z.compare_lt_iff in E. split; auto.
  - rewrite Z.compare_gt_iff in E. split; [discriminate|lia].
Qed.

Lemma dec_value_sign (d : Decimal) :
  (0 <= coeff d -> (0 <= dec_value d)%Q) /\
  (0 < coeff d -> (0 < dec_value d)%Q).
Proof.
  rewrite dec_value_power. pose proof (pow10_pos (expo d)) as P. split.
  - intros H. apply Qmult_le_0_compat; [|lra].
    change 0%Q with (inject_Z 0). rewrite <- Zle_Qle. exact H.
  - intros H. apply Qmult_lt_0_compat; [|exact P].
    change 0%Q with (inject_Z 0). rewrite <- Zlt_Qlt. exact H.
Qed.

Lemma position_fraction_value (r : RiskLevel) :
  (0 <= dec_value (max_position_size (RISK_CONFIG r)) <= 1)%Q.
Proof. destruct r; cbn; split; discriminate. Qed.

(** The cost of the position an engine buy sizes is within the capital,
    as long as nothing had to be rounded on the way. *)
Lemma sized_position_is_covered (b : AutoTradingBot) (p q : Decimal) :
  let fraction := max_position_size (config b) in
  let max_investment := dec_mul (current_capital b) fraction in
  let qty := dec_to_int q in
  0 <= coeff (current_capital b) -> 0 < coeff p ->
  ndigits (Z.abs (coeff (current_capital b) * coeff fraction)) <= prec ->
  ndigits (coeff max_investment)
  + (expo max_investment - Z.min (expo max_investment) (expo p)) <= 27 ->
  dec_div max_investment p = Some q ->
  ndigits (Z.abs (coeff p * qty)) <= prec ->
  dec_gtb (dec_mul p (dec_of_int qty)) (current_capital b) = false.
Proof.
  cbv zeta. intros Hc Hp E1 E2 Hq E3.
  set (cap := current_capital b) in *.
  set (frac := max_position_size (config b)) in *.
  set (mi := dec_mul cap frac) in *.
  assert (Hmi : 0 <= coeff mi).
  { apply dec_mul_nonneg; [exact Hc|]. apply position_fraction_nonneg. }
  pose proof (dec_div_floor mi p q Hmi Hp E2 Hq) as Hfloor.
  rewrite <- (dec_quotient_floor mi p Hp) in Hfloor.
  pose proof (Qfloor_le (dec_value mi / dec_value p)) as Hle.
  rewrite <- Hfloor in Hle.
  destruct (dec_value_sign p) as [_ Hvp]. specialize (Hvp Hp).
  destruct (dec_value_sign cap) as [Hvc _]. specialize (Hvc Hc).
  pose proof (position_fraction_value (risk_level b)) as [F0 F1].
  fold (config b) in F0, F1. fold frac in F0, F1.
  pose proof (dec_mul_exact cap frac E1) as Vmi. fold mi in Vmi.
  pose proof (dec_mul_int_exact p (dec_to_int q) E3) as Vcost.
  unfold dec_gtb. destruct (dec_ltb cap _) eqn:L; [|reflexivity].
  exfalso. apply dec_ltb_value in L. rewrite Vcost in L.
  assert (H1 : (inject_Z (dec_to_int q) * dec_value p <= dec_value mi)%Q).
  { apply (Qmult_le_r _ _ (/ dec_value p)); [apply Qinv_lt_0_compat; exact Hvp|].
    setoid_replace (inject_Z (dec_to_int q) * dec_value p * / dec_value p)%Q
      with (inject_Z (dec_to_int q)) by (field; lra).
    exact Hle. }
  rewrite Vmi in H1.
  assert (H2 : (dec_value frac * dec_value cap <= 1 * dec_value cap)%Q).
  { apply Qmult_le_compat_r; assumption. }
  lra.
Qed.

Lemma upserted_defined (t : Ticker) (q : Z) (p : Decimal) (a : Account) :
  sound_table a -> positions_positive a -> 0 < q ->
  exists acc, upserted t q p a = Some acc.
Proof.
  intros Hs Hp Hq. unfold upserted.
  destruct (sound_lookup t a Hs) as [Hn|(h & Hone & _)].
  - rewrite Hn. eexists. reflexivity.
  - rewrite Hone. pose proof (held_positive _ a h [] Hp Hone) as Hh.
    unfold merge_average.
    destruct (dec_div_defined
      (dec_add (dec_mul (buying_price h) (dec_of_int (quantity h)))
               (dec_mul p (dec_of_int q)))
      (dec_of_int (quantity h + q))) as (avg & Havg).
    { cbn. lia. }
    rewrite Havg. eexists. reflexivity.
Qed.

(** X23.  For a bot that owes nothing the test of the cost against the
    capital never turns a buy down: the cost of the position that the
    engine sizes is within the capital, as long as no product or quotient
    on the way had to be rounded.  With a price, a sound table of
    positive positions and a quantity of at least one share, the buy is
    executed. *)
Theorem capital_check_never_rejects (m : Market) (s : Ledger) (t : Ticker)
    (analysis : Analysis) (p q : Decimal) :
  let b := bot s in
  let fraction := max_position_size (config b) in
  let max_investment := dec_mul (current_capital b) fraction in
  let qty := dec_to_int q in
  let total_cost := dec_mul p (dec_of_int qty) in
  sound_table (account s) -> positions_positive (account s) ->
  0 <= coeff (current_capital b) ->
  live_price m t = Some p -> 0 < coeff p ->
  ndigits (Z.abs (coeff (current_capital b) * coeff fraction)) <= prec ->
  ndigits (coeff max_investment)
  + (expo max_investment - Z.min (expo max_investment) (expo p)) <= 27 ->
  dec_div max_investment p = Some q ->
  ndigits (Z.abs (coeff p * qty)) <= prec ->
  dec_gtb total_cost (current_capital b) = false /\
  (qty <> 0 ->
   exists tr s',
     execute_buy m no_faults s t analysis = (Some tr, s') /\
     bt_quantity tr = qty /\ total_value tr = total_cost).
Proof.
  cbv zeta. intros Hs Hpos Hc Hp Hcp E1 E2 Hq E3.
  pose proof (sized_position_is_covered (bot s) p q Hc Hcp E1 E2 Hq E3) as G.
  cbv zeta in G. split; [exact G|]. intros Hz.
  rewrite execute_buy_no_faults. unfold buy_outcome, position_size.
  rewrite Hp, Hq, G. apply Z.eqb_neq in Hz. rewrite Hz. cbn [orb].
  apply Z.eqb_neq in Hz.
  assert (Hq0 : 0 <= dec_to_int q).
  { apply dec_to_int_nonneg. eapply dec_div_nonneg; [|exact Hcp|exact Hq].
    apply dec_mul_nonneg; [exact Hc|]. apply position_fraction_nonneg. }
  destruct (upserted_defined t (dec_to_int q) p (account s) Hs Hpos)
    as (acc & U); [lia|].
  rewrite U. do 2 eexists. split; [reflexivity|]. split; reflexivity.
Qed.

Lemma capital_check_never_rejects_witness :
  let m := aapl_market 10000 "STRONG_BUY" rising_bar in
  let s := open_ledger (fresh_account 0) (demo_bot MEDIUM (cents 1000000)) in
  exists analysis tr s',
    analyze_stock m (bot s) "AAPL" = Some analysis /\
    execute_buy m no_faults s "AAPL" analysis = (Some tr, s') /\
    bt_quantity tr = 15 /\ total_value tr = cents 150000.
Proof.
  cbv zeta.
  eassert (Ha : analyze_stock (aapl_market 10000 "STRONG_BUY" rising_bar)
                  (bot (open_ledger (fresh_account 0)
                          (demo_bot MEDIUM (cents 1000000)))) "AAPL"
                = Some _) by (vm_compute; reflexivity).
  eassert (Hq : dec_div
                  (dec_mul (cents 1000000) (mkDec 15 (-2))) (cents 10000)
                = Some _) by (vm_compute; reflexivity).
  match type of Ha with _ = Some ?an =>
  match type of Hq with _ = Some ?q =>
    destruct (capital_check_never_rejects
                (aapl_market 10000 "STRONG_BUY" rising_bar)
                (open_ledger (fresh_account 0)
                             (demo_bot MEDIUM (cents 1000000)))
                "AAPL" an (cents 10000) q
                (fresh_account_sound 0) (Forall_nil _))
      as (_ & Hgo)
  end end.
  - cbn. lia.
  - reflexivity.
  - cbn. lia.
  - vm_compute. discriminate.
  - vm_compute. discriminate.
  - exact Hq.
  - vm_compute. discriminate.
  - destruct Hgo as (tr & s' & Hrun & Hqty & Hval).
    + vm_compute. discriminate.
    + eexists. exists tr, s'. split; [exact Ha|]. split; [exact Hrun|].
      split; [exact Hqty|exact Hval].
Defined.
